(** * Porsha: disk-image navigation and the background worker protocol

    A shallow embedding of [tools/disk_analysis.py] (class
    [DiskImageHandler]), [gui/worker.py] (classes [BaseWorker] and
    [DiskAnalysisWorker]) and the navigation logic of [gui/disk_tab.py]
    (class [DiskTab]), followed by the properties of these functions.
    The utilities come after them: [tools/calculate_hash.py],
    [tools/network_analysis.py] and their workers [HashWorker] and
    [NetworkAnalysisWorker] of [gui/worker.py].

    Conventions.
    - A Python [str] is the list of its code points ([pystr]); a Python
      [bytes] is a [list byte].
    - The forensic library pytsk3 is an opaque collaborator: its
      constructors are the fields of a record [Pytsk3.module] the functions
      take as part of their [runtime], its objects are records of the
      attributes and methods the code reads, and a call may return or raise.
      Attribute reads on these objects return, except where the record says
      otherwise ([file_meta], [vs_block_size]); arguments have the types the
      docstrings give them (an index, an offset and an inode are [int] or
      [None]).
    - scapy, [open], [os.path] and [hashlib] are collaborators in the
      same way. A Python [float] is a value of a type the analysis of
      captures is generic in; its comparison, its truth value and its
      formatting as a date are fields of the runtime.
    - Exceptions are the subclasses of [Exception]; a [KeyboardInterrupt]
      or [SystemExit] is not modelled.
    - [logger] calls have no effect the code observes and are left out.
    - Qt signals and widgets are modelled by what the code does with them:
      a worker's emitted signals are a list in emission order, a table
      widget is the list of its rows. *)

From Stdlib Require Import ZArith NArith List Bool Lia String Ascii.
From Stdlib Require Import DecimalString Sorting.Sorted Permutation.
From Stdlib Require Strings.Byte.
Import ListNotations.
Open Scope Z_scope.

(* ===================================================================== *)
(** ** Python values: strings, bytes, exceptions                          *)
(* ===================================================================== *)

Module Py.

(** A [str] is a sequence of Unicode code points. *)
Definition pystr := list N.

(** An ASCII literal as a [str]. *)
Definition lit (s : string) : pystr :=
  map N_of_ascii (list_ascii_of_string s).

(** [str(n)] for an [int]. *)
Definition str_int (z : Z) : pystr :=
  lit (NilZero.string_of_int (Z.to_int z)).

(** [str(x)] for a value that is [None] or a [str]. *)
Definition str_opt_str (o : option pystr) : pystr :=
  match o with
  | None => lit "None"
  | Some s => s
  end.

(** [str(x)] for a value that is [None] or an [int]. *)
Definition str_opt_int (o : option Z) : pystr :=
  match o with
  | None => lit "None"
  | Some z => str_int z
  end.

Fixpoint pystr_eqb (a b : pystr) : bool :=
  match a, b with
  | [], [] => true
  | x :: a', y :: b' => N.eqb x y && pystr_eqb a' b'
  | _, _ => false
  end.

(** [a < b] on strings: lexicographic on code points. *)
Fixpoint pystr_ltb (a b : pystr) : bool :=
  match a, b with
  | _, [] => false
  | [], _ :: _ => true
  | x :: a', y :: b' =>
      if N.ltb x y then true
      else if N.ltb y x then false
      else pystr_ltb a' b'
  end.

Definition pystr_leb (a b : pystr) : bool := negb (pystr_ltb b a).

(** [prefix.startswith]-style test: is [p] a prefix of [s]. *)
Fixpoint startswith (s p : pystr) : bool :=
  match p, s with
  | [], _ => true
  | _ :: _, [] => false
  | y :: p', x :: s' => N.eqb x y && startswith s' p'
  end.

(** [p in s] for strings: [p] occurs in [s] as a substring. *)
Fixpoint contains (s p : pystr) : bool :=
  startswith s p ||
  match s with
  | [] => false
  | _ :: s' => contains s' p
  end.

(** [oct(n)]: sign, the prefix [0o], the octal digits. *)
Fixpoint oct_digits (fuel : nat) (n : N) (acc : pystr) : pystr :=
  match fuel with
  | O => acc
  | S fuel' =>
      let acc' := (48 + N.modulo n 8)%N :: acc in
      if N.ltb n 8 then acc' else oct_digits fuel' (N.div n 8) acc'
  end.

Definition oct (z : Z) : pystr :=
  let n := Z.abs_N z in
  (if Z.ltb z 0 then lit "-" else []) ++ lit "0o"
    ++ oct_digits (S (N.to_nat (N.log2 n))) n [].

(** *** bytes *)

Definition pybytes := list Byte.byte.

Definition byte_eqb (a b : Byte.byte) : bool := N.eqb (Byte.to_N a) (Byte.to_N b).

Fixpoint bytes_eqb (a b : pybytes) : bool :=
  match a, b with
  | [], [] => true
  | x :: a', y :: b' => byte_eqb x y && bytes_eqb a' b'
  | _, _ => false
  end.

(** [b.startswith(p)]. *)
Fixpoint bytes_startswith (s p : pybytes) : bool :=
  match p, s with
  | [], _ => true
  | _ :: _, [] => false
  | y :: p', x :: s' => byte_eqb x y && bytes_startswith s' p'
  end.

(** *** [bytes.decode('utf-8', errors='replace')]

    CPython's decoder: a well-formed sequence gives its code point; an
    ill-formed one gives one U+FFFD for its longest prefix that starts a
    well-formed sequence (the lead byte and the continuation bytes accepted
    so far), or for the single byte when it cannot start one.  The second
    byte of a three- or four-byte sequence is restricted after the leads
    E0, ED, F0 and F4 (no overlong forms, no surrogates, nothing above
    U+10FFFF). *)

Definition replacement : N := 65533.

Definition is_cont (b : N) : bool := N.leb 128 b && N.leb b 191.

(** The second byte a lead byte of a 3- or 4-byte sequence accepts. *)
Definition second_ok (lead b : N) : bool :=
  if N.eqb lead 224 then N.leb 160 b && N.leb b 191
  else if N.eqb lead 237 then N.leb 128 b && N.leb b 159
  else if N.eqb lead 240 then N.leb 144 b && N.leb b 191
  else if N.eqb lead 244 then N.leb 128 b && N.leb b 143
  else is_cont b.

Fixpoint decode_utf8 (bs : pybytes) : pystr :=
  match bs with
  | [] => []
  | b0 :: r1 =>
      let c0 := Byte.to_N b0 in
      if N.ltb c0 128 then c0 :: decode_utf8 r1
      else if N.leb 194 c0 && N.leb c0 223 then
        match r1 with
        | b1 :: r2 =>
            let c1 := Byte.to_N b1 in
            if is_cont c1
            then ((c0 - 192) * 64 + (c1 - 128))%N :: decode_utf8 r2
            else replacement :: decode_utf8 r1
        | [] => replacement :: decode_utf8 r1
        end
      else if N.leb 224 c0 && N.leb c0 239 then
        match r1 with
        | b1 :: r2 =>
            let c1 := Byte.to_N b1 in
            if second_ok c0 c1 then
              match r2 with
              | b2 :: r3 =>
                  let c2 := Byte.to_N b2 in
                  if is_cont c2
                  then ((c0 - 224) * 4096 + (c1 - 128) * 64 + (c2 - 128))%N
                         :: decode_utf8 r3
                  else replacement :: decode_utf8 r2
              | [] => replacement :: decode_utf8 r2
              end
            else replacement :: decode_utf8 r1
        | [] => replacement :: decode_utf8 r1
        end
      else if N.leb 240 c0 && N.leb c0 244 then
        match r1 with
        | b1 :: r2 =>
            let c1 := Byte.to_N b1 in
            if second_ok c0 c1 then
              match r2 with
              | b2 :: r3 =>
                  let c2 := Byte.to_N b2 in
                  if is_cont c2 then
                    match r3 with
                    | b3 :: r4 =>
                        let c3 := Byte.to_N b3 in
                        if is_cont c3
                        then ((c0 - 240) * 262144 + (c1 - 128) * 4096
                              + (c2 - 128) * 64 + (c3 - 128))%N
                               :: decode_utf8 r4
                        else replacement :: decode_utf8 r3
                    | [] => replacement :: decode_utf8 r3
                    end
                  else replacement :: decode_utf8 r2
              | [] => replacement :: decode_utf8 r2
              end
            else replacement :: decode_utf8 r1
        | [] => replacement :: decode_utf8 r1
        end
      else replacement :: decode_utf8 r1
  end.

(** *** Exceptions

    The classes the code distinguishes: [IOError] (an alias of [OSError] in
    Python 3) is caught apart from the rest in [disk_analysis.py];
    [ValueError] and [OSError] are caught in [_format_timestamp]. *)

Inductive exn_class :=
| OSError | ValueError | AttributeError | NameError | TypeError
| ZeroDivisionError | OverflowError | OtherException.

Record exn := Exn { exn_cls : exn_class; exn_msg : pystr }.

Definition is_IOError (e : exn) : bool :=
  match exn_cls e with OSError => true | _ => false end.

Definition is_ValueError (e : exn) : bool :=
  match exn_cls e with ValueError => true | _ => false end.

(** The outcome of a call: a value, or an exception raised. *)
Inductive result (A : Type) :=
| Ok (a : A)
| Raise (e : exn).
Arguments Ok {A} a.
Arguments Raise {A} e.

End Py.

Import Py.

(* ===================================================================== *)
(** ** The collaborator: pytsk3                                           *)
(* ===================================================================== *)

Module Pytsk3.

(** An entry of a volume system ([TSK_VS_PART_INFO]). *)
Record part := {
  part_addr : Z;
  part_desc : option pybytes;      (* None when the attribute is None *)
  part_start : Z;
  part_len : Z;
  part_flags_str : pystr           (* str(part.flags) *)
}.

(** An iteration over a collaborator object: the items it yields and, when
    it stops with an exception, that exception. *)
Definition iteration (A : Type) : Type := (list A * option exn)%type.

(** A [Volume_Info] object. *)
Record volume_system := {
  vs_iter : iteration part;
  vs_block_size : option Z;        (* None when there is no such attribute *)
  vs_get_part_by_addr : Z -> result (option part)
}.

(** A directory entry's name structure ([f.info.name]). *)
Record fs_name := {
  name_name : pybytes;
  name_flags : Z
}.

(** A file's metadata structure ([f.info.meta]). *)
Record fs_meta := {
  meta_addr : Z;
  meta_type : Z;
  meta_mode : Z;
  meta_size : Z;
  meta_mtime : Z;
  meta_atime : Z;
  meta_ctime : Z;
  meta_crtime : Z
}.

(** A [File] object yielded by a directory; [f.info.meta] may be [None]. *)
Record file := {
  file_name : fs_name;
  file_meta : option fs_meta
}.

(** A [Directory] object: [directory.info.fs_file.meta.addr] and its
    iteration. *)
Record directory := {
  dir_addr : Z;
  dir_iter : iteration file
}.

(** An [FS_Info] object. [fs_type_name] is
    [pytsk3.TSK_FS_TYPE_ENUM(fs.info.ftype).name]. *)
Record filesystem := {
  fs_root_inum : Z;
  fs_type_name : result pystr;
  fs_open_dir_inode : Z -> result directory;
  fs_open_dir_path : option pystr -> result directory
}.

(** An [Img_Info] object. *)
Record image := {
  img_url : option pystr;
  img_get_size : result Z;
  img_get_block_size : result Z
}.

(** The module's constructors and its enumeration of metadata types. The
    image argument is the handler's [img_info] attribute, which is [None]
    after [close]. [TSK_FS_META_TYPE_ENUM_name v] is the expression
    [pytsk3.TSK_FS_META_TYPE_ENUM(v).name]: the name it evaluates to, or
    the exception it raises (no member of that value, or an object without
    the attribute [name]). *)
Record module := {
  Img_Info : option pystr -> result image;
  Volume_Info : option image -> result volume_system;
  FS_Info : option image -> Z -> result filesystem;
  TSK_FS_META_TYPE_ENUM_name : Z -> result pystr
}.

(** [TSK_FS_NAME_FLAG_UNALLOC]. *)
Definition TSK_FS_NAME_FLAG_UNALLOC : Z := 2.

(** The collaborator calls a handler makes, recorded in call order so that
    "the collaborator was not invoked" can be stated. *)
Inductive call :=
| Call_Volume_Info
| Call_get_size
| Call_get_block_size
| Call_get_part_by_addr (i : Z)
| Call_FS_Info (offset : Z)
| Call_open_dir_inode (inode : Z)
| Call_open_dir_path (path : option pystr).

End Pytsk3.

(* ===================================================================== *)
(** ** tools/disk_analysis.py: class DiskImageHandler                     *)
(* ===================================================================== *)

Module DiskAnalysis.
Import Pytsk3.

(** What the code takes from its surroundings: the pytsk3 module,
    [str.lower] (Unicode case mapping), and
    [datetime.fromtimestamp(ts).strftime('%Y-%m-%d %H:%M:%S')], which
    depends on the local time zone and may raise. *)
Record runtime := {
  pytsk3 : Pytsk3.module;
  str_lower : pystr -> pystr;
  fromtimestamp_strftime : Z -> result pystr
}.

(** Sequencing of calls that may raise. *)
Definition bind {A B : Type} (r : result A) (k : A -> result B) : result B :=
  match r with
  | Ok a => k a
  | Raise e => Raise e
  end.

Notation "x <- r ;; k" := (bind r (fun x => k))
  (at level 61, r at next level, right associativity).

(** One dictionary of the list [get_volume_info] returns. *)
Record volume := {
  slot : Z;
  desc : pystr;
  start_sector : Z;
  num_sectors : Z;
  flags : pystr
}.

(** One dictionary of the list [list_directory] returns. *)
Record entry := {
  inode : Z;
  name : pystr;
  type : pystr;
  mode : pystr;
  size : Z;
  mtime : pystr;
  atime : pystr;
  ctime : pystr;
  crtime : pystr;
  is_deleted : bool
}.

(** The attributes of a handler, and the collaborator calls it has made. *)
Record DiskImageHandler := {
  image_path : option pystr;
  img_info : option image;
  volume_info : option volume_system;
  fs_info : option filesystem;
  partition_offset : option Z;
  calls : list call
}.

Definition set_volume_info (v : option volume_system) (self : DiskImageHandler) :=
  {| image_path := image_path self; img_info := img_info self;
     volume_info := v; fs_info := fs_info self;
     partition_offset := partition_offset self; calls := calls self |}.

Definition set_fs_info (f : option filesystem) (self : DiskImageHandler) :=
  {| image_path := image_path self; img_info := img_info self;
     volume_info := volume_info self; fs_info := f;
     partition_offset := partition_offset self; calls := calls self |}.

Definition set_partition_offset (o : option Z) (self : DiskImageHandler) :=
  {| image_path := image_path self; img_info := img_info self;
     volume_info := volume_info self; fs_info := fs_info self;
     partition_offset := o; calls := calls self |}.

Definition set_img_info (i : option image) (self : DiskImageHandler) :=
  {| image_path := image_path self; img_info := i;
     volume_info := volume_info self; fs_info := fs_info self;
     partition_offset := partition_offset self; calls := calls self |}.

(** Record a collaborator call. *)
Definition called (c : call) (self : DiskImageHandler) :=
  {| image_path := image_path self; img_info := img_info self;
     volume_info := volume_info self; fs_info := fs_info self;
     partition_offset := partition_offset self; calls := calls self ++ [c] |}.

(** Stable sort by key, as [list.sort(key=...)]: an element goes before the
    first element of the sorted rest whose key is not smaller than its own. *)
Fixpoint insert_by {A K : Type} (ltb : K -> K -> bool) (key : A -> K)
  (x : A) (l : list A) : list A :=
  match l with
  | [] => [x]
  | y :: l' =>
      if ltb (key y) (key x) then y :: insert_by ltb key x l'
      else x :: y :: l'
  end.

Fixpoint sort_by {A K : Type} (ltb : K -> K -> bool) (key : A -> K)
  (l : list A) : list A :=
  match l with
  | [] => []
  | x :: l' => insert_by ltb key x (sort_by ltb key l')
  end.

(** [<] on the tuples [(bool, str)] the listing is sorted by. *)
Definition key_ltb (a b : bool * pystr) : bool :=
  if Bool.eqb (fst a) (fst b) then pystr_ltb (snd a) (snd b)
  else negb (fst a) && fst b.

Section WithRuntime.
Variable rt : runtime.

(** [DiskImageHandler.__init__]: both handlers of the [try] log and
    re-raise, and any other exception propagates as well. *)
Definition init (path : option pystr) : result DiskImageHandler :=
  img <- Img_Info (pytsk3 rt) path ;;
  Ok {| image_path := path; img_info := Some img; volume_info := None;
        fs_info := None; partition_offset := None; calls := [] |}.

(** The dictionary built from one partition in the loop of
    [get_volume_info]. [part.desc] is falsy when [None] or empty. *)
Definition volume_of_part (p : part) : volume :=
  {| slot := part_addr p;
     desc := match part_desc p with
             | Some (b :: bs) => decode_utf8 (b :: bs)
             | _ => lit "N/A"
             end;
     start_sector := part_start p;
     num_sectors := part_len p;
     flags := part_flags_str p |}.

(** [self.img_info.get_size() // self.img_info.get_block_size()]. *)
Definition approx_sector_count (self : DiskImageHandler)
  : result Z * DiskImageHandler :=
  match img_info self with
  | None =>
      (Raise (Exn AttributeError
                (lit "'NoneType' object has no attribute 'get_size'")), self)
  | Some img =>
      let self := called Call_get_size self in
      match img_get_size img with
      | Raise e => (Raise e, self)
      | Ok sz =>
          let self := called Call_get_block_size self in
          match img_get_block_size img with
          | Raise e => (Raise e, self)
          | Ok bs =>
              if Z.eqb bs 0
              then (Raise (Exn ZeroDivisionError
                             (lit "integer division or modulo by zero")), self)
              else (Ok (Z.div sz bs), self)
          end
      end
  end.

(** The [except IOError] handler of [get_volume_info]: [volumes] holds what
    the loop appended before the exception. An exception raised here is not
    caught by the [except Exception] clause that follows it. *)
Definition no_volume_system (volumes : list volume) (self : DiskImageHandler)
  : result (list volume) * DiskImageHandler :=
  match approx_sector_count self with
  | (Raise e, self) => (Raise e, self)
  | (Ok n, self) =>
      (Ok (volumes ++
           [ {| slot := 0;
                desc := lit "Potential Filesystem (No Partition Table)";
                start_sector := 0;
                num_sectors := n;
                flags := lit "N/A" |} ]), self)
  end.

Definition get_volume_info (self : DiskImageHandler)
  : result (list volume) * DiskImageHandler :=
  let self := called Call_Volume_Info self in
  match Volume_Info (pytsk3 rt) (img_info self) with
  | Raise e =>
      if is_IOError e then no_volume_system [] self
      else (Ok [], self)
  | Ok vs =>
      let self := set_volume_info (Some vs) self in
      match vs_iter vs with
      | (parts, None) => (Ok (map volume_of_part parts), self)
      | (parts, Some e) =>
          if is_IOError e then no_volume_system (map volume_of_part parts) self
          else (Ok [], self)
      end
  end.

(** Both [except] clauses of [open_filesystem]. *)
Definition open_failed (self : DiskImageHandler) : bool * DiskImageHandler :=
  (false, set_partition_offset None (set_fs_info None self)).

(** "Open the filesystem": the end of the [try] block of [open_filesystem],
    at the byte offset just stored in [partition_offset]. *)
Definition open_at (offset : Z) (self : DiskImageHandler)
  : bool * DiskImageHandler :=
  let self := set_partition_offset (Some offset) self in
  let self := called (Call_FS_Info offset) self in
  match FS_Info (pytsk3 rt) (img_info self) offset with
  | Raise e => open_failed self
  | Ok fs =>
      let self := set_fs_info (Some fs) self in
      match fs_type_name fs with
      | Raise e => open_failed self
      | Ok _ => (true, self)
      end
  end.

Definition open_filesystem (self : DiskImageHandler)
  (partition_index offset_sectors : option Z) : bool * DiskImageHandler :=
  let self := set_partition_offset None (set_fs_info None self) in
  match partition_index, offset_sectors with
  | Some _, Some _ => (false, self)
  | None, None => (false, self)
  | Some i, None =>
      match volume_info self with
      | None => (false, self)
      | Some vs =>
          let self := called (Call_get_part_by_addr i) self in
          match vs_get_part_by_addr vs i with
          | Raise e => open_failed self
          | Ok None => (false, self)
          | Ok (Some p) =>
              match vs_block_size vs with
              | None => open_failed self
              | Some bs => open_at (part_start p * bs) self
              end
          end
      end
  | None, Some off =>
      let sector_size :=
        match volume_info self with
        | Some vs =>
            match vs_block_size vs with Some bs => bs | None => 512 end
        | None => 512
        end in
      open_at (off * sector_size) self
  end.

(** [_format_timestamp]. *)
Definition _format_timestamp (ts : Z) : result pystr :=
  if Z.eqb ts 0 then Ok (lit "N/A")
  else
    match fromtimestamp_strftime rt ts with
    | Ok s => Ok s
    | Raise e =>
        if is_ValueError e || is_IOError e then Ok (lit "Invalid Date")
        else Raise e
    end.

(** The body of the loop of [list_directory] for one file of directory
    [d]: [Ok None] when the file is skipped, [Ok (Some e)] when [e] is
    appended, [Raise] when the body raises. *)
Definition entry_of_file (fs : filesystem) (d : directory) (f : file)
  : result (option entry) :=
  let nm := name_name (file_name f) in
  if (bytes_eqb nm [Byte.x2e] || bytes_eqb nm [Byte.x2e; Byte.x2e])
     && negb (Z.eqb (dir_addr d) (fs_root_inum fs))
  then Ok None
  else if bytes_startswith nm [Byte.x24] then Ok None
  else
    match file_meta f with
    | None =>
        Raise (Exn AttributeError
                 (lit "'NoneType' object has no attribute 'type'"))
    | Some m =>
        let deleted :=
          negb (Z.eqb (Z.land (name_flags (file_name f))
                              TSK_FS_NAME_FLAG_UNALLOC) 0) in
        t <- TSK_FS_META_TYPE_ENUM_name (pytsk3 rt) (meta_type m) ;;
        mt <- _format_timestamp (meta_mtime m) ;;
        at_ <- _format_timestamp (meta_atime m) ;;
        ct <- _format_timestamp (meta_ctime m) ;;
        crt <- _format_timestamp (meta_crtime m) ;;
        Ok (Some {| inode := meta_addr m;
                    name := decode_utf8 nm;
                    type := t;
                    mode := if Z.eqb (meta_mode m) 0 then lit "N/A"
                            else oct (meta_mode m);
                    size := meta_size m;
                    mtime := mt; atime := at_; ctime := ct; crtime := crt;
                    is_deleted := deleted |})
    end.

(** The loop [for f in directory] over the files the iteration yields. *)
Fixpoint collect_entries (fs : filesystem) (d : directory) (files : list file)
  : result (list entry) :=
  match files with
  | [] => Ok []
  | f :: files' =>
      o <- entry_of_file fs d f ;;
      rest <- collect_entries fs d files' ;;
      Ok (match o with Some e => e :: rest | None => rest end)
  end.

(** The key of [entries.sort]. *)
Definition sort_key (x : entry) : bool * pystr :=
  (negb (pystr_eqb (type x) (lit "TSK_FS_META_TYPE_DIR")), str_lower rt (name x)).

Definition list_directory (self : DiskImageHandler)
  (path : option pystr) (inode_arg : option Z)
  : list entry * DiskImageHandler :=
  match fs_info self with
  | None => ([], self)
  | Some fs =>
      let opened :=
        match inode_arg with
        | Some i => (fs_open_dir_inode fs i, called (Call_open_dir_inode i) self)
        | None => (fs_open_dir_path fs path, called (Call_open_dir_path path) self)
        end in
      let self := snd opened in
      match fst opened with
      | Raise e => ([], self)
      | Ok d =>
          match dir_iter d with
          | (_, Some e) => ([], self)
          | (files, None) =>
              match collect_entries fs d files with
              | Raise e => ([], self)
              | Ok entries => (sort_by key_ltb sort_key entries, self)
              end
          end
      end
  end.

(** [close]. *)
Definition close (self : DiskImageHandler) : DiskImageHandler :=
  match img_info self with
  | Some _ => set_fs_info None (set_volume_info None (set_img_info None self))
  | None => self
  end.

End WithRuntime.
End DiskAnalysis.

(* ===================================================================== *)
(** ** gui/worker.py: BaseWorker and DiskAnalysisWorker                   *)
(* ===================================================================== *)

Module Worker.
Import DiskAnalysis.

(** The signals of [BaseWorker] and [DiskAnalysisWorker] with their
    arguments. ([results_ready] is declared by [BaseWorker]; the disk
    worker never emits it.) *)
Inductive signal :=
| finished
| error (msg : pystr)
| progress (msg : pystr)
| results_ready
| volume_info_ready (volumes : list volume)
| directory_listing_ready (entries : list entry)
| filesystem_opened (success : bool) (msg : pystr).

(** The keyword arguments a worker is created with. A key that is absent
    and a key bound to [None] read the same through [kwargs.get(key)];
    they differ for ['list_path'], read with the default ["/"], so that
    field keeps both: [None] absent, [Some None] bound to [None]. *)
Record kwargs := {
  task : option pystr;
  image_path : option pystr;
  partition_index : option Z;
  offset_sectors : option Z;
  list_path : option (option pystr);
  inode : option Z
}.

(** A worker object. [emitted] lists the signals it has emitted, oldest
    first. [pending_stop] is not an attribute: it is the schedule of the
    interactive thread, [Some n] when that thread calls [stop] while the
    worker's collaborator call number [n] (counting from 0, from now on) is
    in flight, [None] when it does not call [stop]. The calls into pytsk3
    are the blocking steps of [run]; a stop request that falls between a
    test of [_is_running] and the statement after it is not modelled. *)
Record worker := {
  kw : kwargs;
  _is_running : bool;
  emitted : list signal;
  pending_stop : option nat
}.

(** [BaseWorker.__init__]. *)
Definition new (k : kwargs) (schedule : option nat) : worker :=
  {| kw := k; _is_running := true; emitted := []; pending_stop := schedule |}.

Definition emit (s : signal) (w : worker) : worker :=
  {| kw := kw w; _is_running := _is_running w;
     emitted := emitted w ++ [s]; pending_stop := pending_stop w |}.

(** [BaseWorker.stop]. *)
Definition stop (w : worker) : worker :=
  emit (progress (lit "Stopping analysis..."))
    {| kw := kw w; _is_running := false;
       emitted := emitted w; pending_stop := pending_stop w |}.

(** A collaborator call has been in flight and returns: the stop request
    scheduled for it, if any, has been served meanwhile. *)
Definition returned (w : worker) : worker :=
  match pending_stop w with
  | None => w
  | Some O =>
      stop {| kw := kw w; _is_running := _is_running w;
              emitted := emitted w; pending_stop := None |}
  | Some (S n) =>
      {| kw := kw w; _is_running := _is_running w;
         emitted := emitted w; pending_stop := Some n |}
  end.

(** The local state of [run]: the worker and the variable [disk_handler]. *)
Record frame := {
  self : worker;
  disk_handler : option DiskImageHandler
}.

Definition on_self (f : worker -> worker) (fr : frame) : frame :=
  {| self := f (self fr); disk_handler := disk_handler fr |}.

Definition with_handler (h : DiskImageHandler) (fr : frame) : frame :=
  {| self := self fr; disk_handler := Some h |}.

(** [try: body / except Exception as e: handler / finally: fin] on a state
    [S]. The [finally] block runs on every path; an exception raised by the
    handler or by the [finally] block leaves the statement. *)
Definition try_except_finally {S : Type}
  (body : S -> result unit * S)
  (handler : exn -> S -> result unit * S)
  (fin : S -> result unit * S) (s : S) : result unit * S :=
  let after :=
    match body s with
    | (Ok tt, s1) => (Ok tt, s1)
    | (Raise e, s1) => handler e s1
    end in
  match fin (snd after) with
  | (Ok tt, s2) => (fst after, s2)
  | (Raise e, s2) => (Raise e, s2)
  end.

Section WithRuntime.
Variable rt : runtime.

(** The branch [task == 'get_volumes']. *)
Definition run_get_volumes (h : DiskImageHandler) (fr : frame)
  : result unit * frame :=
  let fr := on_self (emit (progress (lit "Reading volume information..."))) fr in
  let '(r, h) := get_volume_info rt h in
  let fr := on_self returned (with_handler h fr) in
  match r with
  | Raise e => (Raise e, fr)
  | Ok volumes =>
      if negb (_is_running (self fr)) then (Ok tt, fr)
      else (Ok tt, on_self (emit (volume_info_ready volumes)) fr)
  end.

(** The branch [task == 'open_fs']. The module [pytsk3] is not imported by
    [worker.py]: evaluating [pytsk3.TSK_FS_TYPE_ENUM] raises [NameError]. *)
Definition run_open_fs (h : DiskImageHandler) (fr : frame)
  : result unit * frame :=
  let k := kw (self fr) in
  let fr := on_self (emit (progress
      (lit "Attempting to open filesystem (Partition: "
       ++ str_opt_int (partition_index k) ++ lit ", Offset: "
       ++ str_opt_int (offset_sectors k) ++ lit ")..."))) fr in
  let '(success, h) :=
    open_filesystem rt h (partition_index k) (offset_sectors k) in
  let fr := on_self returned (with_handler h fr) in
  if negb (_is_running (self fr)) then (Ok tt, fr)
  else
    if success && (match fs_info h with Some _ => true | None => false end)
    then (Raise (Exn NameError (lit "name 'pytsk3' is not defined")), fr)
    else (Ok tt, on_self (emit (filesystem_opened success [])) fr).

(** The branch [task == 'list_dir']. *)
Definition run_list_dir (h : DiskImageHandler) (fr : frame)
  : result unit * frame :=
  let k := kw (self fr) in
  let path := match list_path k with
              | None => Some (lit "/")
              | Some p => p
              end in
  let fr := on_self (emit (progress
      (lit "Opening filesystem to list directory: "
       ++ str_opt_str path ++ lit "..."))) fr in
  let '(success, h) :=
    open_filesystem rt h (partition_index k) (offset_sectors k) in
  let fr := on_self returned (with_handler h fr) in
  if negb success then
    if negb (_is_running (self fr)) then (Ok tt, fr)
    else (Ok tt, on_self (emit (error
            (lit "Failed to open filesystem before listing directory."))) fr)
  else
    let fr := on_self (emit (progress
        (lit "Listing directory: " ++ str_opt_str path ++ lit "..."))) fr in
    let '(entries, h) := list_directory rt h path (inode k) in
    let fr := on_self returned (with_handler h fr) in
    if negb (_is_running (self fr)) then (Ok tt, fr)
    else (Ok tt, on_self (emit (directory_listing_ready entries)) fr).

Definition task_is (k : kwargs) (s : string) : bool :=
  match task k with
  | Some t => pystr_eqb t (lit s)
  | None => false
  end.

(** The [try] block of [DiskAnalysisWorker.run]. A [return] in it ends the
    block; the [finally] block still runs. *)
Definition run_body (fr : frame) : result unit * frame :=
  let k := kw (self fr) in
  let fr := on_self (emit (progress
      (lit "Starting disk task: " ++ str_opt_str (task k) ++ lit "..."))) fr in
  let created := init rt (image_path k) in
  let fr := on_self returned fr in
  match created with
  | Raise e => (Raise e, fr)
  | Ok h =>
      let fr := with_handler h fr in
      if task_is k "get_volumes" then run_get_volumes h fr
      else if task_is k "open_fs" then run_open_fs h fr
      else if task_is k "list_dir" then run_list_dir h fr
      else (Raise (Exn ValueError
                     (lit "Unknown disk task: " ++ str_opt_str (task k))), fr)
  end.

(** The [except Exception as e] clause of [run]. *)
Definition run_except (e : exn) (fr : frame) : result unit * frame :=
  if negb (_is_running (self fr)) then (Ok tt, fr)
  else (Ok tt, on_self (emit (error (lit "Disk analysis error: " ++ exn_msg e))) fr).

(** The [finally] clause of [run]. *)
Definition run_finally (fr : frame) : result unit * frame :=
  let fr :=
    match disk_handler fr with
    | Some h => with_handler (close h) fr
    | None => fr
    end in
  if _is_running (self fr) then (Ok tt, on_self (emit finished) fr)
  else (Ok tt, fr).

(** [DiskAnalysisWorker.run]. *)
Definition run (w : worker) : result unit * frame :=
  try_except_finally run_body run_except run_finally
    {| self := w; disk_handler := None |}.

End WithRuntime.

(** The signals that carry a task's outcome: a success payload or the
    failure message. *)
Definition is_payload (s : signal) : bool :=
  match s with
  | error _ | results_ready | volume_info_ready _
  | directory_listing_ready _ | filesystem_opened _ _ => true
  | finished | progress _ => false
  end.

Definition is_finished (s : signal) : bool :=
  match s with finished => true | _ => false end.

Definition is_filesystem_opened (s : signal) : bool :=
  match s with filesystem_opened _ _ => true | _ => false end.

Definition is_directory_listing (s : signal) : bool :=
  match s with directory_listing_ready _ => true | _ => false end.

End Worker.

(* ===================================================================== *)
(** ** gui/disk_tab.py: class DiskTab                                     *)
(* ===================================================================== *)

Module DiskTab.
Import DiskAnalysis.

(** What a method of the tab does to the world outside it, in order. *)
Inductive effect :=
| warning_box (title text : pystr)          (* QMessageBox.warning *)
| critical_box (title text : pystr)         (* QMessageBox.critical *)
| information_box (title text : pystr)      (* QMessageBox.information *)
| status_message (text : pystr) (ms : Z)    (* statusBar().showMessage *)
| thread_started (k : Worker.kwargs)        (* a worker created and its thread started *)
| worker_stop                               (* self._disk_worker.stop() *)
| thread_quit                               (* self._disk_thread.quit() *)
| thread_wait (ms : option Z)               (* self._disk_thread.wait(...) *)
| thread_terminate.                         (* self._disk_thread.terminate() *)

(** The attributes of the tab and the widgets whose content the code reads
    or writes. [_disk_thread] is [Some r] for a [QThread] object whose
    [isRunning()] is [r]; [_disk_worker] is the worker object, known by the
    keyword arguments it was created with. A table is the list of its rows,
    each row the dictionary it was filled from. *)
Record state := {
  _disk_worker : option Worker.kwargs;
  _disk_thread : option bool;
  _image_path : option pystr;
  _selected_partition_index : option Z;
  _selected_offset : option Z;
  _current_fs_open : bool;
  image_path_edit : pystr;
  browse_button_enabled : bool;
  volume_table : list volume;
  file_listing_table : list entry;
  fs_status_label : pystr;
  effects : list effect
}.

(** [__init__] and [_setup_ui]. *)
Definition initial : state :=
  {| _disk_worker := None; _disk_thread := None; _image_path := None;
     _selected_partition_index := None; _selected_offset := None;
     _current_fs_open := false;
     image_path_edit := []; browse_button_enabled := true;
     volume_table := []; file_listing_table := [];
     fs_status_label := lit "Status: No filesystem selected/opened.";
     effects := [] |}.

Definition do_effect (e : effect) (s : state) : state :=
  {| _disk_worker := _disk_worker s; _disk_thread := _disk_thread s;
     _image_path := _image_path s;
     _selected_partition_index := _selected_partition_index s;
     _selected_offset := _selected_offset s;
     _current_fs_open := _current_fs_open s;
     image_path_edit := image_path_edit s;
     browse_button_enabled := browse_button_enabled s;
     volume_table := volume_table s;
     file_listing_table := file_listing_table s;
     fs_status_label := fs_status_label s;
     effects := effects s ++ [e] |}.

Definition set_thread (w : option Worker.kwargs) (t : option bool)
  (enabled : bool) (s : state) : state :=
  {| _disk_worker := w; _disk_thread := t;
     _image_path := _image_path s;
     _selected_partition_index := _selected_partition_index s;
     _selected_offset := _selected_offset s;
     _current_fs_open := _current_fs_open s;
     image_path_edit := image_path_edit s;
     browse_button_enabled := enabled;
     volume_table := volume_table s;
     file_listing_table := file_listing_table s;
     fs_status_label := fs_status_label s;
     effects := effects s |}.

Definition set_image (p : option pystr) (edit : pystr) (s : state) : state :=
  {| _disk_worker := _disk_worker s; _disk_thread := _disk_thread s;
     _image_path := p;
     _selected_partition_index := _selected_partition_index s;
     _selected_offset := _selected_offset s;
     _current_fs_open := _current_fs_open s;
     image_path_edit := edit;
     browse_button_enabled := browse_button_enabled s;
     volume_table := volume_table s;
     file_listing_table := file_listing_table s;
     fs_status_label := fs_status_label s;
     effects := effects s |}.

Definition set_selection (p o : option Z) (fs_open : bool) (s : state) : state :=
  {| _disk_worker := _disk_worker s; _disk_thread := _disk_thread s;
     _image_path := _image_path s;
     _selected_partition_index := p;
     _selected_offset := o;
     _current_fs_open := fs_open;
     image_path_edit := image_path_edit s;
     browse_button_enabled := browse_button_enabled s;
     volume_table := volume_table s;
     file_listing_table := file_listing_table s;
     fs_status_label := fs_status_label s;
     effects := effects s |}.

Definition set_volume_table (rows : list volume) (s : state) : state :=
  {| _disk_worker := _disk_worker s; _disk_thread := _disk_thread s;
     _image_path := _image_path s;
     _selected_partition_index := _selected_partition_index s;
     _selected_offset := _selected_offset s;
     _current_fs_open := _current_fs_open s;
     image_path_edit := image_path_edit s;
     browse_button_enabled := browse_button_enabled s;
     volume_table := rows;
     file_listing_table := file_listing_table s;
     fs_status_label := fs_status_label s;
     effects := effects s |}.

Definition set_file_listing_table (rows : list entry) (s : state) : state :=
  {| _disk_worker := _disk_worker s; _disk_thread := _disk_thread s;
     _image_path := _image_path s;
     _selected_partition_index := _selected_partition_index s;
     _selected_offset := _selected_offset s;
     _current_fs_open := _current_fs_open s;
     image_path_edit := image_path_edit s;
     browse_button_enabled := browse_button_enabled s;
     volume_table := volume_table s;
     file_listing_table := rows;
     fs_status_label := fs_status_label s;
     effects := effects s |}.

Definition set_label (text : pystr) (s : state) : state :=
  {| _disk_worker := _disk_worker s; _disk_thread := _disk_thread s;
     _image_path := _image_path s;
     _selected_partition_index := _selected_partition_index s;
     _selected_offset := _selected_offset s;
     _current_fs_open := _current_fs_open s;
     image_path_edit := image_path_edit s;
     browse_button_enabled := browse_button_enabled s;
     volume_table := volume_table s;
     file_listing_table := file_listing_table s;
     fs_status_label := text;
     effects := effects s |}.

(** Truth value of an attribute that is [None] or a [str]. *)
Definition truthy (o : option pystr) : bool :=
  match o with
  | Some (_ :: _) => true
  | _ => false
  end.

(** [self._disk_thread and self._disk_thread.isRunning()]. *)
Definition thread_running (s : state) : bool :=
  match _disk_thread s with
  | Some r => r
  | None => false
  end.

(** The keyword arguments of a call [_start_disk_analysis(task, **kwargs)]
    before ['image_path'] is added. *)
Definition request (task : string) (partition_index offset_sectors : option Z)
  (list_path : option (option pystr)) (inode : option Z) : Worker.kwargs :=
  {| Worker.task := Some (lit task); Worker.image_path := None;
     Worker.partition_index := partition_index;
     Worker.offset_sectors := offset_sectors;
     Worker.list_path := list_path; Worker.inode := inode |}.

(** [kwargs['image_path'] = self._image_path]. *)
Definition with_image_path (p : option pystr) (k : Worker.kwargs) : Worker.kwargs :=
  {| Worker.task := Worker.task k; Worker.image_path := p;
     Worker.partition_index := Worker.partition_index k;
     Worker.offset_sectors := Worker.offset_sectors k;
     Worker.list_path := Worker.list_path k; Worker.inode := Worker.inode k |}.

(** [_start_disk_analysis]. *)
Definition _start_disk_analysis (k : Worker.kwargs) (s : state) : state :=
  if negb (truthy (_image_path s)) then
    do_effect (warning_box (lit "No Image")
                 (lit "Please select a disk image first.")) s
  else if thread_running s then
    do_effect (warning_box (lit "Busy")
                 (lit "Disk analysis is already in progress.")) s
  else
    let k := with_image_path (_image_path s) k in
    do_effect (thread_started k) (set_thread (Some k) (Some true) false s).

(** [_on_disk_analysis_finished]. *)
Definition _on_disk_analysis_finished (s : state) : state :=
  set_thread None None true
    (do_effect (status_message (lit "Disk analysis task complete.") 3000) s).

(** [stop_analysis]. [exited] tells whether the thread has stopped when
    [wait(2000)] returns. [stop] is called in the interactive thread and
    emits [progress] there, so the function connected to [progress] in
    [_start_disk_analysis] shows its message before [stop] returns. *)
Definition stop_analysis (exited : bool) (s : state) : state :=
  if thread_running s then
    let s := match _disk_worker s with
             | Some _ =>
                 do_effect (status_message (lit "Stopping analysis...") 5000)
                   (do_effect worker_stop s)
             | None => s
             end in
    let s := do_effect (thread_wait (Some 2000)) (do_effect thread_quit s) in
    let s := if exited then s
             else do_effect (thread_wait None) (do_effect thread_terminate s) in
    _on_disk_analysis_finished s
  else s.

(** [_browse_image]. [file_path] is what the file dialog returns, the
    empty string when it is cancelled. *)
Definition _browse_image (file_path : pystr) (exited : bool) (s : state) : state :=
  let s := stop_analysis exited s in
  match file_path with
  | _ :: _ =>
      let s := set_image (Some file_path) file_path s in
      let s := set_file_listing_table [] (set_volume_table [] s) in
      let s := set_selection None None false s in
      let s := set_label
                 (lit "Status: Image selected. Double-click a volume to open.") s in
      _start_disk_analysis (request "get_volumes" None None None None) s
  | [] => set_image None [] s
  end.

(** [_display_volumes]. *)
Definition _display_volumes (volumes : list volume) (s : state) : state :=
  let s := set_volume_table [] s in
  match volumes with
  | [] =>
      set_label
        (lit "Status: No volumes/partitions found. May be single FS image.") s
  | _ :: _ =>
      set_label
        (lit "Status: Volumes loaded. Double-click a volume to open its filesystem.")
        (set_volume_table volumes s)
  end.

(** [_volume_selected]. [index] is the row of a valid [QModelIndex],
    [None] for an invalid one; a valid index names a row of the table. *)
Definition _volume_selected (index : option nat) (s : state) : state :=
  match index with
  | None => s
  | Some row =>
      match nth_error (volume_table s) row with
      | None => s
      | Some vol =>
          let s := set_file_listing_table [] s in
          let s := set_selection (Some (slot vol)) (Some (start_sector vol)) false s in
          if contains (desc vol) (lit "Potential Filesystem") then
            let s := set_selection None (Some 0) (_current_fs_open s) s in
            _start_disk_analysis
              (request "list_dir" None (_selected_offset s)
                       (Some (Some (lit "/"))) None) s
          else
            _start_disk_analysis
              (request "list_dir" (_selected_partition_index s) None
                       (Some (Some (lit "/"))) None) s
      end
  end.

(** [_show_error]. *)
Definition _show_error (message : pystr) (s : state) : state :=
  let s := do_effect (status_message (lit "Error: " ++ message) 10000) s in
  if contains message (lit "Failed to open")
     || contains message (lit "Requirement Error")
  then do_effect (critical_box (lit "Disk Analysis Error") message) s
  else s.

(** [_on_filesystem_opened]. *)
Definition _on_filesystem_opened (success : bool) (message : pystr) (s : state)
  : state :=
  let s := set_selection (_selected_partition_index s) (_selected_offset s)
             success s in
  if success then
    set_label (lit "Status: Filesystem Opened (" ++ message
               ++ lit "). Listing root...") s
  else
    let s := set_label (lit "Status: Failed to open filesystem. " ++ message) s in
    _show_error
      (lit "Could not open filesystem for partition/offset "
       ++ str_opt_int (_selected_partition_index s) ++ lit "/"
       ++ str_opt_int (_selected_offset s)
       ++ lit ". Check FS type/corruption.") s.

(** [_display_directory_listing]. *)
Definition _display_directory_listing (entries : list entry) (s : state) : state :=
  let s := set_file_listing_table [] s in
  if negb (_current_fs_open s) then s
  else
    match entries with
    | [] =>
        set_label
          (lit "Status: Filesystem opened. Directory is empty or unreadable.") s
    | _ :: _ => set_file_listing_table entries s
    end.

(** [_file_double_clicked]. *)
Definition _file_double_clicked (index : option nat) (s : state) : state :=
  match index with
  | None => s
  | Some row =>
      if negb (_current_fs_open s) then s
      else
        match nth_error (file_listing_table s) row with
        | None => s
        | Some e =>
            if pystr_eqb (type e) (lit "TSK_FS_META_TYPE_DIR") then
              let s := set_label (lit "Status: Loading directory: " ++ name e
                                  ++ lit "...") s in
              match _selected_partition_index s, _selected_offset s with
              | Some p, _ =>
                  _start_disk_analysis
                    (request "list_dir" (Some p) None (Some None) (Some (inode e))) s
              | None, Some o =>
                  _start_disk_analysis
                    (request "list_dir" None (Some o) (Some None) (Some (inode e))) s
              | None, None =>
                  _show_error
                    (lit "Cannot navigate: No valid partition or offset selected.") s
              end
            else
              do_effect (information_box (lit "File Clicked")
                (lit "You clicked on file: " ++ name e
                 ++ [10%N] ++ lit "Inode: " ++ str_int (inode e)
                 ++ [10%N; 10%N]
                 ++ lit "(Further actions like viewing or extracting are not yet implemented).")) s
        end
  end.

(** What can happen to the tab: a user action, a signal of the worker
    delivered to its slot, or the worker thread coming to its end. *)
Inductive event :=
| browse (file_path : pystr) (exited : bool)
| volume_double_clicked (index : option nat)
| file_double_clicked (index : option nat)
| close_event (exited : bool)
| got_volume_info (volumes : list volume)
| got_filesystem_opened (success : bool) (message : pystr)
| got_directory_listing (entries : list entry)
| got_error (message : pystr)
| got_progress (message : pystr)
| thread_exited
| thread_finished.

Definition handle (ev : event) (s : state) : state :=
  match ev with
  | browse file_path exited => _browse_image file_path exited s
  | volume_double_clicked index => _volume_selected index s
  | file_double_clicked index => _file_double_clicked index s
  | close_event exited => stop_analysis exited s
  | got_volume_info volumes => _display_volumes volumes s
  | got_filesystem_opened success message => _on_filesystem_opened success message s
  | got_directory_listing entries => _display_directory_listing entries s
  | got_error message => _show_error message s
  | got_progress message => do_effect (status_message message 5000) s
  | thread_exited =>
      match _disk_thread s with
      | Some _ => set_thread (_disk_worker s) (Some false) (browse_button_enabled s) s
      | None => s
      end
  | thread_finished => _on_disk_analysis_finished s
  end.

(** The states the tab can be in: [initial], and what an event makes of a
    reachable state. Signals are delivered here at any time and with any
    arguments, which covers what a worker can emit. *)
Inductive reachable : state -> Prop :=
| reachable_initial : reachable initial
| reachable_handle ev s : reachable s -> reachable (handle ev s).

(** The events of a list, oldest first. *)
Definition play (evs : list event) (s : state) : state :=
  fold_left (fun s ev => handle ev s) evs s.

(** Exactly one of two optional values is set. *)
Definition exactly_one (p o : option Z) : bool :=
  match p, o with
  | Some _, None | None, Some _ => true
  | _, _ => false
  end.

End DiskTab.

(* ===================================================================== *)
(** ** Concrete images, file systems and runs                             *)
(* ===================================================================== *)

(** Small collaborators and inputs the statements below are evaluated on. *)
Module Sample.
Import Pytsk3 DiskAnalysis.

(** [str.lower] on the ASCII letters; enough for the names used here. *)
Definition ascii_lower (s : pystr) : pystr :=
  map (fun c => if N.leb 65 c && N.leb c 90 then (c + 32)%N else c) s.

(** The enumeration of metadata types the code expects: a Python [Enum]
    with the members of The Sleuth Kit, whose call with a value that has
    no member raises [ValueError]. *)
Definition meta_type_name (v : Z) : result pystr :=
  match v with
  | 0 => Ok (lit "TSK_FS_META_TYPE_UNDEF")
  | 1 => Ok (lit "TSK_FS_META_TYPE_REG")
  | 2 => Ok (lit "TSK_FS_META_TYPE_DIR")
  | 3 => Ok (lit "TSK_FS_META_TYPE_FIFO")
  | 4 => Ok (lit "TSK_FS_META_TYPE_CHR")
  | 5 => Ok (lit "TSK_FS_META_TYPE_BLK")
  | 6 => Ok (lit "TSK_FS_META_TYPE_LNK")
  | 7 => Ok (lit "TSK_FS_META_TYPE_SHAD")
  | 8 => Ok (lit "TSK_FS_META_TYPE_SOCK")
  | 9 => Ok (lit "TSK_FS_META_TYPE_WHT")
  | 10 => Ok (lit "TSK_FS_META_TYPE_VIRT")
  | 11 => Ok (lit "TSK_FS_META_TYPE_VIRT_DIR")
  | _ => Raise (Exn ValueError (lit "not a valid TSK_FS_META_TYPE_ENUM"))
  end.

(** An image of 2048 sectors of 512 bytes. *)
Definition img : image :=
  {| img_url := Some (lit "disk.dd");
     img_get_size := Ok 1048576;
     img_get_block_size := Ok 512 |}.

(** An image whose block size reads as 0. *)
Definition img_block0 : image :=
  {| img_url := Some (lit "raw.dd");
     img_get_size := Ok 1048576;
     img_get_block_size := Ok 0 |}.

(** An image object without a method [get_block_size]. *)
Definition no_get_block_size : exn :=
  Exn AttributeError
    (lit "'pytsk3.Img_Info' object has no attribute 'get_block_size'").

Definition img_no_block_size : image :=
  {| img_url := Some (lit "raw.dd");
     img_get_size := Ok 1048576;
     img_get_block_size := Raise no_get_block_size |}.

Definition meta_of (addr type : Z) : fs_meta :=
  {| meta_addr := addr; meta_type := type; meta_mode := 493; meta_size := 4096;
     meta_mtime := 1700000000; meta_atime := 0; meta_ctime := 1700000000;
     meta_crtime := 0 |}.

Definition file_of (nm : pybytes) (addr type : Z) : file :=
  {| file_name := {| name_name := nm; name_flags := 1 |};
     file_meta := Some (meta_of addr type) |}.

Definition dot : pybytes := [Byte.x2e].
Definition dotdot : pybytes := [Byte.x2e; Byte.x2e].

(** The root directory (inode 2): [.], [..], [$OrphanFiles], [etc] (a
    directory), [README], [bin] (a directory), [a.txt]. *)
Definition root_dir : directory :=
  {| dir_addr := 2;
     dir_iter :=
       ([ file_of dot 2 2; file_of dotdot 2 2;
          file_of [Byte.x24; Byte.x4f] 9 10;
          file_of [Byte.x65; Byte.x74; Byte.x63] 42 2;
          file_of [Byte.x52; Byte.x45; Byte.x41; Byte.x44; Byte.x4d; Byte.x45] 12 1;
          file_of [Byte.x62; Byte.x69; Byte.x6e] 43 2;
          file_of [Byte.x61; Byte.x2e; Byte.x74; Byte.x78; Byte.x74] 13 1 ],
        None) |}.

(** The directory [etc] (inode 42): [.], [..], [Zeta], [alpha]. *)
Definition etc_dir : directory :=
  {| dir_addr := 42;
     dir_iter :=
       ([ file_of dot 42 2; file_of dotdot 2 2;
          file_of [Byte.x5a; Byte.x65; Byte.x74; Byte.x61] 50 1;
          file_of [Byte.x61; Byte.x6c; Byte.x70; Byte.x68; Byte.x61] 51 1 ],
        None) |}.

Definition no_such_dir : exn := Exn OSError (lit "Unable to open directory").

Definition fs : filesystem :=
  {| fs_root_inum := 2;
     fs_type_name := Ok (lit "TSK_FS_TYPE_EXT4");
     fs_open_dir_inode := fun i =>
       if Z.eqb i 2 then Ok root_dir
       else if Z.eqb i 42 then Ok etc_dir
       else Raise no_such_dir;
     fs_open_dir_path := fun p =>
       match p with
       | Some [47%N] => Ok root_dir
       | _ => Raise no_such_dir
       end |}.

Definition linux_part : part :=
  {| part_addr := 2;
     part_desc := Some [Byte.x4c; Byte.x69; Byte.x6e; Byte.x75; Byte.x78];
     part_start := 2048; part_len := 204800;
     part_flags_str := lit "TSK_VS_PART_FLAG_ALLOC" |}.

Definition vs : volume_system :=
  {| vs_iter := ([linux_part], None);
     vs_block_size := Some 512;
     vs_get_part_by_addr := fun i =>
       if Z.eqb i 2 then Ok (Some linux_part) else Ok None |}.

Definition cannot_open : exn := Exn OSError (lit "Cannot determine file system type").
Definition no_partition_table : exn :=
  Exn OSError (lit "Cannot determine partition type").

(** pytsk3 over an image without a partition table that holds the file
    system [fs] at offset 0. *)
Definition tsk_whole : Pytsk3.module :=
  {| Img_Info := fun _ => Ok img;
     Volume_Info := fun _ => Raise no_partition_table;
     FS_Info := fun _ off => if Z.eqb off 0 then Ok fs else Raise cannot_open;
     TSK_FS_META_TYPE_ENUM_name := meta_type_name |}.

(** The same, over the image whose block size reads as 0. *)
Definition tsk_block0 : Pytsk3.module :=
  {| Img_Info := fun _ => Ok img_block0;
     Volume_Info := fun _ => Raise no_partition_table;
     FS_Info := fun _ off => if Z.eqb off 0 then Ok fs else Raise cannot_open;
     TSK_FS_META_TYPE_ENUM_name := meta_type_name |}.

(** The same, over the image object without [get_block_size]. *)
Definition tsk_no_block_size : Pytsk3.module :=
  {| Img_Info := fun _ => Ok img_no_block_size;
     Volume_Info := fun _ => Raise no_partition_table;
     FS_Info := fun _ off => if Z.eqb off 0 then Ok fs else Raise cannot_open;
     TSK_FS_META_TYPE_ENUM_name := meta_type_name |}.

(** pytsk3 over an image with the partition table [vs]; the file system
    starts at sector 2048. *)
Definition tsk_parts : Pytsk3.module :=
  {| Img_Info := fun _ => Ok img;
     Volume_Info := fun _ => Ok vs;
     FS_Info := fun _ off =>
       if Z.eqb off (2048 * 512) then Ok fs else Raise cannot_open;
     TSK_FS_META_TYPE_ENUM_name := meta_type_name |}.


Definition runtime_of (m : Pytsk3.module) : runtime :=
  {| pytsk3 := m;
     str_lower := ascii_lower;
     fromtimestamp_strftime := fun _ => Ok (lit "2023-11-14 22:13:20") |}.

(** A handler just constructed on [disk.dd]. *)
Definition fresh : DiskImageHandler :=
  {| DiskAnalysis.image_path := Some (lit "disk.dd"); img_info := Some img;
     volume_info := None; fs_info := None; partition_offset := None;
     calls := [] |}.

(** The keyword arguments of a listing task at offset 0, and of the tasks
    of the other kinds. *)
Definition list_root_kwargs : Worker.kwargs :=
  {| Worker.task := Some (lit "list_dir");
     Worker.image_path := Some (lit "disk.dd");
     Worker.partition_index := None; Worker.offset_sectors := Some 0;
     Worker.list_path := Some (Some (lit "/")); Worker.inode := None |}.

(** A listing task that names partition 2: the handler of the task has not
    read the volume system, so the open step fails. *)
Definition list_partition_kwargs : Worker.kwargs :=
  {| Worker.task := Some (lit "list_dir");
     Worker.image_path := Some (lit "disk.dd");
     Worker.partition_index := Some 2; Worker.offset_sectors := None;
     Worker.list_path := Some (Some (lit "/")); Worker.inode := None |}.

(** An [open_fs] task at offset 0. *)
Definition open_fs_kwargs : Worker.kwargs :=
  {| Worker.task := Some (lit "open_fs");
     Worker.image_path := Some (lit "disk.dd");
     Worker.partition_index := None; Worker.offset_sectors := Some 0;
     Worker.list_path := None; Worker.inode := None |}.

Definition get_volumes_kwargs : Worker.kwargs :=
  {| Worker.task := Some (lit "get_volumes");
     Worker.image_path := Some (lit "disk.dd");
     Worker.partition_index := None; Worker.offset_sectors := None;
     Worker.list_path := None; Worker.inode := None |}.

(** A partition row and the row of the synthetic whole-image volume. *)
Definition linux_volume : volume := volume_of_part linux_part.

Definition whole_volume : volume :=
  {| slot := 0; desc := lit "Potential Filesystem (No Partition Table)";
     start_sector := 0; num_sectors := 2048; flags := lit "N/A" |}.

(** A directory row and a file row of a listing. *)
Definition etc_entry : entry :=
  {| inode := 42; name := lit "etc"; type := lit "TSK_FS_META_TYPE_DIR";
     mode := lit "0o755"; size := 4096; mtime := lit "N/A"; atime := lit "N/A";
     ctime := lit "N/A"; crtime := lit "N/A"; is_deleted := false |}.

(** The tab after an image was chosen, its volumes were shown and the
    enumeration task ended. *)
Definition volumes_listed (vols : list volume) : DiskTab.state :=
  DiskTab.play
    [ DiskTab.browse (lit "disk.dd") true;
      DiskTab.got_volume_info vols;
      DiskTab.thread_exited;
      DiskTab.thread_finished ]
    DiskTab.initial.

(** The tab while a listing is shown with the file system marked open. *)
Definition browsing : DiskTab.state :=
  DiskTab.play
    [ DiskTab.volume_double_clicked (Some 0%nat);
      DiskTab.thread_exited;
      DiskTab.thread_finished;
      DiskTab.got_filesystem_opened true (lit "FS Type: TSK_FS_TYPE_EXT4");
      DiskTab.got_directory_listing [etc_entry] ]
    (volumes_listed [linux_volume]).

(** The entry [list_directory] makes of a directory of the sample file
    system under the name [nm] ([.] in the root has inode 2). *)
Definition entry_named (nm : pystr) : entry :=
  {| inode := 2; name := nm; type := lit "TSK_FS_META_TYPE_DIR";
     mode := lit "0o755"; size := 4096; mtime := lit "2023-11-14 22:13:20";
     atime := lit "N/A"; ctime := lit "2023-11-14 22:13:20";
     crtime := lit "N/A"; is_deleted := false |}.

End Sample.

(* ===================================================================== *)
(** ** Vocabulary of the statements                                       *)
(* ===================================================================== *)

Module Props.
Import Pytsk3 DiskAnalysis.

(** [x] may stand before [y] in a list sorted by [key]: the key of [y] is
    not smaller than the key of [x]. *)
Definition key_le {A K : Type} (ltb : K -> K -> bool) (key : A -> K)
  (x y : A) : Prop :=
  ltb (key y) (key x) = false.

(** The directory a call of [list_directory] lists, with the file system
    it belongs to: the one opened by inode when an inode is given, by path
    otherwise; [None] when no file system is open or the directory cannot
    be opened. *)
Definition listed (self : DiskImageHandler) (path : option pystr)
  (ino : option Z) : option (filesystem * directory) :=
  match fs_info self with
  | None => None
  | Some fs =>
      match (match ino with
             | Some i => fs_open_dir_inode fs i
             | None => fs_open_dir_path fs path
             end) with
      | Ok d => Some (fs, d)
      | Raise _ => None
      end
  end.

(** The listed directory is the root of its file system. *)
Definition lists_root (self : DiskImageHandler) (path : option pystr)
  (ino : option Z) : Prop :=
  exists fs d, listed self path ino = Some (fs, d) /\ dir_addr d = fs_root_inum fs.

(** An entry of type Directory. *)
Definition is_dir (e : entry) : bool :=
  pystr_eqb (type e) (lit "TSK_FS_META_TYPE_DIR").

(** Directories come before the other entries, and among the directories
    and among the others the lower-cased names do not decrease. *)
Definition directories_first_then_by_name (lower : pystr -> pystr)
  (l : list entry) : Prop :=
  forall i j a b, (i < j)%nat ->
    nth_error l i = Some a -> nth_error l j = Some b ->
    (is_dir b = true -> is_dir a = true) /\
    (is_dir a = is_dir b -> pystr_leb (lower (name a)) (lower (name b)) = true).

(** The synthetic volume of an image without a partition table. *)
Definition synthetic_volume (sectors : Z) : volume :=
  {| slot := 0;
     desc := lit "Potential Filesystem (No Partition Table)";
     start_sector := 0;
     num_sectors := sectors;
     flags := lit "N/A" |}.

(** How many times a worker emitted [finished]. *)
Definition count_finished (l : list Worker.signal) : nat :=
  List.length (filter Worker.is_finished l).

(** The worker a call [run] leaves behind. *)
Definition after_run (rt : runtime) (w : Worker.worker) : Worker.worker :=
  Worker.self (snd (Worker.run rt w)).

(** A signal that is neither a payload nor [finished]: a progress
    message. *)
Definition silent (s : Worker.signal) : Prop :=
  Worker.is_payload s = false /\ Worker.is_finished s = false.

(** [if self._is_running: signal.emit(...)]. *)
Definition guarded (s : Worker.signal) (w : Worker.worker) : Worker.worker :=
  if Worker._is_running w then Worker.emit s w else w.

(** A worker nobody asks to stop: it runs and no call of [stop] is
    scheduled. *)
Definition undisturbed (w : Worker.worker) : Prop :=
  Worker._is_running w = true /\ Worker.pending_stop w = None.

(** From [w] to [w']: only progress messages were emitted, a stopped
    worker stays stopped, and a worker nobody asks to stop stays so. *)
Definition quiet (w w' : Worker.worker) : Prop :=
  (exists out, Worker.emitted w' = Worker.emitted w ++ out /\ Forall silent out) /\
  (Worker._is_running w' = true -> Worker._is_running w = true) /\
  (undisturbed w -> undisturbed w').

(** What a block of [run] makes of the worker [w]: progress messages up to
    a worker [w1], and then nothing more, or, when the block ends
    normally, one payload signal if [w1] is still running. *)
Definition block_shape (w : Worker.worker) (res : result unit * Worker.frame)
  : Prop :=
  exists w1, quiet w w1 /\
    (Worker.self (snd res) = w1 \/
     (fst res = Ok tt /\
      exists s, Worker.is_payload s = true /\ Worker.is_finished s = false /\
                Worker.self (snd res) = guarded s w1)).

(** The requests the tab dispatches: an enumeration without partition or
    offset, or a listing with exactly one of them. *)
Definition request_ok (k : Worker.kwargs) : Prop :=
  (Worker.task k = Some (lit "get_volumes") /\
   Worker.partition_index k = None /\ Worker.offset_sectors k = None) \/
  (Worker.task k = Some (lit "list_dir") /\
   DiskTab.exactly_one (Worker.partition_index k) (Worker.offset_sectors k) = true).

(** The row is the synthetic whole-image volume, as [_volume_selected]
    tells it: by its description. *)
Definition is_synthetic (vol : volume) : bool :=
  contains (desc vol) (lit "Potential Filesystem").

(** What holds in every state the tab reaches. *)
Definition tab_invariant (s : DiskTab.state) : Prop :=
  (DiskTab.thread_running s = true -> DiskTab.truthy (DiskTab._image_path s) = true) /\
  (DiskTab._selected_partition_index s <> None -> DiskTab._selected_offset s <> None) /\
  (forall k, In (DiskTab.thread_started k) (DiskTab.effects s) -> request_ok k).

End Props.

Import Props.


(* ===================================================================== *)
(** ** Vocabulary for the listings                                        *)
(* ===================================================================== *)

Module Listing.
Import Pytsk3 DiskAnalysis.

(** The file passes the two filters of the loop of [list_directory]: it is
    not [.] or [..] of a directory other than the root, and its name does
    not start with [$]. *)
Definition kept (fs : filesystem) (d : directory) (f : file) : bool :=
  negb ((bytes_eqb (name_name (file_name f)) [Byte.x2e]
         || bytes_eqb (name_name (file_name f)) [Byte.x2e; Byte.x2e])
        && negb (Z.eqb (dir_addr d) (fs_root_inum fs)))
  && negb (bytes_startswith (name_name (file_name f)) [Byte.x24]).

(** [_format_timestamp] returns for this timestamp. *)
Definition formats (rt : runtime) (ts : Z) : bool :=
  match _format_timestamp rt ts with
  | Ok _ => true
  | Raise _ => false
  end.

(** Everything the loop body reads of the file is there: metadata, a name
    the enumeration of the library returns for its type, four timestamps
    that format. *)
Definition describable (rt : runtime) (f : file) : bool :=
  match file_meta f with
  | None => false
  | Some m =>
      match TSK_FS_META_TYPE_ENUM_name (pytsk3 rt) (meta_type m) with
      | Ok _ => true
      | Raise _ => false
      end
      && formats rt (meta_mtime m) && formats rt (meta_atime m)
      && formats rt (meta_ctime m) && formats rt (meta_crtime m)
  end.

(** The decoded name and the inode of a file. *)
Definition raw_name (f : file) : pystr := decode_utf8 (name_name (file_name f)).

Definition raw_inode (f : file) : Z :=
  match file_meta f with
  | Some m => meta_addr m
  | None => 0
  end.

(** The sector size [open_filesystem] multiplies an offset in sectors by:
    the block size of the volume system when the handler has one with that
    attribute, 512 otherwise. *)
Definition sector_size (self : DiskImageHandler) : Z :=
  match volume_info self with
  | Some vs =>
      match vs_block_size vs with
      | Some bs => bs
      | None => 512
      end
  | None => 512
  end.

End Listing.


(* ===================================================================== *)
(** ** The outcome of a disk task                                         *)
(* ===================================================================== *)

Module Outcome.
Import DiskAnalysis Worker.

(** The failure signal [run] makes of an exception. *)
Definition failure (e : exn) : signal :=
  error (lit "Disk analysis error: " ++ exn_msg e).

(** The path a [list_dir] task lists: ['list_path'] with the default
    ["/"]. *)
Definition path_of (k : kwargs) : option pystr :=
  match list_path k with
  | None => Some (lit "/")
  | Some p => p
  end.

(** The payload signal of each branch of [run], read off the handler
    calls of that branch. *)
Definition outcome_get_volumes (rt : runtime) (h : DiskImageHandler) : signal :=
  match fst (get_volume_info rt h) with
  | Ok volumes => volume_info_ready volumes
  | Raise e => failure e
  end.

Definition outcome_open_fs (rt : runtime) (h : DiskImageHandler) (k : kwargs)
  : signal :=
  if fst (open_filesystem rt h (partition_index k) (offset_sectors k))
  then failure (Exn NameError (lit "name 'pytsk3' is not defined"))
  else filesystem_opened false [].

Definition outcome_list_dir (rt : runtime) (h : DiskImageHandler) (k : kwargs)
  : signal :=
  if fst (open_filesystem rt h (partition_index k) (offset_sectors k))
  then directory_listing_ready
         (fst (list_directory rt
                 (snd (open_filesystem rt h (partition_index k) (offset_sectors k)))
                 (path_of k) (inode k)))
  else error (lit "Failed to open filesystem before listing directory.").

(** The one payload signal a task with keyword arguments [k] ends with
    when nobody stops it. *)
Definition outcome (rt : runtime) (k : kwargs) : signal :=
  match init rt (image_path k) with
  | Raise e => failure e
  | Ok h =>
      if task_is k "get_volumes" then outcome_get_volumes rt h
      else if task_is k "open_fs" then outcome_open_fs rt h k
      else if task_is k "list_dir" then outcome_list_dir rt h k
      else failure (Exn ValueError
                      (lit "Unknown disk task: " ++ str_opt_str (task k)))
  end.

(** A block of [run] that ends with the payload signal [t]: progress
    messages up to a worker [w1] with the same keyword arguments; then,
    when the block ends normally, [t] if [w1] is running, and when it
    raises [e], nothing, [t] being the failure signal of [e]. *)
Definition ends_with (t : signal) (w : worker) (res : result unit * frame)
  : Prop :=
  exists w1,
    Props.quiet w w1 /\ kw w1 = kw w /\
    match fst res with
    | Ok _ => self (snd res) = Props.guarded t w1
    | Raise e => self (snd res) = w1 /\ t = failure e
    end.

(** The handler holds an image. *)
Definition holds_image (h : DiskImageHandler) : Prop := img_info h <> None.

End Outcome.


(* ===================================================================== *)
(** ** The tab and its workers together                                   *)
(* ===================================================================== *)

Module Session.
Import DiskAnalysis.

(** The connections [_start_disk_analysis] makes for the worker of a task
    with keyword arguments [k]: what a signal of that worker does to the
    tab. [error] and [progress] are connected for every task, the result
    signals by the [if]/[elif] chain on the task name; a signal without a
    connection is dropped. [finished] makes the thread quit, which the tab
    sees later as [thread_exited] and [thread_finished]. *)
Definition deliver (k : Worker.kwargs) (sg : Worker.signal) (s : DiskTab.state)
  : DiskTab.state :=
  match sg with
  | Worker.finished => s
  | Worker.results_ready => s
  | Worker.error msg => DiskTab._show_error msg s
  | Worker.progress msg => DiskTab.do_effect (DiskTab.status_message msg 5000) s
  | Worker.volume_info_ready volumes =>
      if Worker.task_is k "get_volumes" then DiskTab._display_volumes volumes s
      else s
  | Worker.filesystem_opened success msg =>
      if Worker.task_is k "get_volumes" then s
      else if Worker.task_is k "open_fs"
      then DiskTab._on_filesystem_opened success msg s
      else if Worker.task_is k "list_dir"
      then DiskTab._on_filesystem_opened success msg s
      else s
  | Worker.directory_listing_ready entries =>
      if Worker.task_is k "get_volumes" then s
      else if Worker.task_is k "open_fs" then s
      else if Worker.task_is k "list_dir"
      then DiskTab._display_directory_listing entries s
      else s
  end.

(** The events that do not come from a worker: the user's actions and the
    end of the thread. *)
Definition from_outside (ev : DiskTab.event) : bool :=
  match ev with
  | DiskTab.browse _ _ | DiskTab.volume_double_clicked _
  | DiskTab.file_double_clicked _ | DiskTab.close_event _
  | DiskTab.thread_exited | DiskTab.thread_finished => true
  | _ => false
  end.

(** The states of the tab when its signals come from its own workers: a
    signal is delivered only if a run of a worker the tab has started, on
    some collaborator and with some schedule of stop requests, emits it.
    Signals may arrive in any order and at any time. *)
Inductive reachable : DiskTab.state -> Prop :=
| reachable_initial : reachable DiskTab.initial
| reachable_outside ev s :
    reachable s -> from_outside ev = true -> reachable (DiskTab.handle ev s)
| reachable_signal k rt schedule sg s :
    reachable s ->
    In (DiskTab.thread_started k) (DiskTab.effects s) ->
    In sg (Worker.emitted (Props.after_run rt (Worker.new k schedule))) ->
    reachable (deliver k sg s).

(** What holds of the tab in a session. *)
Definition invariant (s : DiskTab.state) : Prop :=
  Props.tab_invariant s /\
  DiskTab._current_fs_open s = false /\
  DiskTab.file_listing_table s = [] /\
  (forall k, In (DiskTab.thread_started k) (DiskTab.effects s) ->
             Worker.inode k = None).

(** The tab holds a thread exactly when it holds a worker, and exactly
    then Browse is disabled. *)
Definition idle_invariant (s : DiskTab.state) : Prop :=
  (DiskTab._disk_thread s = None <-> DiskTab.browse_button_enabled s = true) /\
  (DiskTab._disk_thread s = None <-> DiskTab._disk_worker s = None).

End Session.


(* ===================================================================== *)
(** ** More concrete inputs                                               *)
(* ===================================================================== *)

Module Sample2.
Import Pytsk3 DiskAnalysis.

(** The handler with the sample file system open at offset 0. *)
Definition opened : DiskImageHandler :=
  snd (open_filesystem (Sample.runtime_of Sample.tsk_whole) Sample.fresh
         None (Some 0)).

(** A file without metadata, as of a deleted entry. *)
Definition orphan : file :=
  {| file_name := {| name_name := [Byte.x6f; Byte.x6c; Byte.x64]; name_flags := 2 |};
     file_meta := None |}.

(** A directory (inode 7) that holds a readable file and that one. *)
Definition lost_dir : directory :=
  {| dir_addr := 7;
     dir_iter := ([Sample.file_of [Byte.x61] 70 1; orphan], None) |}.

Definition fs_lost : filesystem :=
  {| fs_root_inum := 2;
     fs_type_name := Ok (lit "TSK_FS_TYPE_EXT4");
     fs_open_dir_inode := fun _ => Ok lost_dir;
     fs_open_dir_path := fun _ => Ok lost_dir |}.

Definition tsk_lost : Pytsk3.module :=
  {| Img_Info := fun _ => Ok Sample.img;
     Volume_Info := fun _ => Raise Sample.no_partition_table;
     FS_Info := fun _ _ => Ok fs_lost;
     TSK_FS_META_TYPE_ENUM_name := Sample.meta_type_name |}.

Definition opened_lost : DiskImageHandler :=
  snd (open_filesystem (Sample.runtime_of tsk_lost) Sample.fresh None (Some 0)).

(** A library whose enumeration objects have no attribute [name]: the
    sample file system opens, and every lookup of a type name raises
    [AttributeError]. *)
Definition no_name : exn :=
  Exn AttributeError (lit "object has no attribute 'name'").

Definition tsk_nameless : Pytsk3.module :=
  {| Img_Info := fun _ => Ok Sample.img;
     Volume_Info := fun _ => Raise Sample.no_partition_table;
     FS_Info := fun _ off =>
       if Z.eqb off 0 then Ok Sample.fs else Raise Sample.cannot_open;
     TSK_FS_META_TYPE_ENUM_name := fun _ => Raise no_name |}.

Definition opened_nameless : DiskImageHandler :=
  snd (open_filesystem (Sample.runtime_of tsk_nameless) Sample.fresh
         None (Some 0)).

(** A volume-system probe that fails with something else than [IOError]. *)
Definition bad_argument : exn := Exn TypeError (lit "an Img_Info is required").

Definition tsk_type_error : Pytsk3.module :=
  {| Img_Info := fun _ => Ok Sample.img;
     Volume_Info := fun _ => Raise bad_argument;
     FS_Info := fun _ _ => Raise Sample.cannot_open;
     TSK_FS_META_TYPE_ENUM_name := Sample.meta_type_name |}.

(** A volume system whose iteration yields one partition and then fails
    with an [IOError]. *)
Definition read_error : exn := Exn OSError (lit "Error reading partition table").

Definition vs_cut : volume_system :=
  {| vs_iter := ([Sample.linux_part], Some read_error);
     vs_block_size := Some 512;
     vs_get_part_by_addr := fun _ => Ok None |}.

Definition tsk_cut : Pytsk3.module :=
  {| Img_Info := fun _ => Ok Sample.img;
     Volume_Info := fun _ => Ok vs_cut;
     FS_Info := fun _ _ => Raise Sample.cannot_open;
     TSK_FS_META_TYPE_ENUM_name := Sample.meta_type_name |}.

(** The handler on the image whose block size reads as 0. *)
Definition fresh_block0 : DiskImageHandler :=
  {| DiskAnalysis.image_path := Some (lit "raw.dd");
     img_info := Some Sample.img_block0;
     volume_info := None; fs_info := None; partition_offset := None;
     calls := [] |}.

(** pytsk3 on which no file system opens. *)
Definition tsk_unopenable : Pytsk3.module :=
  {| Img_Info := fun _ => Ok Sample.img;
     Volume_Info := fun _ => Raise Sample.no_partition_table;
     FS_Info := fun _ _ => Raise Sample.cannot_open;
     TSK_FS_META_TYPE_ENUM_name := Sample.meta_type_name |}.

(** The tab with the volumes of the partitioned image shown while the
    enumeration task has not ended yet. *)
Definition still_enumerating : DiskTab.state :=
  DiskTab.play
    [ DiskTab.browse (lit "disk.dd") true;
      DiskTab.got_volume_info [Sample.linux_volume] ]
    DiskTab.initial.

(** The enumeration request the tab makes for [disk.dd]. *)
Definition enumeration_request : Worker.kwargs :=
  DiskTab.with_image_path (Some (lit "disk.dd"))
    (DiskTab.request "get_volumes" None None None None).

(** The tab after the image was chosen. *)
Definition image_chosen : DiskTab.state :=
  DiskTab.handle (DiskTab.browse (lit "disk.dd") true) DiskTab.initial.

End Sample2.


(* ===================================================================== *)
(** ** tools/calculate_hash.py                                            *)
(* ===================================================================== *)

Module CalculateHash.

(** A file opened with [open(file_path, 'rb')], by the results of its
    successive calls [f.read(buffer_size)]: a chunk, or an exception. When
    the list is used up [read] returns [b''], the end of the file. *)
Record file_object := {
  reads : list (result pybytes)
}.

(** What [calculate_hashes] uses of [os], [open] and [hashlib]. A hashlib
    object is the bytes it has been fed: [update] appends, and [hexdigest]
    is the digest of the concatenation, here [md5] and [sha256]. *)
Record runtime := {
  isfile : pystr -> bool;                  (* os.path.isfile *)
  open_rb : pystr -> result file_object;   (* open(file_path, 'rb') *)
  md5 : pybytes -> pystr;
  sha256 : pybytes -> pystr
}.

(** The loop [while True: data = f.read(buffer_size) ...] on the two
    hashers. *)
Fixpoint read_loop (rs : list (result pybytes))
  (md5_hasher sha256_hasher : pybytes) : result (pybytes * pybytes) :=
  match rs with
  | [] => Ok (md5_hasher, sha256_hasher)
  | Raise e :: _ => Raise e
  | Ok data :: rs' =>
      match data with
      | [] => Ok (md5_hasher, sha256_hasher)          (* if not data: break *)
      | _ :: _ => read_loop rs' (md5_hasher ++ data) (sha256_hasher ++ data)
      end
  end.

(** [calculate_hashes]: the pair [(md5_hex, sha256_hex)], [None] for a
    missing one. Both [except] clauses return [(None, None)]. *)
Definition calculate_hashes (rt : runtime) (file_path : pystr)
  : option pystr * option pystr :=
  if negb (isfile rt file_path) then (None, None)
  else
    match DiskAnalysis.bind (open_rb rt file_path)
            (fun f => read_loop (reads f) [] []) with
    | Ok (md5_hasher, sha256_hasher) =>
        (Some (md5 rt md5_hasher), Some (sha256 rt sha256_hasher))
    | Raise _ => (None, None)
    end.

End CalculateHash.

(* ===================================================================== *)
(** ** The collaborator: scapy                                            *)
(* ===================================================================== *)

Module Scapy.
Section WithFloat.
(** The values of Python's [float]. *)
Context {float : Type}.

(** [packet[IP]]: the fields the analysis reads. *)
Record ip_layer := {
  src : pystr;
  dst : pystr;
  proto : Z
}.

(** [packet[TCP]] and [packet[UDP]]. *)
Record transport_layer := {
  sport : Z;
  dport : Z
}.

(** A packet: [float(packet.time)], and for each layer class the layer
    when [layer in packet] holds. *)
Record packet := {
  time : float;
  IP : option ip_layer;
  TCP : option transport_layer;
  UDP : option transport_layer;
  Ether : bool
}.

(** An exception of the reader, with what [except FileNotFoundError] asks
    of it. *)
Record raised := {
  exc : exn;
  is_FileNotFoundError : bool
}.

(** [PcapReader(pcap_path)] raises, or returns a reader; iterating over
    the reader yields packets and may end with an exception. *)
Inductive opened :=
| reader (packets : list packet) (failure : option raised)
| raises (e : raised).

End WithFloat.
Arguments packet float : clear implicits.
Arguments opened float : clear implicits.
End Scapy.

(* ===================================================================== *)
(** ** tools/network_analysis.py                                          *)
(* ===================================================================== *)

Module NetworkAnalysis.
Import Scapy.

(** A port of a conversation: the string ['N/A'], or an [int]. *)
Inductive port :=
| NA
| port_int (n : Z).

(** The keys of the dictionary [conversations]:
    [(proto_name, ip, port, ip, port)]. *)
Definition conv_key : Type := pystr * pystr * port * pystr * port.

(** An entry of the list ['conversations'] of the result. *)
Record conversation := {
  protocol : pystr;
  src_ip : pystr;
  src_port : port;
  dst_ip : pystr;
  dst_port : port;
  conv_packet_count : Z                 (* 'packet_count' *)
}.

Definition port_eqb (a b : port) : bool :=
  match a, b with
  | NA, NA => true
  | port_int x, port_int y => Z.eqb x y
  | _, _ => false
  end.

(** [a > b] on ports: two [int]s or twice the same string compare, an
    [int] and a [str] do not. *)
Definition port_gt (a b : port) : result bool :=
  match a, b with
  | port_int x, port_int y => Ok (Z.ltb y x)
  | NA, NA => Ok false
  | NA, port_int _ =>
      Raise (Exn TypeError
               (lit "'>' not supported between instances of 'str' and 'int'"))
  | port_int _, NA =>
      Raise (Exn TypeError
               (lit "'>' not supported between instances of 'int' and 'str'"))
  end.

(** [a > b] on the tuples [(ip, port)]: the first components that differ
    decide. *)
Definition tuple_gt (a b : pystr * port) : result bool :=
  if negb (pystr_eqb (fst a) (fst b)) then Ok (pystr_ltb (fst b) (fst a))
  else if negb (port_eqb (snd a) (snd b)) then port_gt (snd a) (snd b)
  else Ok false.

Definition conv_key_eqb (a b : conv_key) : bool :=
  let '(p1, a1, b1, c1, d1) := a in
  let '(p2, a2, b2, c2, d2) := b in
  pystr_eqb p1 p2 && pystr_eqb a1 a2 && port_eqb b1 b2
  && pystr_eqb c1 c2 && port_eqb d1 d2.

(** The dictionary [conversations], in insertion order.
    [conversations.get(key, default)] and [conversations[key] = value]. *)
Fixpoint dict_get (key : conv_key) (default : Z) (d : list (conv_key * Z)) : Z :=
  match d with
  | [] => default
  | (k, v) :: d' => if conv_key_eqb k key then v else dict_get key default d'
  end.

Fixpoint dict_set (key : conv_key) (value : Z) (d : list (conv_key * Z))
  : list (conv_key * Z) :=
  match d with
  | [] => [(key, value)]
  | (k, v) :: d' =>
      if conv_key_eqb k key then (k, value) :: d'
      else (k, v) :: dict_set key value d'
  end.

(** The normalized key of a packet with an IP layer (lines 44 to 66). *)
Definition key_of_layers (ip : ip_layer) (tcp udp : option transport_layer)
  : result conv_key :=
  let '(src_port, dst_port, proto_name) :=
    match tcp with
    | Some t => (port_int (sport t), port_int (dport t), lit "TCP")
    | None =>
        match udp with
        | Some u => (port_int (sport u), port_int (dport u), lit "UDP")
        | None => (NA, NA, lit "IP")
        end
    end in
  DiskAnalysis.bind (tuple_gt (src ip, src_port) (dst ip, dst_port))
    (fun gt =>
       if gt then Ok (proto_name, dst ip, dst_port, src ip, src_port)
       else Ok (proto_name, src ip, src_port, dst ip, dst_port)).

Section WithFloat.
Context {float : Type}.

(** A value of ['start_time'] and ['end_time'] in the dictionary
    [summary]: [None], a [float], or a [str]. *)
Inductive time_value :=
| time_None
| time_float (t : float)
| time_str (s : pystr).

Record summary := {
  packet_count : Z;
  start_time : time_value;
  end_time : time_value;
  error : option pystr
}.

(** The dictionary [analyze_pcap] returns. *)
Record results := {
  results_summary : summary;             (* 'summary' *)
  conversations : list conversation      (* 'conversations' *)
}.

(** What [analyze_pcap] uses of scapy, of [float] and of [datetime]. *)
Record runtime := {
  PcapReader : pystr -> opened float;
  float_lt : float -> float -> bool;                (* a < b *)
  float_bool : float -> bool;                       (* bool(a): a != 0.0 *)
  fromtimestamp_strftime : float -> result pystr
    (* datetime.fromtimestamp(a).strftime('%Y-%m-%d %H:%M:%S') *)
}.

(** The local variables of [analyze_pcap] the loop and the handlers share. *)
Record locals := {
  l_summary : summary;
  l_conversations : list (conv_key * Z);
  processed_count : Z
}.

(** A block ends normally, or an exception leaves it; the local variables
    are as the block left them. *)
Inductive flow :=
| Normal (l : locals)
| Raised (e : raised) (l : locals).

Definition set_packet_count (n : Z) (s : summary) : summary :=
  {| packet_count := n; start_time := start_time s; end_time := end_time s;
     error := error s |}.

Definition set_start_time (v : time_value) (s : summary) : summary :=
  {| packet_count := packet_count s; start_time := v; end_time := end_time s;
     error := error s |}.

Definition set_end_time (v : time_value) (s : summary) : summary :=
  {| packet_count := packet_count s; start_time := start_time s; end_time := v;
     error := error s |}.

Definition set_error (m : pystr) (s : summary) : summary :=
  {| packet_count := packet_count s; start_time := start_time s;
     end_time := end_time s; error := Some m |}.

Definition with_summary (s : summary) (l : locals) : locals :=
  {| l_summary := s; l_conversations := l_conversations l;
     processed_count := processed_count l |}.

(** An exception that is not one of the reader. *)
Definition other (e : exn) : raised :=
  {| exc := e; is_FileNotFoundError := false |}.

Definition float_vs_str : exn :=
  Exn TypeError (lit "'<' not supported between instances of 'float' and 'str'").

Section WithRuntime.
Variable rt : runtime.

(** [v is None or a < v] and [v is None or a > v]. *)
Definition is_None_or_lt (a : float) (v : time_value) : result bool :=
  match v with
  | time_None => Ok true
  | time_float b => Ok (float_lt rt a b)
  | time_str _ => Raise float_vs_str
  end.

Definition is_None_or_gt (a : float) (v : time_value) : result bool :=
  match v with
  | time_None => Ok true
  | time_float b => Ok (float_lt rt b a)
  | time_str _ => Raise float_vs_str
  end.

(** The body of the loop for one packet (lines 33 to 72). *)
Definition loop_body (p : packet float) (l : locals) : flow :=
  let l := {| l_summary := l_summary l; l_conversations := l_conversations l;
              processed_count := processed_count l + 1 |} in
  let timestamp := time p in
  match is_None_or_lt timestamp (start_time (l_summary l)) with
  | Raise e => Raised (other e) l
  | Ok b1 =>
      let l := if b1 then with_summary (set_start_time (time_float timestamp)
                                          (l_summary l)) l
               else l in
      match is_None_or_gt timestamp (end_time (l_summary l)) with
      | Raise e => Raised (other e) l
      | Ok b2 =>
          let l := if b2 then with_summary (set_end_time (time_float timestamp)
                                              (l_summary l)) l
                   else l in
          match IP p with
          | Some ip =>
              match key_of_layers ip (TCP p) (UDP p) with
              | Raise e => Raised (other e) l
              | Ok conv_key =>
                  Normal
                    {| l_summary := l_summary l;
                       l_conversations :=
                         dict_set conv_key
                           (dict_get conv_key 0 (l_conversations l) + 1)
                           (l_conversations l);
                       processed_count := processed_count l |}
              end
          | None => Normal l          (* elif Ether in packet: pass *)
          end
      end
  end.

(** [for packet in pcap_reader]. *)
Fixpoint for_packets (ps : list (packet float)) (failure : option raised)
  (l : locals) : flow :=
  match ps with
  | [] =>
      match failure with
      | None => Normal l
      | Some e => Raised e l
      end
  | p :: ps' =>
      match loop_body p l with
      | Normal l' => for_packets ps' failure l'
      | Raised e l' => Raised e l'
      end
  end.

(** [datetime.fromtimestamp(v).strftime(...) if v else default]. *)
Definition format_time (default : pystr) (v : time_value) : result time_value :=
  match v with
  | time_None => Ok (time_str default)
  | time_float t =>
      if float_bool rt t
      then DiskAnalysis.bind (fromtimestamp_strftime rt t)
             (fun s => Ok (time_str s))
      else Ok (time_str default)
  | time_str s =>
      match s with
      | [] => Ok (time_str default)
      | _ :: _ =>
          Raise (Exn TypeError
                   (lit "'str' object cannot be interpreted as an integer"))
      end
  end.

(** One entry of [conv_list] (lines 87 to 94). *)
Definition conversation_of (item : conv_key * Z) : conversation :=
  let '((p, a1, b1, a2, b2), count) := item in
  {| protocol := p; src_ip := a1; src_port := b1; dst_ip := a2; dst_port := b2;
     conv_packet_count := count |}.

(** [conv_list.sort(key=lambda x: x['packet_count'], reverse=True)]: stable,
    larger counts first. *)
Definition sort_conversations (conv_list : list conversation)
  : list conversation :=
  DiskAnalysis.sort_by (fun a b => Z.ltb b a) conv_packet_count conv_list.

Definition initial_locals : locals :=
  {| l_summary := {| packet_count := 0; start_time := time_None;
                     end_time := time_None; error := None |};
     l_conversations := [];
     processed_count := 0 |}.

(** The body of the [try] statement: it returns the result, or an
    exception leaves it with the local variables as they are then. *)
Definition try_body (pcap_path : pystr) (l : locals)
  : results + raised * locals :=
  match PcapReader rt pcap_path with
  | raises e => inr (e, l)
  | reader ps failure =>
      match for_packets ps failure l with
      | Raised e l => inr (e, l)
      | Normal l =>
          let l := with_summary (set_packet_count (processed_count l)
                                   (l_summary l)) l in
          match format_time (lit "N/A") (start_time (l_summary l)) with
          | Raise e => inr (other e, l)
          | Ok v =>
              let l := with_summary (set_start_time v (l_summary l)) l in
              match format_time (lit "N/A") (end_time (l_summary l)) with
              | Raise e => inr (other e, l)
              | Ok v =>
                  let l := with_summary (set_end_time v (l_summary l)) l in
                  inl {| results_summary := l_summary l;
                         conversations :=
                           sort_conversations
                             (map conversation_of (l_conversations l)) |}
              end
          end
      end
  end.

(** [except FileNotFoundError]. *)
Definition except_FileNotFoundError (pcap_path : pystr) (l : locals) : results :=
  {| results_summary :=
       set_error (lit "PCAP file not found: " ++ pcap_path) (l_summary l);
     conversations := [] |}.

(** [except Exception as e]. *)
Definition except_Exception (pcap_path : pystr) (e : exn) (l : locals)
  : result results :=
  let s := set_error (lit "Error analyzing PCAP " ++ pcap_path ++ lit ": "
                      ++ exn_msg e) (l_summary l) in
  let s := set_packet_count (processed_count l) s in
  DiskAnalysis.bind (format_time (lit "Error") (start_time s)) (fun v =>
  let s := set_start_time v s in
  DiskAnalysis.bind (format_time (lit "Error") (end_time s)) (fun v =>
  let s := set_end_time v s in
  Ok {| results_summary := s; conversations := [] |})).

(** [analyze_pcap]: the result, or the exception a handler raised. *)
Definition analyze_pcap (pcap_path : pystr) : result results :=
  match try_body pcap_path initial_locals with
  | inl r => Ok r
  | inr (e, l) =>
      if is_FileNotFoundError e then Ok (except_FileNotFoundError pcap_path l)
      else except_Exception pcap_path (exc e) l
  end.

End WithRuntime.
End WithFloat.
Arguments time_value float : clear implicits.
Arguments summary float : clear implicits.
Arguments results float : clear implicits.
Arguments runtime float : clear implicits.
Arguments locals float : clear implicits.
Arguments flow float : clear implicits.
End NetworkAnalysis.

(* ===================================================================== *)
(** ** gui/worker.py: the workers of the utilities                        *)
(* ===================================================================== *)

(** [BaseWorker] for a worker created with positional arguments, with the
    type of the object [results_ready] carries left open. *)
Module BaseWorker.
Section WithPayload.
Context {R : Type}.

Inductive signal :=
| finished
| error (msg : pystr)
| progress (msg : pystr)
| results_ready (r : R).

(** A worker object; [emitted] and [pending_stop] are as for
    [Worker.worker]. *)
Record worker := {
  args : list pystr;
  _is_running : bool;
  emitted : list signal;
  pending_stop : option nat
}.

(** [BaseWorker.__init__]. *)
Definition new (a : list pystr) (schedule : option nat) : worker :=
  {| args := a; _is_running := true; emitted := []; pending_stop := schedule |}.

Definition emit (s : signal) (w : worker) : worker :=
  {| args := args w; _is_running := _is_running w;
     emitted := emitted w ++ [s]; pending_stop := pending_stop w |}.

(** [BaseWorker.stop]. *)
Definition stop (w : worker) : worker :=
  emit (progress (lit "Stopping analysis..."))
    {| args := args w; _is_running := false;
       emitted := emitted w; pending_stop := pending_stop w |}.

(** A collaborator call has been in flight and returns. *)
Definition returned (w : worker) : worker :=
  match pending_stop w with
  | None => w
  | Some O =>
      stop {| args := args w; _is_running := _is_running w;
              emitted := emitted w; pending_stop := None |}
  | Some (S n) =>
      {| args := args w; _is_running := _is_running w;
         emitted := emitted w; pending_stop := Some n |}
  end.

(** [self.args[0]]. *)
Definition args_0 (w : worker) : result pystr :=
  match args w with
  | a :: _ => Ok a
  | [] => Raise (Exn OtherException (lit "tuple index out of range"))
  end.

(** The [finally] block the three workers share. *)
Definition run_finally (w : worker) : result unit * worker :=
  if _is_running w then (Ok tt, emit finished w) else (Ok tt, w).

(** The [except Exception as e] block, up to the prefix of the message. *)
Definition run_except (prefix : string) (e : exn) (w : worker)
  : result unit * worker :=
  if negb (_is_running w) then (Ok tt, w)
  else (Ok tt, emit (error (lit prefix ++ exn_msg e)) w).

End WithPayload.
Arguments signal R : clear implicits.
Arguments worker R : clear implicits.
End BaseWorker.

Module HashWorker.
Import BaseWorker.

(** The dictionary [{'md5': md5_hash, 'sha256': sha256_hash}]. *)
Record hashes := {
  md5 : pystr;
  sha256 : option pystr
}.

Section WithRuntime.
Variable rt : CalculateHash.runtime.
Variable basename : pystr -> pystr.          (* os.path.basename *)

Definition run_body (w : worker hashes) : result unit * worker hashes :=
  match args_0 w with
  | Raise e => (Raise e, w)
  | Ok file_path =>
      let w := emit (progress (lit "Calculating hashes for "
                               ++ basename file_path ++ lit "...")) w in
      let '(md5_hash, sha256_hash) :=
        CalculateHash.calculate_hashes rt file_path in
      let w := returned w in
      if negb (_is_running w) then (Ok tt, w)
      else
        match md5_hash with
        | Some m =>
            (Ok tt, emit (results_ready {| md5 := m; sha256 := sha256_hash |}) w)
        | None =>
            (Ok tt, emit (error (lit "Failed to calculate hashes for "
                                 ++ basename file_path ++ lit ".")) w)
        end
  end.

(** [HashWorker.run]. *)
Definition run (w : worker hashes) : result unit * worker hashes :=
  Worker.try_except_finally run_body (run_except "Hashing error: ")
    run_finally w.

End WithRuntime.
End HashWorker.

Module NetworkAnalysisWorker.
Import BaseWorker.

Section WithRuntime.
Context {float : Type}.
Variable rt : NetworkAnalysis.runtime float.
Variable basename : pystr -> pystr.          (* os.path.basename *)

(** [results.get('summary', {}).get('error')] as a condition. *)
Definition reported_error (r : NetworkAnalysis.results float) : option pystr :=
  match NetworkAnalysis.error (NetworkAnalysis.results_summary r) with
  | Some (c :: m) => Some (c :: m)
  | _ => None
  end.

Definition run_body (w : worker (NetworkAnalysis.results float))
  : result unit * worker (NetworkAnalysis.results float) :=
  match args_0 w with
  | Raise e => (Raise e, w)
  | Ok pcap_path =>
      let w := emit (progress (lit "Analyzing PCAP: "
                               ++ basename pcap_path ++ lit "...")) w in
      let r := NetworkAnalysis.analyze_pcap rt pcap_path in
      let w := returned w in
      match r with
      | Raise e => (Raise e, w)
      | Ok results =>
          if negb (_is_running w) then (Ok tt, w)
          else
            match reported_error results with
            | Some m =>
                (Ok tt, emit (error (lit "PCAP analysis error: " ++ m)) w)
            | None => (Ok tt, emit (results_ready results) w)
            end
      end
  end.

(** [NetworkAnalysisWorker.run]. *)
Definition run (w : worker (NetworkAnalysis.results float))
  : result unit * worker (NetworkAnalysis.results float) :=
  Worker.try_except_finally run_body (run_except "Network analysis error: ")
    run_finally w.

End WithRuntime.
End NetworkAnalysisWorker.


(* ===================================================================== *)
(** ** Vocabulary for the utilities                                       *)
(* ===================================================================== *)

Module ToolProps.
Import Scapy NetworkAnalysis.

(** The interactive thread calls [stop] while the one collaborator call of
    the run is in flight. *)
Definition stopped_in_call {R : Type} (w : BaseWorker.worker R) : bool :=
  match BaseWorker.pending_stop w with
  | Some O => true
  | _ => false
  end.

(** The chunk is not empty. *)
Definition nonempty (data : pybytes) : Prop := data <> [].

(** Reads that end the loop of [calculate_hashes]: none is left, or the
    next one returns [b'']. *)
Definition at_eof (rs : list (result pybytes)) : Prop :=
  rs = [] \/ exists rs', rs = Ok [] :: rs'.

(** Two ports read from the same layer: both ['N/A'] or both [int]. *)
Definition same_shape (a b : port) : Prop :=
  match a, b with
  | NA, NA => True
  | port_int _, port_int _ => True
  | _, _ => False
  end.

Section WithFloat.
Context {float : Type}.

(** The conversation a packet is counted in, if any. *)
Definition key_of (p : packet float) : option conv_key :=
  match IP p with
  | Some ip =>
      match key_of_layers ip (TCP p) (UDP p) with
      | Ok k => Some k
      | Raise _ => None
      end
  | None => None
  end.

Definition in_conversation (k : conv_key) (p : packet float) : bool :=
  match key_of p with
  | Some k' => conv_key_eqb k' k
  | None => false
  end.

(** The number of packets of a conversation. *)
Definition packets_of (k : conv_key) (ps : list (packet float)) : Z :=
  Z.of_nat (List.length (filter (in_conversation k) ps)).

(** The packet with source and destination exchanged. *)
Definition swap_ip (ip : ip_layer) : ip_layer :=
  {| src := dst ip; dst := src ip; proto := proto ip |}.

Definition swap_ports (t : transport_layer) : transport_layer :=
  {| sport := dport t; dport := sport t |}.

Definition reversed (p : packet float) : packet float :=
  {| time := time p;
     IP := option_map swap_ip (IP p);
     TCP := option_map swap_ports (TCP p);
     UDP := option_map swap_ports (UDP p);
     Ether := Ether p |}.

(** The key a conversation of the result stands for. *)
Definition conversation_key (c : conversation) : conv_key :=
  (protocol c, src_ip c, src_port c, dst_ip c, dst_port c).

(** The text shown for a timestamp of the capture. *)
Definition shown (rt : runtime float) (t : float) (s : pystr) : Prop :=
  if float_bool rt t then fromtimestamp_strftime rt t = Ok s
  else s = lit "N/A".

(** What reading the capture fails with, and after how many packets. *)
Definition reading_error (rt : runtime float) (pcap_path : pystr)
  : option (raised * nat) :=
  match PcapReader rt pcap_path with
  | raises e => Some (e, O)
  | reader ps (Some e) => Some (e, List.length ps)
  | reader _ None => None
  end.

(** The value of ['start_time'] or ['end_time'] during the loop: [None]
    before the first packet, the timestamp of a packet after it. *)
Definition seen (pre : list (packet float)) (v : time_value float) : Prop :=
  match v with
  | time_None => pre = []
  | time_float t => exists p, In p pre /\ time p = t
  | time_str _ => False
  end.

(** The local variables of [analyze_pcap] after the packets [pre]. *)
Definition scanned (pre : list (packet float)) (l : locals float) : Prop :=
  processed_count l = Z.of_nat (List.length pre) /\
  packet_count (l_summary l) = 0 /\
  error (l_summary l) = None /\
  NoDup (map fst (l_conversations l)) /\
  (forall k, dict_get k 0 (l_conversations l) = packets_of k pre) /\
  (forall k, In k (map fst (l_conversations l)) -> 1 <= packets_of k pre) /\
  seen pre (start_time (l_summary l)) /\
  seen pre (end_time (l_summary l)).

(** No packet of [pre] is earlier than ['start_time'] or later than
    ['end_time']. *)
Definition bounds (rt : runtime float) (pre : list (packet float))
  (l : locals float) : Prop :=
  (forall t, start_time (l_summary l) = time_float t ->
             forall p, In p pre -> float_lt rt (time p) t = false) /\
  (forall t, end_time (l_summary l) = time_float t ->
             forall p, In p pre -> float_lt rt t (time p) = false).

(** [<] on the timestamps is a strict order. *)
Definition strict_order (rt : runtime float) : Prop :=
  (forall a, float_lt rt a a = false) /\
  (forall a b c, float_lt rt a b = true -> float_lt rt b c = true ->
                 float_lt rt a c = true).

End WithFloat.
End ToolProps.


(* ===================================================================== *)
(** ** Concrete inputs for the utilities                                  *)
(* ===================================================================== *)

Module Sample3.
Import Scapy NetworkAnalysis.

(** A file read in two chunks, and toy digests: the length of the data in
    decimal and in octal. *)
Definition evidence : CalculateHash.file_object :=
  {| CalculateHash.reads :=
       [Ok [Byte.x61; Byte.x62]; Ok [Byte.x63]; Ok []] |}.

Definition disk_error : exn := Exn OSError (lit "Input/output error").

(** A file whose second read fails. *)
Definition damaged : CalculateHash.file_object :=
  {| CalculateHash.reads := [Ok [Byte.x61; Byte.x62]; Raise disk_error] |}.

Definition hash_runtime : CalculateHash.runtime :=
  {| CalculateHash.isfile := fun p =>
       pystr_eqb p (lit "/cases/evidence.bin")
       || pystr_eqb p (lit "/cases/damaged.bin");
     CalculateHash.open_rb := fun p =>
       if pystr_eqb p (lit "/cases/evidence.bin") then Ok evidence
       else if pystr_eqb p (lit "/cases/damaged.bin") then Ok damaged
       else Raise (Exn OSError (lit "No such file or directory"));
     CalculateHash.md5 := fun data => str_int (Z.of_nat (List.length data));
     CalculateHash.sha256 := fun data => oct (Z.of_nat (List.length data)) |}.

(** [os.path.basename] on the sample paths. *)
Fixpoint basename_from (p acc : pystr) : pystr :=
  match p with
  | [] => acc
  | c :: p' => if N.eqb c 47 then basename_from p' [] else basename_from p' (acc ++ [c])
  end.

Definition basename (p : pystr) : pystr := basename_from p [].

(** A capture of four packets, with timestamps in whole seconds: a TCP
    request and its answer, a UDP datagram, and an ARP frame. *)
Definition request : packet Z :=
  {| time := 1700000001;
     IP := Some {| src := lit "10.0.0.2"; dst := lit "10.0.0.1"; proto := 6 |};
     TCP := Some {| sport := 40000; dport := 80 |};
     UDP := None; Ether := true |}.

Definition answer : packet Z :=
  {| time := 1700000002;
     IP := Some {| src := lit "10.0.0.1"; dst := lit "10.0.0.2"; proto := 6 |};
     TCP := Some {| sport := 80; dport := 40000 |};
     UDP := None; Ether := true |}.

Definition datagram : packet Z :=
  {| time := 1700000000;
     IP := Some {| src := lit "10.0.0.2"; dst := lit "8.8.8.8"; proto := 17 |};
     TCP := None;
     UDP := Some {| sport := 5353; dport := 53 |}; Ether := true |}.

Definition arp : packet Z :=
  {| time := 1700000003; IP := None; TCP := None; UDP := None; Ether := true |}.

Definition capture : list (packet Z) := [datagram; request; answer; arp].

Definition no_such_file : raised :=
  {| exc := Exn OSError (lit "[Errno 2] No such file or directory: 'gone.pcap'");
     is_FileNotFoundError := true |}.

Definition truncated : raised :=
  {| exc := Exn OtherException (lit "Not a supported capture file");
     is_FileNotFoundError := false |}.

Definition reader_of (p : pystr) : opened Z :=
  if pystr_eqb p (lit "lan.pcap") then reader capture None
  else if pystr_eqb p (lit "cut.pcap") then reader [datagram; request] (Some truncated)
  else if pystr_eqb p (lit "notes.txt") then raises truncated
  else raises no_such_file.

(** Timestamps are formatted as their decimal text. *)
Definition net_runtime : runtime Z :=
  {| PcapReader := reader_of;
     float_lt := Z.ltb;
     float_bool := fun t => negb (Z.eqb t 0);
     fromtimestamp_strftime := fun t => Ok (str_int t) |}.

(** A platform on which [fromtimestamp] rejects every timestamp. *)
Definition net_runtime_overflow : runtime Z :=
  {| PcapReader := reader_of;
     float_lt := Z.ltb;
     float_bool := fun t => negb (Z.eqb t 0);
     fromtimestamp_strftime := fun _ =>
       Raise (Exn OverflowError (lit "timestamp out of range for platform time_t")) |}.

(** The result for [lan.pcap]. *)
Definition lan_summary : summary Z :=
  {| packet_count := 4;
     start_time := time_str (lit "1700000000");
     end_time := time_str (lit "1700000003");
     error := None |}.

Definition lan_results : results Z :=
  {| results_summary := lan_summary;
     conversations :=
       [ {| protocol := lit "TCP";
            src_ip := lit "10.0.0.1"; src_port := port_int 80;
            dst_ip := lit "10.0.0.2"; dst_port := port_int 40000;
            conv_packet_count := 2 |};
         {| protocol := lit "UDP";
            src_ip := lit "10.0.0.2"; src_port := port_int 5353;
            dst_ip := lit "8.8.8.8"; dst_port := port_int 53;
            conv_packet_count := 1 |} ] |}.

(** The result for [cut.pcap]. *)
Definition cut_results : results Z :=
  {| results_summary :=
       {| packet_count := 2;
          start_time := time_str (lit "1700000000");
          end_time := time_str (lit "1700000001");
          error := Some (lit "Error analyzing PCAP cut.pcap: Not a supported capture file") |};
     conversations := [] |}.

End Sample3.

(* ===================================================================== *)
(** * Properties                                                          *)
(* ===================================================================== *)

(** ** The model on the samples *)

Example lit_dollar : lit "$" = [36%N].
Proof. reflexivity. Qed.

Example str_int_negative : str_int (-15) = lit "-15".
Proof. reflexivity. Qed.

Example oct_493 : oct 493 = lit "0o755".
Proof. reflexivity. Qed.

Example oct_0 : oct 0 = lit "0o0".
Proof. reflexivity. Qed.

Example decode_ascii : decode_utf8 [Byte.x66; Byte.x6f; Byte.x6f] = lit "foo".
Proof. reflexivity. Qed.

(* e2 82 ac is U+20AC; a truncated e2 82 is one U+FFFD; ff is invalid *)
Example decode_euro :
  decode_utf8 [Byte.xe2; Byte.x82; Byte.xac; Byte.xe2; Byte.x82; Byte.xff; Byte.x41]
  = [8364; 65533; 65533; 65]%N.
Proof. reflexivity. Qed.

(** The root of the sample file system: [.] and [..] stay, [$O] goes,
    directories come first, [a.txt] comes before [README]. *)
Example list_root :
  map DiskAnalysis.name
    (fst (DiskAnalysis.list_directory (Sample.runtime_of Sample.tsk_whole)
            (snd (DiskAnalysis.open_filesystem (Sample.runtime_of Sample.tsk_whole)
                    Sample.fresh None (Some 0)))
            (Some (lit "/")) None))
  = [lit "."; lit ".."; lit "bin"; lit "etc"; lit "a.txt"; lit "README"].
Proof. vm_compute. reflexivity. Qed.

(** The directory [etc], by inode: [.] and [..] go. *)
Example list_etc :
  map DiskAnalysis.name
    (fst (DiskAnalysis.list_directory (Sample.runtime_of Sample.tsk_whole)
            (snd (DiskAnalysis.open_filesystem (Sample.runtime_of Sample.tsk_whole)
                    Sample.fresh None (Some 0)))
            None (Some 42)))
  = [lit "alpha"; lit "Zeta"].
Proof. vm_compute. reflexivity. Qed.

Example volumes_of_partitioned_image :
  fst (DiskAnalysis.get_volume_info (Sample.runtime_of Sample.tsk_parts) Sample.fresh)
  = Ok [Sample.linux_volume].
Proof. reflexivity. Qed.

Example volumes_of_whole_image :
  fst (DiskAnalysis.get_volume_info (Sample.runtime_of Sample.tsk_whole) Sample.fresh)
  = Ok [Sample.whole_volume].
Proof. reflexivity. Qed.

(** A listing task on the whole image, nobody asking to stop. *)
Example run_list_root :
  map Worker.is_payload
    (Worker.emitted
       (after_run (Sample.runtime_of Sample.tsk_whole)
          (Worker.new Sample.list_root_kwargs None)))
  = [false; false; false; true; false].
Proof. vm_compute. reflexivity. Qed.

(** An [open_fs] task whose open succeeds ends in the [NameError] of the
    name [pytsk3], which [worker.py] does not import. *)
Example run_open_fs_success :
  Worker.emitted
    (after_run (Sample.runtime_of Sample.tsk_whole)
       (Worker.new Sample.open_fs_kwargs None))
  = [ Worker.progress (lit "Starting disk task: open_fs...");
      Worker.progress
        (lit "Attempting to open filesystem (Partition: None, Offset: 0)...");
      Worker.error (lit "Disk analysis error: name 'pytsk3' is not defined");
      Worker.finished ].
Proof. vm_compute. reflexivity. Qed.

(** The tab after a double click on the synthetic volume: offset 0, no
    partition index, one listing task started. *)
Example select_whole_volume :
  DiskTab._selected_partition_index
    (DiskTab._volume_selected (Some 0%nat)
       (Sample.volumes_listed [Sample.whole_volume])) = None /\
  DiskTab._selected_offset
    (DiskTab._volume_selected (Some 0%nat)
       (Sample.volumes_listed [Sample.whole_volume])) = Some 0.
Proof. split; reflexivity. Qed.


(** ** Strings and bytes *)

Lemma pystr_eqb_eq (a b : pystr) : pystr_eqb a b = true <-> a = b.
Proof.
  revert b; induction a as [|x a IH]; intros [|y b]; simpl;
    try (split; [discriminate | congruence]); try tauto.
  rewrite andb_true_iff, N.eqb_eq, IH. split.
  - intros [-> ->]; reflexivity.
  - intros H; inversion H; auto.
Qed.

Lemma pystr_ltb_irrefl (a : pystr) : pystr_ltb a a = false.
Proof.
  induction a as [|x a IH]; simpl; [reflexivity|].
  rewrite N.ltb_irrefl. exact IH.
Qed.

(** [<] on strings is asymmetric. *)
Lemma pystr_ltb_asym (a b : pystr) : pystr_ltb a b = true -> pystr_ltb b a = false.
Proof.
  revert b; induction a as [|x a IH]; intros [|y b]; simpl; try congruence.
  destruct (N.ltb_spec x y), (N.ltb_spec y x); try congruence; try lia.
  apply IH.
Qed.

(** [>=] on strings is transitive. *)
Lemma pystr_geb_trans (a b c : pystr) :
  pystr_ltb a b = false -> pystr_ltb b c = false -> pystr_ltb a c = false.
Proof.
  revert b c; induction a as [|x a IH]; intros [|y b] [|z c]; simpl;
    try congruence.
  destruct (N.ltb_spec x y), (N.ltb_spec y x), (N.ltb_spec y z),
    (N.ltb_spec z y), (N.ltb_spec x z), (N.ltb_spec z x);
    try congruence; try lia.
  apply IH.
Qed.

Lemma key_ltb_asym (a b : bool * pystr) :
  DiskAnalysis.key_ltb a b = true -> DiskAnalysis.key_ltb b a = false.
Proof.
  destruct a as [[|] s], b as [[|] t]; unfold DiskAnalysis.key_ltb; simpl;
    try congruence.
  - apply pystr_ltb_asym.
  - apply pystr_ltb_asym.
Qed.

Lemma key_geb_trans (a b c : bool * pystr) :
  DiskAnalysis.key_ltb a b = false -> DiskAnalysis.key_ltb b c = false ->
  DiskAnalysis.key_ltb a c = false.
Proof.
  destruct a as [[|] s], b as [[|] t], c as [[|] u];
    unfold DiskAnalysis.key_ltb; simpl; try congruence;
    apply pystr_geb_trans.
Qed.

(** *** The decoder: what the first byte decides *)

Lemma replacement_not_ascii : (128 <= replacement)%N.
Proof. unfold replacement. lia. Qed.

Ltac split_leb :=
  repeat match goal with
  | H : (_ && _)%bool = true |- _ => apply andb_true_iff in H; destruct H
  | H : N.leb _ _ = true |- _ => apply N.leb_le in H
  | H : N.ltb _ _ = true |- _ => apply N.ltb_lt in H
  | H : N.ltb _ _ = false |- _ => apply N.ltb_ge in H
  end.

(** A byte below 0x80 decodes to itself and the decoder goes on with the
    next byte; any other first byte gives a code point of at least 0x80. *)
Lemma decode_utf8_head (b : Byte.byte) (r : pybytes) :
  exists c rest,
    decode_utf8 (b :: r) = c :: decode_utf8 rest /\
    ((Byte.to_N b < 128)%N -> c = Byte.to_N b /\ rest = r) /\
    ((128 <= Byte.to_N b)%N -> (128 <= c)%N).
Proof.
  pose proof replacement_not_ascii as Hrep.
  cbn [decode_utf8].
  destruct (N.ltb (Byte.to_N b) 128) eqn:E0.
  { split_leb. do 2 eexists. split; [reflexivity|]. split; intros; [auto | lia]. }
  split_leb.
  destruct (N.leb 194 (Byte.to_N b) && N.leb (Byte.to_N b) 223) eqn:E1.
  { split_leb. destruct r as [|b1 r2].
    - do 2 eexists. split; [reflexivity|]. split; intros; [lia | assumption].
    - destruct (is_cont (Byte.to_N b1)) eqn:C1.
      + unfold is_cont in C1. split_leb.
        do 2 eexists. split; [reflexivity|]. split; intros; lia.
      + do 2 eexists. split; [reflexivity|]. split; intros; [lia | assumption]. }
  destruct (N.leb 224 (Byte.to_N b) && N.leb (Byte.to_N b) 239) eqn:E2.
  { split_leb. destruct r as [|b1 r2].
    - do 2 eexists. split; [reflexivity|]. split; intros; [lia | assumption].
    - destruct (second_ok (Byte.to_N b) (Byte.to_N b1)) eqn:S1.
      2:{ do 2 eexists. split; [reflexivity|]. split; intros; [lia | assumption]. }
      destruct r2 as [|b2 r3].
      { do 2 eexists. split; [reflexivity|]. split; intros; [lia | assumption]. }
      destruct (is_cont (Byte.to_N b2)) eqn:C2.
      2:{ do 2 eexists. split; [reflexivity|]. split; intros; [lia | assumption]. }
      do 2 eexists. split; [reflexivity|]. split; intros; [lia|].
      unfold second_ok, is_cont in *.
      destruct (N.eqb_spec (Byte.to_N b) 224);
        [| destruct (N.eqb_spec (Byte.to_N b) 237);
           [| destruct (N.eqb_spec (Byte.to_N b) 240);
              [| destruct (N.eqb_spec (Byte.to_N b) 244)]]];
        split_leb; lia. }
  destruct (N.leb 240 (Byte.to_N b) && N.leb (Byte.to_N b) 244) eqn:E3.
  { split_leb. destruct r as [|b1 r2].
    - do 2 eexists. split; [reflexivity|]. split; intros; [lia | assumption].
    - destruct (second_ok (Byte.to_N b) (Byte.to_N b1)) eqn:S1.
      2:{ do 2 eexists. split; [reflexivity|]. split; intros; [lia | assumption]. }
      destruct r2 as [|b2 r3].
      { do 2 eexists. split; [reflexivity|]. split; intros; [lia | assumption]. }
      destruct (is_cont (Byte.to_N b2)) eqn:C2.
      2:{ do 2 eexists. split; [reflexivity|]. split; intros; [lia | assumption]. }
      destruct r3 as [|b3 r4].
      { do 2 eexists. split; [reflexivity|]. split; intros; [lia | assumption]. }
      destruct (is_cont (Byte.to_N b3)) eqn:C3.
      2:{ do 2 eexists. split; [reflexivity|]. split; intros; [lia | assumption]. }
      do 2 eexists. split; [reflexivity|]. split; intros; [lia|].
      unfold second_ok, is_cont in *.
      destruct (N.eqb_spec (Byte.to_N b) 224);
        [| destruct (N.eqb_spec (Byte.to_N b) 237);
           [| destruct (N.eqb_spec (Byte.to_N b) 240);
              [| destruct (N.eqb_spec (Byte.to_N b) 244)]]];
        split_leb; lia. }
  do 2 eexists. split; [reflexivity|]. split; intros; [lia | assumption].
Qed.

Lemma decode_utf8_nil_inv (bs : pybytes) : decode_utf8 bs = [] -> bs = [].
Proof.
  destruct bs as [|b r]; [reflexivity|]. intros H.
  destruct (decode_utf8_head b r) as (c & rest & E & _). congruence.
Qed.

(** A decoded string that starts with an ASCII character comes from bytes
    that start with that character's byte. *)
Lemma decode_utf8_ascii_head (bs : pybytes) (c : N) (s : pystr) :
  decode_utf8 bs = c :: s -> (c < 128)%N ->
  exists b r, bs = b :: r /\ Byte.to_N b = c /\ decode_utf8 r = s.
Proof.
  destruct bs as [|b r]; [discriminate|]. intros H Hc.
  destruct (decode_utf8_head b r) as (c' & rest & E & Hlo & Hhi).
  rewrite E in H. inversion H; subst c' s.
  destruct (N.lt_ge_cases (Byte.to_N b) 128) as [Hb|Hb].
  - destruct (Hlo Hb) as [-> ->]. exists b, r. auto.
  - specialize (Hhi Hb). lia.
Qed.

(** The name [.] is the decoding of the bytes [b"."] only. *)
Lemma decode_utf8_dot (bs : pybytes) :
  decode_utf8 bs = lit "." -> bytes_eqb bs [Byte.x2e] = true.
Proof.
  intros H. apply decode_utf8_ascii_head in H; [|reflexivity || (cbn; lia)].
  destruct H as (b & r & -> & Hb & Hr).
  apply decode_utf8_nil_inv in Hr. subst r.
  cbn. unfold byte_eqb. rewrite Hb. reflexivity.
Qed.

(** The name [..] is the decoding of the bytes [b".."] only. *)
Lemma decode_utf8_dotdot (bs : pybytes) :
  decode_utf8 bs = lit ".." -> bytes_eqb bs [Byte.x2e; Byte.x2e] = true.
Proof.
  intros H. apply decode_utf8_ascii_head in H; [|cbn; lia].
  destruct H as (b & r & -> & Hb & Hr).
  apply decode_utf8_ascii_head in Hr; [|cbn; lia].
  destruct Hr as (b' & r' & -> & Hb' & Hr').
  apply decode_utf8_nil_inv in Hr'. subst r'.
  cbn. unfold byte_eqb. rewrite Hb, Hb'. reflexivity.
Qed.

(** A decoded name starts with [$] only if its bytes start with [b"$"]. *)
Lemma decode_utf8_dollar (bs : pybytes) :
  startswith (decode_utf8 bs) (lit "$") = true ->
  bytes_startswith bs [Byte.x24] = true.
Proof.
  destruct (decode_utf8 bs) as [|c s] eqn:E; [discriminate|].
  intros Hc. change (lit "$") with [36%N] in Hc. cbn [startswith] in Hc.
  apply andb_true_iff in Hc. destruct Hc as [Hc _].
  apply N.eqb_eq in Hc. subst c.
  apply decode_utf8_ascii_head in E; [|lia].
  destruct E as (b & r & -> & Hb & _).
  cbn. unfold byte_eqb. rewrite Hb. destruct r; reflexivity.
Qed.

(** ** Sorting by key *)

Section SortBy.
Context {A K : Type}.
Variable ltb : K -> K -> bool.
Variable key : A -> K.
Hypothesis ltb_asym : forall a b, ltb a b = true -> ltb b a = false.
Hypothesis geb_trans :
  forall a b c, ltb a b = false -> ltb b c = false -> ltb a c = false.

Lemma insert_by_perm (x : A) (l : list A) :
  Permutation (DiskAnalysis.insert_by ltb key x l) (x :: l).
Proof.
  induction l as [|y l IH]; simpl; [reflexivity|].
  destruct (ltb (key y) (key x)).
  - rewrite IH. apply perm_swap.
  - reflexivity.
Qed.

Lemma sort_by_perm (l : list A) :
  Permutation (DiskAnalysis.sort_by ltb key l) l.
Proof.
  induction l as [|x l IH]; simpl; [reflexivity|].
  rewrite insert_by_perm. constructor. exact IH.
Qed.

Lemma insert_by_sorted (x : A) (l : list A) :
  StronglySorted (key_le ltb key) l ->
  StronglySorted (key_le ltb key) (DiskAnalysis.insert_by ltb key x l).
Proof.
  induction 1 as [|y l Hs IH Hall]; simpl.
  - repeat constructor.
  - destruct (ltb (key y) (key x)) eqn:E.
    + constructor; [exact IH|].
      eapply Permutation_Forall; [symmetry; apply insert_by_perm|].
      constructor; [|exact Hall].
      unfold key_le. apply ltb_asym. exact E.
    + constructor; [constructor; assumption|].
      constructor; [exact E|].
      eapply Forall_impl; [|exact Hall].
      intros z Hz. unfold key_le in *.
      eapply geb_trans; eassumption.
Qed.

Lemma sort_by_sorted (l : list A) :
  StronglySorted (key_le ltb key) (DiskAnalysis.sort_by ltb key l).
Proof.
  induction l as [|x l IH]; simpl; [constructor|].
  apply insert_by_sorted. exact IH.
Qed.

End SortBy.

(** In a strongly sorted list the element at a smaller index is related to
    the element at a larger one. *)
Lemma StronglySorted_nth_error {A : Type} (R : A -> A -> Prop) (l : list A) :
  StronglySorted R l ->
  forall i j a b, (i < j)%nat ->
    nth_error l i = Some a -> nth_error l j = Some b -> R a b.
Proof.
  induction 1 as [|x l Hs IH Hall]; intros i j a b Hij Ha Hb.
  - destruct i; discriminate.
  - destruct j as [|j]; [lia|]. simpl in Hb.
    destruct i as [|i]; simpl in Ha.
    + inversion Ha; subst a.
      rewrite Forall_forall in Hall. apply Hall.
      eapply nth_error_In; eassumption.
    + eapply IH; [|eassumption|eassumption]. lia.
Qed.

(** ** DiskImageHandler *)

Section Handler.
Import Pytsk3 DiskAnalysis.
Variable rt : runtime.

(** What every failed open leaves behind. *)
Lemma open_failed_spec (self : DiskImageHandler) :
  fst (open_failed self) = false /\
  fs_info (snd (open_failed self)) = None /\
  partition_offset (snd (open_failed self)) = None.
Proof. repeat split. Qed.

Lemma open_at_spec (off : Z) (self : DiskImageHandler) :
  let r := open_at rt off self in
  (fst r = true /\ fs_info (snd r) <> None) \/
  (fst r = false /\ fs_info (snd r) = None /\ partition_offset (snd r) = None).
Proof.
  unfold open_at; cbn.
  destruct (FS_Info (pytsk3 rt) (img_info self) off) as [fs|e]; cbn.
  - destruct (fs_type_name fs) as [n|e]; cbn.
    + left. split; [reflexivity | discriminate].
    + right. repeat split.
  - right. repeat split.
Qed.

(** [open_filesystem] returns [True] with a file system stored, or [False]
    with [fs_info] and [partition_offset] both [None]. *)
Lemma open_filesystem_spec (self : DiskImageHandler) (p o : option Z) :
  let r := open_filesystem rt self p o in
  (fst r = true /\ fs_info (snd r) <> None) \/
  (fst r = false /\ fs_info (snd r) = None /\ partition_offset (snd r) = None).
Proof.
  unfold open_filesystem.
  destruct p as [i|], o as [off|]; cbn.
  - right. repeat split.
  - destruct (volume_info self) as [vs|]; cbn; [|right; repeat split].
    destruct (vs_get_part_by_addr vs i) as [[pt|]|e]; cbn;
      try solve [right; repeat split].
    destruct (vs_block_size vs) as [bs|]; cbn; [|right; repeat split].
    apply open_at_spec.
  - apply open_at_spec.
  - right. repeat split.
Qed.

(** A listing on a handler without an open file system is empty and makes
    no collaborator call. *)
Lemma list_directory_not_open (self : DiskImageHandler)
  (path : option pystr) (ino : option Z) :
  fs_info self = None -> list_directory rt self path ino = ([], self).
Proof. intros H. unfold list_directory. rewrite H. reflexivity. Qed.

(** What [entry_of_file] appends passed both filters, and its name is the
    decoded name of the file. *)
Lemma entry_of_file_some (fs : filesystem) (d : directory) (f : file) (e : entry) :
  entry_of_file rt fs d f = Ok (Some e) ->
  name e = decode_utf8 (name_name (file_name f)) /\
  ((bytes_eqb (name_name (file_name f)) [Byte.x2e]
    || bytes_eqb (name_name (file_name f)) [Byte.x2e; Byte.x2e]) = true ->
   dir_addr d = fs_root_inum fs) /\
  bytes_startswith (name_name (file_name f)) [Byte.x24] = false.
Proof.
  unfold entry_of_file.
  destruct ((bytes_eqb _ [Byte.x2e] || bytes_eqb _ [Byte.x2e; Byte.x2e])
            && negb (dir_addr d =? fs_root_inum fs)) eqn:Edots; [discriminate|].
  destruct (bytes_startswith _ [Byte.x24]) eqn:Edollar; [discriminate|].
  destruct (file_meta f) as [m|]; [|discriminate].
  unfold bind.
  destruct (TSK_FS_META_TYPE_ENUM_name (pytsk3 rt) (meta_type m)); [|discriminate].
  destruct (_format_timestamp rt (meta_mtime m)); [|discriminate].
  destruct (_format_timestamp rt (meta_atime m)); [|discriminate].
  destruct (_format_timestamp rt (meta_ctime m)); [|discriminate].
  destruct (_format_timestamp rt (meta_crtime m)); [|discriminate].
  intros H; inversion H; subst e; clear H. cbn.
  split; [reflexivity|]. split; [|reflexivity].
  intros Hd. rewrite Hd in Edots. cbn in Edots.
  apply negb_false_iff in Edots. apply Z.eqb_eq in Edots. exact Edots.
Qed.

Lemma collect_entries_In (fs : filesystem) (d : directory) (files : list file)
  (entries : list entry) (e : entry) :
  collect_entries rt fs d files = Ok entries -> In e entries ->
  exists f, In f files /\ entry_of_file rt fs d f = Ok (Some e).
Proof.
  revert entries; induction files as [|f files IH]; intros entries; cbn.
  - intros H; inversion H; subst. contradiction.
  - unfold bind at 1. destruct (entry_of_file rt fs d f) as [o|] eqn:Ef;
      [|discriminate].
    unfold bind at 1. destruct (collect_entries rt fs d files) as [rest|];
      [|discriminate].
    intros H; inversion H; subst entries; clear H.
    destruct o as [e0|].
    + intros [->|Hin].
      * exists f. auto.
      * destruct (IH rest eq_refl Hin) as (f' & ? & ?). exists f'. auto.
    + intros Hin. destruct (IH rest eq_refl Hin) as (f' & ? & ?).
      exists f'. auto.
Qed.

Lemma list_directory_In (self : DiskImageHandler) (path : option pystr)
  (ino : option Z) (e : entry) :
  In e (fst (list_directory rt self path ino)) ->
  exists fs d f,
    listed self path ino = Some (fs, d) /\
    entry_of_file rt fs d f = Ok (Some e).
Proof.
  unfold list_directory, listed.
  destruct (fs_info self) as [fs|]; [|contradiction].
  destruct ino as [i|]; cbn.
  - destruct (fs_open_dir_inode fs i) as [d|]; [|contradiction].
    destruct (dir_iter d) as [files [ex|]]; [contradiction|].
    destruct (collect_entries rt fs d files) as [entries|] eqn:Ec;
      [|contradiction].
    cbn. intros Hin.
    apply (Permutation_in _ (sort_by_perm key_ltb (sort_key rt) entries)) in Hin.
    destruct (collect_entries_In _ _ _ _ _ Ec Hin) as (f & _ & Hf).
    exists fs, d, f. auto.
  - destruct (fs_open_dir_path fs path) as [d|]; [|contradiction].
    destruct (dir_iter d) as [files [ex|]]; [contradiction|].
    destruct (collect_entries rt fs d files) as [entries|] eqn:Ec;
      [|contradiction].
    cbn. intros Hin.
    apply (Permutation_in _ (sort_by_perm key_ltb (sort_key rt) entries)) in Hin.
    destruct (collect_entries_In _ _ _ _ _ Ec Hin) as (f & _ & Hf).
    exists fs, d, f. auto.
Qed.

Lemma list_directory_sorted (self : DiskImageHandler) (path : option pystr)
  (ino : option Z) :
  StronglySorted (key_le key_ltb (sort_key rt))
    (fst (list_directory rt self path ino)).
Proof.
  unfold list_directory.
  destruct (fs_info self) as [fs|]; [|constructor].
  destruct ino as [i|]; cbn.
  - destruct (fs_open_dir_inode fs i) as [d|]; [|constructor].
    destruct (dir_iter d) as [files [ex|]]; [constructor|].
    destruct (collect_entries rt fs d files) as [entries|]; [|constructor].
    apply sort_by_sorted; [apply key_ltb_asym | apply key_geb_trans].
  - destruct (fs_open_dir_path fs path) as [d|]; [|constructor].
    destruct (dir_iter d) as [files [ex|]]; [constructor|].
    destruct (collect_entries rt fs d files) as [entries|]; [|constructor].
    apply sort_by_sorted; [apply key_ltb_asym | apply key_geb_trans].
Qed.

End Handler.

(** ** Claims about DiskImageHandler *)

Section HandlerClaims.
Import Pytsk3 DiskAnalysis.
Variable rt : runtime.

(** Sanity of the call record: an open by offset does construct an
    [FS_Info], at the byte offset computed from the sector offset. *)
Lemma open_filesystem_by_offset_calls (self : DiskImageHandler) (off : Z) :
  volume_info self = None ->
  calls (snd (open_filesystem rt self None (Some off)))
  = calls self ++ [Call_FS_Info (off * 512)].
Proof.
  intros Hv. unfold open_filesystem, open_at. cbn. rewrite Hv.
  destruct (FS_Info (pytsk3 rt) (img_info self) (off * 512)) as [fs|e]; cbn;
    [destruct (fs_type_name fs); reflexivity | reflexivity].
Qed.

(** C2: a call of [open_filesystem] with both [partition_index] and
    [offset_sectors] given, or with neither, returns [False] and makes no
    collaborator call: the record of calls is as before, so no [FS_Info]
    was constructed. *)
Theorem open_filesystem_both_or_neither (self : DiskImageHandler) :
  (forall i off : Z,
     fst (open_filesystem rt self (Some i) (Some off)) = false /\
     calls (snd (open_filesystem rt self (Some i) (Some off))) = calls self) /\
  (fst (open_filesystem rt self None None) = false /\
   calls (snd (open_filesystem rt self None None)) = calls self).
Proof.
  split; [intros i off|]; split; reflexivity.
Qed.

(** The general shape of [get_volume_info] on an image whose volume-system
    probe raises [IOError]: the synthetic volume when the sector count can
    be computed, and otherwise the exception of that computation, which
    leaves the method. *)
Lemma get_volume_info_no_partition_table (self : DiskImageHandler) (e : exn) :
  Volume_Info (pytsk3 rt) (img_info self) = Raise e ->
  is_IOError e = true ->
  match fst (approx_sector_count (called Call_Volume_Info self)) with
  | Ok n => fst (get_volume_info rt self) = Ok [synthetic_volume n]
  | Raise e' => fst (get_volume_info rt self) = Raise e'
  end.
Proof.
  intros Hv He. unfold get_volume_info. cbn. rewrite Hv, He.
  unfold no_volume_system.
  destruct (approx_sector_count (called Call_Volume_Info self)) as [[n|e'] h];
    reflexivity.
Qed.

(** C4: in every list [list_directory] returns, an entry named [.] or [..]
    occurs only when the listed directory is the root of the file system,
    no name starts with [$], and the entries are sorted: directories
    first, and within the directories and within the rest by lower-cased
    name, non-decreasing. *)
Theorem list_directory_filtered_and_sorted (self : DiskImageHandler)
  (path : option pystr) (ino : option Z) :
  (forall e, In e (fst (list_directory rt self path ino)) ->
     name e = lit "." \/ name e = lit ".." -> lists_root self path ino) /\
  (forall e, In e (fst (list_directory rt self path ino)) ->
     startswith (name e) (lit "$") = false) /\
  directories_first_then_by_name (str_lower rt)
    (fst (list_directory rt self path ino)).
Proof.
  split; [|split].
  - intros e Hin Hname.
    destruct (list_directory_In rt self path ino e Hin) as (fs & d & f & Hl & Hf).
    destruct (entry_of_file_some rt fs d f e Hf) as (Hn & Hroot & _).
    exists fs, d. split; [exact Hl|]. apply Hroot.
    rewrite Hn in Hname. destruct Hname as [H|H].
    + rewrite (decode_utf8_dot _ H). reflexivity.
    + rewrite (decode_utf8_dotdot _ H). apply orb_true_r.
  - intros e Hin.
    destruct (list_directory_In rt self path ino e Hin) as (fs & d & f & _ & Hf).
    destruct (entry_of_file_some rt fs d f e Hf) as (Hn & _ & Hdollar).
    destruct (startswith (name e) (lit "$")) eqn:E; [|reflexivity].
    rewrite Hn in E. apply decode_utf8_dollar in E. congruence.
  - intros i j a b Hij Ha Hb.
    pose proof (StronglySorted_nth_error _ _
                  (list_directory_sorted rt self path ino) i j a b Hij Ha Hb) as H.
    unfold key_le, key_ltb, sort_key in H. cbn [fst snd] in H.
    unfold is_dir, pystr_leb.
    destruct (pystr_eqb (type a) (lit "TSK_FS_META_TYPE_DIR")),
             (pystr_eqb (type b) (lit "TSK_FS_META_TYPE_DIR"));
      cbn in H; split; intros; try congruence; try reflexivity;
      rewrite H; reflexivity.
Qed.

(** With an inode given, [list_directory] does not look at its path
    argument. *)
Lemma list_directory_inode_ignores_path (self : DiskImageHandler)
  (p p' : option pystr) (i : Z) :
  list_directory rt self p (Some i) = list_directory rt self p' (Some i).
Proof. reflexivity. Qed.

(** With an inode given and a file system open, the one collaborator call
    is [open_dir(inode=i)]. *)
Lemma list_directory_opens_by_inode (self : DiskImageHandler)
  (p : option pystr) (i : Z) :
  fs_info self <> None ->
  calls (snd (list_directory rt self p (Some i)))
  = calls self ++ [Call_open_dir_inode i].
Proof.
  intros Hfs. unfold list_directory.
  destruct (fs_info self) as [fs|]; [|congruence]. cbn.
  destruct (fs_open_dir_inode fs i) as [d|]; [|reflexivity].
  destruct (dir_iter d) as [files [ex|]]; [reflexivity|].
  destruct (collect_entries rt fs d files); reflexivity.
Qed.

(** C10: [open_filesystem] returns [True] exactly when it leaves a file
    system in [fs_info]; when it returns [False], [fs_info] and
    [partition_offset] are [None] and every listing on the handler is
    empty and leaves the handler as it is. *)
Theorem open_filesystem_true_iff_fs_info (self : DiskImageHandler)
  (p o : option Z) :
  (fst (open_filesystem rt self p o) = true
   <-> fs_info (snd (open_filesystem rt self p o)) <> None) /\
  (fst (open_filesystem rt self p o) = false ->
   fs_info (snd (open_filesystem rt self p o)) = None /\
   partition_offset (snd (open_filesystem rt self p o)) = None /\
   forall path ino,
     list_directory rt (snd (open_filesystem rt self p o)) path ino
     = ([], snd (open_filesystem rt self p o))).
Proof.
  destruct (open_filesystem_spec rt self p o) as [[Ht Hfs]|(Hf & Hfs & Hpo)].
  - split.
    + split; intros; assumption.
    + rewrite Ht. discriminate.
  - split.
    + rewrite Hf, Hfs. split; intros; congruence.
    + intros _. repeat split; try assumption.
      intros path ino. apply list_directory_not_open. exact Hfs.
Qed.

End HandlerClaims.

(** C10 on a failing open: partition 2 is asked of a handler that has not
    read the volume system. *)
Lemma open_filesystem_true_iff_fs_info_witness :
  fst (DiskAnalysis.open_filesystem (Sample.runtime_of Sample.tsk_parts)
         Sample.fresh (Some 2) None) = false /\
  DiskAnalysis.fs_info
    (snd (DiskAnalysis.open_filesystem (Sample.runtime_of Sample.tsk_parts)
            Sample.fresh (Some 2) None)) = None.
Proof.
  split; [reflexivity|].
  apply (open_filesystem_true_iff_fs_info (Sample.runtime_of Sample.tsk_parts)
           Sample.fresh (Some 2) None).
  reflexivity.
Defined.

(** C4 on the root of the sample file system: [.] is listed, and the
    theorem says the listed directory is the root. *)
Lemma list_directory_filtered_and_sorted_witness :
  lists_root
    (snd (DiskAnalysis.open_filesystem (Sample.runtime_of Sample.tsk_whole)
            Sample.fresh None (Some 0)))
    (Some (lit "/")) None.
Proof.
  refine (proj1 (list_directory_filtered_and_sorted
                   (Sample.runtime_of Sample.tsk_whole) _ _ _)
            (Sample.entry_named (lit ".")) _ _).
  - vm_compute. left. reflexivity.
  - left. reflexivity.
Defined.

(** C3: on an image whose volume-system probe raises [IOError],
    [get_volume_info] returns no list when the sector count of the
    synthetic volume cannot be computed: with a block size that reads as 0
    the [ZeroDivisionError] of the division, and with an image object
    without [get_block_size] the [AttributeError] of the call, is raised in
    the [except IOError] handler and leaves the method. *)
Theorem get_volume_info_sector_count_raises :
  (exists h,
     DiskAnalysis.init (Sample.runtime_of Sample.tsk_block0) (Some (lit "raw.dd"))
     = Ok h /\
     Pytsk3.Volume_Info Sample.tsk_block0 (DiskAnalysis.img_info h)
     = Raise Sample.no_partition_table /\
     is_IOError Sample.no_partition_table = true /\
     fst (DiskAnalysis.get_volume_info (Sample.runtime_of Sample.tsk_block0) h)
     = Raise (Exn ZeroDivisionError (lit "integer division or modulo by zero"))) /\
  (exists h,
     DiskAnalysis.init (Sample.runtime_of Sample.tsk_no_block_size)
       (Some (lit "raw.dd")) = Ok h /\
     Pytsk3.Volume_Info Sample.tsk_no_block_size (DiskAnalysis.img_info h)
     = Raise Sample.no_partition_table /\
     fst (DiskAnalysis.get_volume_info
            (Sample.runtime_of Sample.tsk_no_block_size) h)
     = Raise Sample.no_get_block_size).
Proof.
  split; eexists; (split; [reflexivity|]); repeat split.
Qed.

(** The worker turns that exception into its failure signal: the
    enumeration task on such an image reports an error and no volume. *)
Example run_get_volumes_block_size_0 :
  Worker.emitted
    (after_run (Sample.runtime_of Sample.tsk_block0)
       (Worker.new Sample.get_volumes_kwargs None))
  = [ Worker.progress (lit "Starting disk task: get_volumes...");
      Worker.progress (lit "Reading volume information...");
      Worker.error
        (lit "Disk analysis error: integer division or modulo by zero");
      Worker.finished ].
Proof. vm_compute. reflexivity. Qed.

(** ** DiskAnalysisWorker *)

Section WorkerClaims.
Import DiskAnalysis Worker.
Variable rt : runtime.

Lemma task_is_list_dir (k : kwargs) :
  task_is k "list_dir" = true ->
  task_is k "get_volumes" = false /\ task_is k "open_fs" = false.
Proof.
  unfold task_is. destruct (task k) as [t|]; [|discriminate].
  intros H. apply pystr_eqb_eq in H. subst t. split; reflexivity.
Qed.

(** *** Steps that emit progress messages only *)

Lemma quiet_refl (w : worker) : quiet w w.
Proof.
  split; [|split; auto]. exists []. rewrite app_nil_r. split; constructor.
Qed.

Lemma quiet_trans (a b c : worker) : quiet a b -> quiet b c -> quiet a c.
Proof.
  intros ((o1 & E1 & F1) & R1 & U1) ((o2 & E2 & F2) & R2 & U2).
  split; [|split; auto].
  exists (o1 ++ o2). rewrite E2, E1, app_assoc. split; [reflexivity|].
  apply Forall_app. split; assumption.
Qed.

Lemma quiet_emit_progress (m : pystr) (w : worker) : quiet w (emit (progress m) w).
Proof.
  split; [|split].
  - exists [progress m]. split; [reflexivity|]. repeat constructor.
  - auto.
  - intros [? ?]. split; assumption.
Qed.

Lemma quiet_returned (w : worker) : quiet w (returned w).
Proof.
  unfold returned. destruct w as [k r em [[|n]|]]; cbn.
  - split; [|split].
    + exists [progress (lit "Stopping analysis...")]. split; [reflexivity|].
      repeat constructor.
    + discriminate.
    + intros [_ H]. discriminate H.
  - split; [|split].
    + exists []. cbn. rewrite app_nil_r. split; constructor.
    + auto.
    + intros [_ H]. discriminate H.
  - apply quiet_refl.
Qed.

Lemma quiet_step (m : pystr) (w : worker) :
  quiet w (returned (emit (progress m) w)).
Proof.
  eapply quiet_trans; [apply quiet_emit_progress | apply quiet_returned].
Qed.

(** A block that ends in [if not self._is_running: return] followed by the
    emission of [s]. *)
Lemma guarded_block (s : signal) (fr : frame) :
  self (snd (if negb (_is_running (self fr)) then (Ok tt, fr)
             else (Ok tt, on_self (emit s) fr)))
  = guarded s (self fr) /\
  fst (if negb (_is_running (self fr)) then (@Ok unit tt, fr)
       else (Ok tt, on_self (emit s) fr)) = Ok tt.
Proof.
  unfold guarded. destruct (_is_running (self fr)); split; reflexivity.
Qed.

Lemma block_shape_quiet (w : worker) (r : result unit) (fr : frame) :
  quiet w (self fr) -> block_shape w (r, fr).
Proof. intros Hq. exists (self fr). split; [exact Hq|]. left. reflexivity. Qed.

Lemma block_shape_guarded (w : worker) (s : signal) (fr : frame) :
  quiet w (self fr) -> is_payload s = true -> is_finished s = false ->
  block_shape w (if negb (_is_running (self fr)) then (Ok tt, fr)
                 else (Ok tt, on_self (emit s) fr)).
Proof.
  intros Hq Hp Hf. exists (self fr). split; [exact Hq|]. right.
  destruct (guarded_block s fr) as [E1 E2]. split; [exact E2|].
  exists s. auto.
Qed.

Lemma run_get_volumes_shape (h : DiskImageHandler) (fr : frame) :
  block_shape (self fr) (run_get_volumes rt h fr).
Proof.
  unfold run_get_volumes.
  destruct (get_volume_info rt h) as [[volumes|e] h'].
  - apply block_shape_guarded; [apply quiet_step | reflexivity | reflexivity].
  - apply block_shape_quiet. apply quiet_step.
Qed.

Lemma run_open_fs_shape (h : DiskImageHandler) (fr : frame) :
  block_shape (self fr) (run_open_fs rt h fr).
Proof.
  unfold run_open_fs.
  destruct (open_filesystem rt h _ _) as [success h'].
  match goal with
  | |- context [on_self returned ?f] => set (fr1 := on_self returned f)
  end.
  assert (Hq : quiet (self fr) (self fr1)) by apply quiet_step.
  destruct (success && _) eqn:E.
  - destruct (negb (_is_running (self fr1)));
      apply block_shape_quiet; exact Hq.
  - apply block_shape_guarded; [exact Hq | reflexivity | reflexivity].
Qed.

Lemma run_list_dir_shape (h : DiskImageHandler) (fr : frame) :
  block_shape (self fr) (run_list_dir rt h fr).
Proof.
  unfold run_list_dir.
  destruct (open_filesystem rt h _ _) as [success h'].
  match goal with
  | |- context [on_self returned ?f] => set (fr1 := on_self returned f)
  end.
  assert (Hq : quiet (self fr) (self fr1)) by apply quiet_step.
  destruct success; cbn [negb].
  - destruct (list_directory rt h' _ _) as [entries h''].
    apply block_shape_guarded; [|reflexivity|reflexivity].
    eapply quiet_trans; [exact Hq|]. apply quiet_step.
  - apply block_shape_guarded; [exact Hq | reflexivity | reflexivity].
Qed.

Lemma run_body_shape (fr : frame) : block_shape (self fr) (run_body rt fr).
Proof.
  unfold run_body.
  match goal with
  | |- context [on_self returned ?f] => set (fr0 := on_self returned f)
  end.
  assert (Hq : quiet (self fr) (self fr0)) by apply quiet_step.
  assert (Hlift : forall res, block_shape (self fr0) res ->
                              block_shape (self fr) res).
  { intros res (w1 & Hq1 & H). exists w1. split; [|exact H].
    eapply quiet_trans; eassumption. }
  destruct (init rt _) as [h|e].
  - destruct (task_is _ "get_volumes");
      [apply Hlift; apply (run_get_volumes_shape h (with_handler h fr0))|].
    destruct (task_is _ "open_fs");
      [apply Hlift; apply (run_open_fs_shape h (with_handler h fr0))|].
    destruct (task_is _ "list_dir");
      [apply Hlift; apply (run_list_dir_shape h (with_handler h fr0))|].
    apply block_shape_quiet. exact Hq.
  - apply block_shape_quiet. exact Hq.
Qed.

(** The [except] clause and the [finally] clause of [run] emit their
    signal if the worker is running, and raise nothing. *)
Lemma run_except_spec (e : exn) (fr : frame) :
  fst (run_except e fr) = Ok tt /\
  self (snd (run_except e fr))
  = guarded (error (lit "Disk analysis error: " ++ exn_msg e)) (self fr).
Proof.
  unfold run_except, guarded. destruct (_is_running (self fr)); split; reflexivity.
Qed.

Lemma run_finally_spec (fr : frame) :
  fst (run_finally fr) = Ok tt /\
  self (snd (run_finally fr)) = guarded finished (self fr).
Proof.
  unfold run_finally, guarded.
  destruct (disk_handler fr); cbn [self with_handler];
    destruct (_is_running (self fr)); split; reflexivity.
Qed.

(** [run] as its three blocks. *)
Lemma run_unfold (w : worker) :
  fst (run rt w) = Ok tt /\
  after_run rt w
  = match run_body rt {| self := w; disk_handler := None |} with
    | (Ok _, fr) => guarded finished (self fr)
    | (Raise e, fr) =>
        guarded finished
          (guarded (error (lit "Disk analysis error: " ++ exn_msg e)) (self fr))
    end.
Proof.
  unfold after_run, run, try_except_finally.
  destruct (run_body rt _) as [[[]|e] fr]; cbn [fst snd].
  - destruct (run_finally_spec fr) as [F1 F2].
    destruct (run_finally fr) as [[[]|e'] f2]; cbn [fst snd] in *;
      [split; [reflexivity | exact F2] | discriminate].
  - destruct (run_except_spec e fr) as [E1 E2].
    destruct (run_except e fr) as [r1 f1]; cbn [fst snd] in *. subst r1.
    destruct (run_finally_spec f1) as [F1 F2].
    destruct (run_finally f1) as [[[]|e'] f2]; cbn [fst snd] in *;
      [split; [reflexivity | rewrite F2, E2; reflexivity] | discriminate].
Qed.

(** What [run] makes of a worker: progress messages up to a worker [w1],
    then at most one payload signal and [finished], each emitted if the
    worker is running. *)
Lemma run_shape (w : worker) :
  exists w1, quiet w w1 /\
    (after_run rt w = guarded finished w1 \/
     exists s, is_payload s = true /\ is_finished s = false /\
               after_run rt w = guarded finished (guarded s w1)).
Proof.
  destruct (run_unfold w) as [_ E]. rewrite E.
  destruct (run_body_shape {| self := w; disk_handler := None |})
    as (w1 & Hq & H).
  exists w1. split; [exact Hq|].
  destruct (run_body rt _) as [[[]|e] fr]; cbn [fst snd] in H.
  - destruct H as [<-|(_ & s & Hp & Hf & ->)]; [left; reflexivity|].
    right. exists s. auto.
  - destruct H as [<-|(H & _)]; [|discriminate].
    right. eexists. split; [|split; [|reflexivity]]; reflexivity.
Qed.


(** C1, as the code has it: [run] only adds to the emitted signals; when
    the worker ends stopped, what this run added holds no payload signal
    and no [finished]; when it ends running, [finished] was emitted once,
    as the last signal; and a worker nobody asks to stop ends running. *)
Theorem run_finished_iff_not_stopped (w : worker) :
  exists out,
    emitted (after_run rt w) = emitted w ++ out /\
    (_is_running (after_run rt w) = false ->
     Forall (fun s => is_payload s = false /\ is_finished s = false) out) /\
    (_is_running (after_run rt w) = true ->
     exists pre, out = pre ++ [finished] /\
                 Forall (fun s => is_finished s = false) pre) /\
    (undisturbed w -> _is_running (after_run rt w) = true).
Proof.
  destruct (run_shape w) as (w1 & ((out & Eout & Fout) & Hmono & Hund) & H).
  assert (Hnf : Forall (fun s => is_finished s = false) out).
  { eapply Forall_impl; [|exact Fout]. intros s [_ Hs]. exact Hs. }
  unfold guarded in H.
  destruct (_is_running w1) eqn:Hrun.
  - (* the worker is running when it comes to its signals *)
    destruct H as [E|(s & Hp & Hf & E)].
    + rewrite E. cbn [emit emitted _is_running]. rewrite Hrun, Eout.
      exists (out ++ [finished]). rewrite app_assoc. split; [reflexivity|].
      split; [discriminate|]. split; [|reflexivity].
      intros _. exists out. split; [reflexivity | exact Hnf].
    + cbn [emit _is_running] in E. rewrite Hrun in E.
      rewrite E. cbn [emit emitted _is_running]. rewrite Hrun, Eout.
      exists (out ++ [s; finished]).
      split; [rewrite <- !app_assoc; reflexivity|].
      split; [discriminate|]. split; [|reflexivity].
      intros _. exists (out ++ [s]).
      split; [rewrite <- app_assoc; reflexivity|].
      apply Forall_app. split; [exact Hnf | repeat constructor; exact Hf].
  - (* the worker is stopped: neither signal is emitted *)
    assert (E : after_run rt w = w1).
    { destruct H as [->|(s & _ & _ & ->)]; cbn [_is_running]; rewrite ?Hrun;
        reflexivity. }
    rewrite E, Hrun, Eout.
    exists out. split; [reflexivity|]. split; [intros _; exact Fout|].
    split; [discriminate|].
    intros Hu. destruct (Hund Hu) as [Hr _]. congruence.
Qed.

Lemma kw_returned (w : worker) : kw (returned w) = kw w.
Proof. unfold returned. destruct (pending_stop w) as [[|n]|]; reflexivity. Qed.

(** The [list_dir] branch when the open step fails. *)
Lemma run_list_dir_open_fails (h : DiskImageHandler) (fr : frame) :
  fst (open_filesystem rt h (partition_index (kw (self fr)))
         (offset_sectors (kw (self fr)))) = false ->
  fst (run_list_dir rt h fr) = Ok tt /\
  self (snd (run_list_dir rt h fr))
  = guarded (error (lit "Failed to open filesystem before listing directory."))
      (returned
         (emit (progress
                  (lit "Opening filesystem to list directory: "
                   ++ str_opt_str (match list_path (kw (self fr)) with
                                   | None => Some (lit "/")
                                   | Some p => p
                                   end) ++ lit "..."))
            (self fr))).
Proof.
  intros Hopen. unfold run_list_dir.
  destruct (open_filesystem rt h _ _) as [success h'].
  cbn [fst] in Hopen. subst success. cbn [negb].
  match goal with
  | |- context [on_self (emit (error ?m)) ?f] =>
      destruct (guarded_block (error m) f) as [E1 E2]
  end.
  split; [exact E2 | exact E1].
Qed.

(** What the code does whenever the open step of a [list_dir] task fails:
    the run emits neither [directory_listing_ready] nor
    [filesystem_opened]; a worker that ends running has emitted the failure
    signal [error] with the message of the failed open; and for a worker
    nobody asks to stop the signals are exactly: two progress messages,
    that [error], [finished]. *)
Theorem list_dir_open_failure (w : worker) (h : DiskImageHandler) :
  task_is (kw w) "list_dir" = true ->
  init rt (image_path (kw w)) = Ok h ->
  fst (open_filesystem rt h (partition_index (kw w)) (offset_sectors (kw w)))
  = false ->
  exists out,
    emitted (after_run rt w) = emitted w ++ out /\
    Forall (fun s => is_directory_listing s = false
                     /\ is_filesystem_opened s = false) out /\
    (_is_running (after_run rt w) = true ->
     In (error (lit "Failed to open filesystem before listing directory.")) out) /\
    (undisturbed w ->
     out = [ progress (lit "Starting disk task: " ++ str_opt_str (task (kw w))
                       ++ lit "...");
             progress (lit "Opening filesystem to list directory: "
                       ++ str_opt_str (match list_path (kw w) with
                                       | None => Some (lit "/")
                                       | Some p => p
                                       end) ++ lit "...");
             error (lit "Failed to open filesystem before listing directory.");
             finished ]).
Proof.
  intros Htask Hinit Hopen.
  destruct (task_is_list_dir _ Htask) as [Hgv Hof].
  set (p1 := lit "Starting disk task: " ++ str_opt_str (task (kw w)) ++ lit "...").
  set (p2 := lit "Opening filesystem to list directory: "
             ++ str_opt_str (match list_path (kw w) with
                             | None => Some (lit "/")
                             | Some p => p
                             end) ++ lit "...").
  set (failure := error (lit "Failed to open filesystem before listing directory.")).
  set (w0 := returned (emit (progress p1) w)).
  set (w1 := returned (emit (progress p2) w0)).
  assert (Hk : kw w0 = kw w) by (unfold w0; rewrite kw_returned; reflexivity).
  (* the run, step by step *)
  assert (E : after_run rt w = guarded finished (guarded failure w1)).
  { destruct (run_unfold w) as [_ ->].
    unfold run_body. cbn [self kw on_self with_handler].
    rewrite Hinit, Hgv, Hof, Htask.
    match goal with
    | |- context [run_list_dir rt h ?f] => set (fr0 := f)
    end.
    assert (Hself : self fr0 = w0) by reflexivity.
    destruct (run_list_dir_open_fails h fr0) as [E1 E2].
    { rewrite Hself, Hk. exact Hopen. }
    rewrite Hself, Hk in E2.
    destruct (run_list_dir rt h fr0) as [r fr1]. cbn [fst snd] in E1, E2.
    subst r. rewrite E2. reflexivity. }
  assert (Hq : quiet w w1).
  { eapply quiet_trans; apply quiet_step. }
  destruct Hq as ((out & Eout & Fout) & Hmono & Hund).
  rewrite E. unfold guarded.
  destruct (_is_running w1) eqn:Hrun.
  - cbn [emit _is_running]. rewrite Hrun. cbn [emit emitted _is_running].
    rewrite Eout, <- !app_assoc.
    eexists. split; [reflexivity|]. split; [|split].
    + apply Forall_app. split.
      * eapply Forall_impl; [|exact Fout].
        intros s [Hp _]. destruct s; try discriminate; split; reflexivity.
      * repeat constructor.
    + intros _. apply in_or_app. right. left. reflexivity.
    + intros Hu. destruct w as [k r em ps]. destruct Hu as [Hr Hps].
      cbn [_is_running pending_stop] in Hr, Hps. subst r ps.
      unfold w1, w0, returned in Eout.
      cbn [emit emitted _is_running pending_stop kw] in Eout.
      rewrite <- app_assoc in Eout.
      apply app_inv_head in Eout. subst out. reflexivity.
  - cbn [_is_running]. rewrite Hrun, Eout.
    exists out. split; [reflexivity|]. split; [|split].
    + eapply Forall_impl; [|exact Fout].
      intros s [Hp _]. destruct s; try discriminate; split; reflexivity.
    + intros Hr. congruence.
    + intros Hu. destruct (Hund Hu) as [Hr _]. congruence.
Qed.

End WorkerClaims.


(** C1 on a worker nobody asks to stop. *)
Lemma run_finished_iff_not_stopped_witness :
  Worker._is_running
    (after_run (Sample.runtime_of Sample.tsk_whole)
       (Worker.new Sample.list_root_kwargs None)) = true.
Proof.
  destruct (run_finished_iff_not_stopped (Sample.runtime_of Sample.tsk_whole)
              (Worker.new Sample.list_root_kwargs None))
    as (out & _ & _ & _ & H).
  apply H. split; reflexivity.
Defined.

(** C1 fails as stated: [stop] is called while the listing call of a
    [list_dir] task is in flight; the worker ends stopped and has emitted
    no payload, and it has not emitted [finished] either. *)
Lemma stopped_run_emits_no_finished :
  Worker._is_running
    (after_run (Sample.runtime_of Sample.tsk_whole)
       (Worker.new Sample.list_root_kwargs (Some 2%nat))) = false /\
  existsb Worker.is_payload
    (Worker.emitted
       (after_run (Sample.runtime_of Sample.tsk_whole)
          (Worker.new Sample.list_root_kwargs (Some 2%nat)))) = false /\
  count_finished
    (Worker.emitted
       (after_run (Sample.runtime_of Sample.tsk_whole)
          (Worker.new Sample.list_root_kwargs (Some 2%nat)))) <> 1%nat.
Proof. split; [|split]; vm_compute; [reflexivity | reflexivity | discriminate]. Qed.

(** The same on a listing task that names partition 2: the open step
    fails. *)
Lemma list_dir_open_failure_witness :
  exists out,
    Worker.emitted
      (after_run (Sample.runtime_of Sample.tsk_parts)
         (Worker.new Sample.list_partition_kwargs None)) = [] ++ out /\
    In (Worker.error (lit "Failed to open filesystem before listing directory."))
       out.
Proof.
  destruct (list_dir_open_failure (Sample.runtime_of Sample.tsk_parts)
              (Worker.new Sample.list_partition_kwargs None) Sample.fresh
              eq_refl eq_refl eq_refl)
    as (out & Hout & _ & Hin & _).
  exists out. split; [exact Hout|]. apply Hin.
  vm_compute. reflexivity.
Defined.

(** C6: the code at a listing task that names partition 2, as the tab
    requests it after a double click on that partition. The handler opens
    the image, the open step fails, and the run emits no
    [filesystem_opened] signal: the failure goes out as [error] only,
    although the tab connects [filesystem_opened] for this task and the
    [open_fs] branch emits it after the same call. *)
Lemma list_dir_failure_emits_no_filesystem_opened :
  DiskAnalysis.init (Sample.runtime_of Sample.tsk_parts) (Some (lit "disk.dd"))
  = Ok Sample.fresh /\
  fst (DiskAnalysis.open_filesystem (Sample.runtime_of Sample.tsk_parts)
         Sample.fresh (Some 2) None) = false /\
  existsb Worker.is_filesystem_opened
    (Worker.emitted
       (after_run (Sample.runtime_of Sample.tsk_parts)
          (Worker.new Sample.list_partition_kwargs None))) = false /\
  Worker.emitted
    (after_run (Sample.runtime_of Sample.tsk_parts)
       (Worker.new Sample.list_partition_kwargs None))
  = [ Worker.progress (lit "Starting disk task: list_dir...");
      Worker.progress (lit "Opening filesystem to list directory: /...");
      Worker.error (lit "Failed to open filesystem before listing directory.");
      Worker.finished ].
Proof. repeat split. Qed.

(** ** DiskTab *)

Section TabClaims.
Import DiskAnalysis DiskTab.

Ltac tab_eval :=
  lazy beta iota zeta delta
    [handle _browse_image stop_analysis _on_disk_analysis_finished
     _start_disk_analysis _volume_selected _file_double_clicked
     _on_filesystem_opened _display_volumes _display_directory_listing
     _show_error do_effect set_thread set_image set_selection
     set_volume_table set_file_listing_table set_label thread_running
     with_image_path request
     _disk_worker _disk_thread _image_path _selected_partition_index
     _selected_offset _current_fs_open image_path_edit browse_button_enabled
     volume_table file_listing_table fs_status_label effects negb
     Worker.task Worker.image_path Worker.partition_index
     Worker.offset_sectors Worker.list_path Worker.inode].

(** Case analysis on an innermost scrutinee of the goal. *)
Ltac break_inner x :=
  lazymatch x with
  | context [match ?y with _ => _ end] => break_inner y
  | _ => first [ is_var x; destruct x | destruct x eqn:? ]
  end.

Ltac tab_break :=
  match goal with
  | |- context [match ?x with _ => _ end] => break_inner x
  end;
  tab_eval.

(** A started request found among the effects: it is the last effect or
    it was there before. *)
Ltac started_cases H :=
  repeat (apply in_app_or in H; destruct H as [H|H]);
  cbn [In] in H;
  repeat match type of H with
         | _ \/ _ => destruct H as [H|H]
         | False => contradiction
         | _ = thread_started _ => first [discriminate H | inversion H; subst; clear H]
         end.

Lemma handle_preserves (ev : event) (s : state) :
  tab_invariant s -> tab_invariant (handle ev s).
Proof.
  unfold tab_invariant. intros (Himg & Hsel & Hreq).
  destruct s as [wk th img psel osel fso edit en vt ft lbl effs].
  unfold thread_running in Himg. cbn in Himg, Hsel, Hreq.
  destruct ev; tab_eval; repeat tab_break;
    (split; [|split]);
    try (intros; first [assumption | discriminate | congruence | auto; fail]);
    try (intros Hb; specialize (Himg Hb); congruence);
    try (intros k' Hin; started_cases Hin;
         first [ apply Hreq; assumption
               | left; repeat split; reflexivity
               | right; split; reflexivity ]).
Qed.

Lemma reachable_invariant (s : state) : reachable s -> tab_invariant s.
Proof.
  induction 1 as [|ev s Hs IH].
  - unfold tab_invariant. cbn.
    split; [discriminate|]. split; [congruence|]. intros k [].
  - apply handle_preserves. exact IH.
Qed.

Lemma reachable_play (evs : list event) (s : state) :
  reachable s -> reachable (play evs s).
Proof.
  revert s; induction evs as [|ev evs IH]; intros s Hs; [exact Hs|].
  apply IH. constructor. exact Hs.
Qed.

(** C5: while the thread of a task is running, a request to start a task
    gets the "Busy" warning and nothing else happens: no worker is created,
    no thread is started, and the thread and the worker of the task in
    flight are the tab's as before. *)
Theorem busy_request_rejected (s : state) (k : Worker.kwargs) :
  reachable s -> thread_running s = true ->
  _start_disk_analysis k s
  = do_effect (warning_box (lit "Busy")
                 (lit "Disk analysis is already in progress.")) s /\
  effects (_start_disk_analysis k s)
  = effects s ++ [warning_box (lit "Busy")
                    (lit "Disk analysis is already in progress.")] /\
  _disk_thread (_start_disk_analysis k s) = _disk_thread s /\
  _disk_worker (_start_disk_analysis k s) = _disk_worker s.
Proof.
  intros Hr Hrun.
  destruct (reachable_invariant s Hr) as (Himg & _ & _).
  specialize (Himg Hrun).
  unfold _start_disk_analysis. rewrite Himg, Hrun. cbn [negb].
  repeat split.
Qed.


(** C9: a double click on a directory row, accepted by the tab (the file
    system is marked open, an image is chosen, no task is in flight, a
    volume is selected), leaves the selected partition and offset as they
    are and starts one [list_dir] task that carries the selected partition
    index, or the selected offset when no partition index is selected, the
    inode of the row, and [None] as its path; and with that inode
    [list_directory] lists the same whatever the path, opening the
    directory by [open_dir(inode=...)]. *)
Theorem directory_navigation_request (rt : runtime) (s : state) (row : nat)
  (e : entry) :
  _current_fs_open s = true ->
  nth_error (file_listing_table s) row = Some e ->
  is_dir e = true ->
  truthy (_image_path s) = true ->
  thread_running s = false ->
  (_selected_partition_index s <> None \/ _selected_offset s <> None) ->
  _selected_partition_index (_file_double_clicked (Some row) s)
  = _selected_partition_index s /\
  _selected_offset (_file_double_clicked (Some row) s) = _selected_offset s /\
  exists k,
    effects (_file_double_clicked (Some row) s) = effects s ++ [thread_started k] /\
    Worker.task k = Some (lit "list_dir") /\
    Worker.inode k = Some (inode e) /\
    Worker.list_path k = Some None /\
    Worker.partition_index k = _selected_partition_index s /\
    Worker.offset_sectors k
    = match _selected_partition_index s with
      | Some _ => None
      | None => _selected_offset s
      end /\
    forall (h : DiskImageHandler) (p : option pystr),
      list_directory rt h p (Worker.inode k)
      = list_directory rt h None (Some (inode e)) /\
      (fs_info h <> None ->
       calls (snd (list_directory rt h p (Worker.inode k)))
       = calls h ++ [Pytsk3.Call_open_dir_inode (inode e)]).
Proof.
  intros Hopen Hrow Hdir Himg Hrun Hsel.
  destruct s as [wk th img psel osel fso edit en vt ft lbl effs].
  unfold is_dir in Hdir. unfold thread_running in Hrun.
  cbn [_current_fs_open file_listing_table _image_path _disk_thread
       _selected_partition_index _selected_offset effects] in *.
  subst fso.
  unfold _file_double_clicked.
  cbn [_current_fs_open file_listing_table negb]. rewrite Hrow, Hdir.
  tab_eval. rewrite Himg.
  destruct psel as [p|]; [|destruct osel as [o|]; [|destruct Hsel; congruence]];
    tab_eval; destruct th as [[|]|]; try discriminate; tab_eval;
    (split; [reflexivity|]); (split; [reflexivity|]);
    eexists; (split; [reflexivity|]); cbn; do 5 (split; [reflexivity|]);
    intros ? ?; (split; [reflexivity|]);
    apply list_directory_opens_by_inode.
Qed.

End TabClaims.

(** C5 on the tab right after an image was chosen: the enumeration task is
    in flight. *)
Lemma busy_request_rejected_witness :
  DiskTab.effects
    (DiskTab._start_disk_analysis Sample.list_root_kwargs
       (DiskTab.play [DiskTab.browse (lit "disk.dd") true] DiskTab.initial))
  = DiskTab.effects
      (DiskTab.play [DiskTab.browse (lit "disk.dd") true] DiskTab.initial)
    ++ [DiskTab.warning_box (lit "Busy")
          (lit "Disk analysis is already in progress.")].
Proof.
  apply (busy_request_rejected
           (DiskTab.play [DiskTab.browse (lit "disk.dd") true] DiskTab.initial)
           Sample.list_root_kwargs).
  - apply reachable_play. constructor.
  - reflexivity.
Defined.



(** C9 on a double click on the row of [etc], inode 42. *)
Lemma directory_navigation_request_witness :
  DiskTab._selected_partition_index
    (DiskTab._file_double_clicked (Some 0%nat) Sample.browsing)
  = DiskTab._selected_partition_index Sample.browsing.
Proof.
  apply (directory_navigation_request (Sample.runtime_of Sample.tsk_parts)
           Sample.browsing 0%nat Sample.etc_entry);
    try reflexivity.
  left. discriminate.
Defined.


(** ** More on DiskImageHandler *)

Section HandlerMore.
Import Pytsk3 DiskAnalysis Listing.
Variable rt : runtime.

Lemma entry_of_file_dropped (fs : filesystem) (d : directory) (f : file) :
  kept fs d f = false -> entry_of_file rt fs d f = Ok None.
Proof.
  unfold kept, entry_of_file. intros H.
  destruct ((bytes_eqb _ [Byte.x2e] || bytes_eqb _ [Byte.x2e; Byte.x2e])
            && negb (dir_addr d =? fs_root_inum fs)); [reflexivity|].
  cbn in H. apply negb_false_iff in H. rewrite H. reflexivity.
Qed.

Lemma entry_of_file_kept (fs : filesystem) (d : directory) (f : file) :
  kept fs d f = true ->
  if describable rt f
  then exists e, entry_of_file rt fs d f = Ok (Some e)
                 /\ inode e = raw_inode f /\ name e = raw_name f
  else exists ex, entry_of_file rt fs d f = Raise ex.
Proof.
  unfold kept, entry_of_file, describable, formats, raw_inode, raw_name.
  intros H. apply andb_true_iff in H. destruct H as [H1 H2].
  apply negb_true_iff in H1, H2. rewrite H1, H2.
  destruct (file_meta f) as [m|]; [|eexists; reflexivity].
  unfold bind.
  destruct (TSK_FS_META_TYPE_ENUM_name (pytsk3 rt) (meta_type m)); [|eexists; reflexivity].
  destruct (_format_timestamp rt (meta_mtime m)); [|eexists; reflexivity].
  destruct (_format_timestamp rt (meta_atime m)); [|eexists; reflexivity].
  destruct (_format_timestamp rt (meta_ctime m)); [|eexists; reflexivity].
  destruct (_format_timestamp rt (meta_crtime m)); [|eexists; reflexivity].
  cbn. eexists. split; [reflexivity|]. split; reflexivity.
Qed.

Lemma collect_entries_all (fs : filesystem) (d : directory) (files : list file) :
  Forall (fun f => kept fs d f = true -> describable rt f = true) files ->
  exists entries,
    collect_entries rt fs d files = Ok entries /\
    map (fun e => (inode e, name e)) entries
    = map (fun f => (raw_inode f, raw_name f)) (filter (kept fs d) files).
Proof.
  induction 1 as [|f files Hf _ IH]; cbn.
  - exists []. split; reflexivity.
  - destruct IH as (rest & Hrest & Hmap). rewrite Hrest.
    destruct (kept fs d f) eqn:K.
    + pose proof (entry_of_file_kept fs d f K) as E. rewrite (Hf eq_refl) in E.
      destruct E as (e & -> & Hi & Hn). cbn.
      eexists. split; [reflexivity|]. cbn. rewrite Hi, Hn, Hmap. reflexivity.
    + rewrite (entry_of_file_dropped fs d f K). cbn.
      exists rest. split; [reflexivity | exact Hmap].
Qed.

Lemma collect_entries_raises (fs : filesystem) (d : directory) (files : list file) :
  Exists (fun f => kept fs d f = true /\ describable rt f = false) files ->
  exists ex, collect_entries rt fs d files = Raise ex.
Proof.
  induction 1 as [f files [K D] | f files _ IH]; cbn.
  - pose proof (entry_of_file_kept fs d f K) as E. rewrite D in E.
    destruct E as (ex & ->). exists ex. reflexivity.
  - destruct (entry_of_file rt fs d f) as [o|ex]; cbn.
    + destruct IH as (ex & ->). exists ex. reflexivity.
    + exists ex. reflexivity.
Qed.

(** What [list_directory] does once the directory is open. *)
Lemma list_directory_listed (self : DiskImageHandler) (path : option pystr)
  (ino : option Z) (fs : filesystem) (d : directory) :
  listed self path ino = Some (fs, d) ->
  fst (list_directory rt self path ino)
  = match dir_iter d with
    | (_, Some _) => []
    | (files, None) =>
        match collect_entries rt fs d files with
        | Raise _ => []
        | Ok entries => sort_by key_ltb (sort_key rt) entries
        end
    end.
Proof.
  unfold listed, list_directory.
  destruct (fs_info self) as [fs0|]; [|discriminate].
  destruct ino as [i|]; cbn.
  - destruct (fs_open_dir_inode fs0 i) as [d0|]; [|discriminate].
    intros H; inversion H; subst.
    destruct (dir_iter d) as [files [ex|]]; [reflexivity|].
    destruct (collect_entries rt fs d files); reflexivity.
  - destruct (fs_open_dir_path fs0 path) as [d0|]; [|discriminate].
    intros H; inversion H; subst.
    destruct (dir_iter d) as [files [ex|]]; [reflexivity|].
    destruct (collect_entries rt fs d files); reflexivity.
Qed.

(** X1: when every file that passes the filters can be described (it has
    metadata, the library returns a name for its type, its timestamps
    format), the listing holds each of them once and nothing else. On a
    library whose lookup of the type name raises, no file with metadata
    can be described. *)
Theorem list_directory_complete (self : DiskImageHandler)
  (path : option pystr) (ino : option Z) (fs : filesystem) (d : directory)
  (files : list file) :
  listed self path ino = Some (fs, d) ->
  dir_iter d = (files, None) ->
  Forall (fun f => kept fs d f = true -> describable rt f = true) files ->
  Permutation
    (map (fun e => (inode e, name e)) (fst (list_directory rt self path ino)))
    (map (fun f => (raw_inode f, raw_name f)) (filter (kept fs d) files)).
Proof.
  intros Hl Hit Hall. rewrite (list_directory_listed _ _ _ _ _ Hl), Hit.
  destruct (collect_entries_all fs d files Hall) as (entries & -> & <-).
  apply Permutation_map. apply sort_by_perm.
Qed.

(** X2: one file that passes the filters and cannot be described, or an
    iteration that ends with an exception, empties the whole listing. *)
Theorem list_directory_all_or_nothing (self : DiskImageHandler)
  (path : option pystr) (ino : option Z) (fs : filesystem) (d : directory) :
  listed self path ino = Some (fs, d) ->
  snd (dir_iter d) <> None
  \/ Exists (fun f => kept fs d f = true /\ describable rt f = false)
       (fst (dir_iter d)) ->
  fst (list_directory rt self path ino) = [].
Proof.
  intros Hl H. rewrite (list_directory_listed _ _ _ _ _ Hl).
  destruct (dir_iter d) as [files [ex|]]; [reflexivity|].
  cbn [fst snd] in H. destruct H as [H|H]; [congruence|].
  destruct (collect_entries_raises fs d files H) as (ex & ->). reflexivity.
Qed.

Lemma land_2_testbit (x : Z) :
  negb (Z.eqb (Z.land x 2) 0) = Z.testbit x 1.
Proof.
  destruct (Z.testbit x 1) eqn:B.
  - apply negb_true_iff. apply Z.eqb_neq. intros H.
    assert (T : Z.testbit (Z.land x 2) 1 = true).
    { rewrite Z.land_spec, B. reflexivity. }
    rewrite H in T. discriminate T.
  - apply negb_false_iff. apply Z.eqb_eq. apply Z.bits_inj'.
    intros n Hn. rewrite Z.land_spec, Z.bits_0.
    destruct (Z.eq_dec n 1) as [->|Hne].
    + rewrite B. reflexivity.
    + replace (Z.testbit 2 n) with false; [apply andb_false_r|].
      symmetry. change 2 with (2 ^ 1).
      apply Z.pow2_bits_false. congruence.
Qed.

(** What an appended entry says of its file. *)
Lemma entry_of_file_fields (fs : filesystem) (d : directory) (f : file)
  (e : entry) :
  entry_of_file rt fs d f = Ok (Some e) ->
  exists m t,
    file_meta f = Some m /\
    TSK_FS_META_TYPE_ENUM_name (pytsk3 rt) (meta_type m) = Ok t /\
    inode e = meta_addr m /\ size e = meta_size m /\
    type e = t /\
    name e = raw_name f /\
    is_deleted e = Z.testbit (name_flags (file_name f)) 1 /\
    mode e = (if Z.eqb (meta_mode m) 0 then lit "N/A" else oct (meta_mode m)).
Proof.
  unfold entry_of_file.
  destruct (_ && negb (dir_addr d =? fs_root_inum fs)); [discriminate|].
  destruct (bytes_startswith _ [Byte.x24]); [discriminate|].
  destruct (file_meta f) as [m|]; [|discriminate].
  unfold bind.
  destruct (TSK_FS_META_TYPE_ENUM_name (pytsk3 rt) (meta_type m)) as [t|] eqn:Et; [|discriminate].
  destruct (_format_timestamp rt (meta_mtime m)); [|discriminate].
  destruct (_format_timestamp rt (meta_atime m)); [|discriminate].
  destruct (_format_timestamp rt (meta_ctime m)); [|discriminate].
  destruct (_format_timestamp rt (meta_crtime m)); [|discriminate].
  intros H; inversion H; subst e; clear H. cbn.
  exists m, t. repeat split; try reflexivity; try exact Et.
  unfold TSK_FS_NAME_FLAG_UNALLOC. apply land_2_testbit.
Qed.

(** X3: every entry of a listing describes a file the directory yielded: its
    inode, size, type and name are the file's, it is marked deleted exactly
    when the name's unallocated flag (bit 1) is set, whatever its type, and
    its mode is [N/A] for mode 0 and the octal text otherwise. *)
Theorem list_directory_entries_describe_files (self : DiskImageHandler)
  (path : option pystr) (ino : option Z) (e : entry) :
  In e (fst (list_directory rt self path ino)) ->
  exists fs d f m t,
    listed self path ino = Some (fs, d) /\
    In f (fst (dir_iter d)) /\
    file_meta f = Some m /\
    TSK_FS_META_TYPE_ENUM_name (pytsk3 rt) (meta_type m) = Ok t /\
    inode e = meta_addr m /\ size e = meta_size m /\
    type e = t /\
    name e = raw_name f /\
    is_deleted e = Z.testbit (name_flags (file_name f)) 1 /\
    mode e = (if Z.eqb (meta_mode m) 0 then lit "N/A" else oct (meta_mode m)).
Proof.
  intros Hin.
  destruct (list_directory_In rt self path ino e Hin) as (fs & d & f0 & Hl & _).
  rewrite (list_directory_listed _ _ _ _ _ Hl) in Hin.
  destruct (dir_iter d) as [files [ex|]] eqn:Hit; [contradiction|].
  destruct (collect_entries rt fs d files) as [entries|] eqn:Ec; [|contradiction].
  apply (Permutation_in _ (sort_by_perm key_ltb (sort_key rt) entries)) in Hin.
  destruct (collect_entries_In rt _ _ _ _ _ Ec Hin) as (f & Hf & He).
  destruct (entry_of_file_fields fs d f e He) as (m & t & H).
  exists fs, d, f, m, t. split; [exact Hl|]. split; [rewrite Hit; exact Hf|]. exact H.
Qed.

End HandlerMore.


Section HandlerMore2.
Import Pytsk3 DiskAnalysis Listing.
Variable rt : runtime.

Lemma open_at_success (off : Z) (self : DiskImageHandler) :
  fst (open_at rt off self) = true ->
  exists fs,
    fs_info (snd (open_at rt off self)) = Some fs /\
    partition_offset (snd (open_at rt off self)) = Some off /\
    FS_Info (pytsk3 rt) (img_info self) off = Ok fs /\
    calls (snd (open_at rt off self)) = calls self ++ [Call_FS_Info off].
Proof.
  unfold open_at. cbn.
  destruct (FS_Info (pytsk3 rt) (img_info self) off) as [fs|e]; cbn;
    [|discriminate].
  destruct (fs_type_name fs); cbn; [|discriminate].
  intros _. exists fs. repeat split.
Qed.

(** X4: a successful open leaves the file system that [FS_Info] returned at
    the stored byte offset, its construction is the last collaborator
    call, and the offset is the sector offset times the sector size, or the
    start of the partition times the block size of the volume system. *)
Theorem open_filesystem_success (self : DiskImageHandler) (p o : option Z) :
  fst (open_filesystem rt self p o) = true ->
  exists fs off,
    fs_info (snd (open_filesystem rt self p o)) = Some fs /\
    partition_offset (snd (open_filesystem rt self p o)) = Some off /\
    FS_Info (pytsk3 rt) (img_info self) off = Ok fs /\
    (exists before,
       calls (snd (open_filesystem rt self p o)) = before ++ [Call_FS_Info off]) /\
    match p, o with
    | None, Some s => off = s * sector_size self
    | Some i, None =>
        exists vs pt bs,
          volume_info self = Some vs /\
          vs_get_part_by_addr vs i = Ok (Some pt) /\
          vs_block_size vs = Some bs /\
          off = part_start pt * bs
    | _, _ => False
    end.
Proof.
  unfold open_filesystem. destruct p as [i|], o as [s|]; cbn;
    try discriminate.
  - destruct (volume_info self) as [vs|] eqn:Hv; cbn; [|discriminate].
    destruct (vs_get_part_by_addr vs i) as [[pt|]|e] eqn:Hp; cbn;
      try discriminate.
    destruct (vs_block_size vs) as [bs|] eqn:Hb; cbn; [|discriminate].
    intros H. destruct (open_at_success _ _ H) as (fs & H1 & H2 & H3 & H4).
    exists fs, (part_start pt * bs). repeat split; try assumption.
    + eexists. exact H4.
    + exists vs, pt, bs. auto.
  - intros H. destruct (open_at_success _ _ H) as (fs & H1 & H2 & H3 & H4).
    exists fs. eexists. split; [exact H1|]. split; [exact H2|].
    split; [exact H3|]. split; [eexists; exact H4|].
    unfold sector_size. reflexivity.
Qed.

(** Without an enumerated volume system an open by partition index fails
    before any collaborator call. *)
Lemma open_by_partition_without_volumes (self : DiskImageHandler) (i : Z) :
  volume_info self = None ->
  fst (open_filesystem rt self (Some i) None) = false /\
  calls (snd (open_filesystem rt self (Some i) None)) = calls self.
Proof.
  intros H. unfold open_filesystem. cbn. rewrite H. split; reflexivity.
Qed.

(** [get_volume_info] keeps the volume system it read, whatever the
    iteration does afterwards. *)
Lemma get_volume_info_keeps_volume_system (self : DiskImageHandler)
  (vs : volume_system) :
  Volume_Info (pytsk3 rt) (img_info self) = Ok vs ->
  volume_info (snd (get_volume_info rt self)) = Some vs /\
  img_info (snd (get_volume_info rt self)) = img_info self.
Proof.
  intros H. destruct self as [ip im vi fi po cs].
  unfold get_volume_info. cbn [img_info called] in *. rewrite H.
  destruct (vs_iter vs) as [parts [e|]]; [|split; reflexivity].
  destruct (is_IOError e); [|split; reflexivity].
  unfold no_volume_system, approx_sector_count, set_volume_info, called.
  cbn [img_info volume_info image_path fs_info partition_offset calls].
  destruct im as [img|]; [|split; reflexivity].
  destruct (img_get_size img); [|split; reflexivity].
  destruct (img_get_block_size img) as [bs|]; [|split; reflexivity].
  destruct (Z.eqb bs 0); split; reflexivity.
Qed.

(** X5: enumeration, then an open by partition index: the file system is
    constructed at the start of that partition times the block size of the
    volume system, and the open succeeds exactly when that construction
    returns a file system whose type has a name. *)
Theorem enumerate_then_open_partition (self : DiskImageHandler)
  (vs : volume_system) (i : Z) (pt : part) (bs : Z) :
  Volume_Info (pytsk3 rt) (img_info self) = Ok vs ->
  vs_get_part_by_addr vs i = Ok (Some pt) ->
  vs_block_size vs = Some bs ->
  fst (open_filesystem rt (snd (get_volume_info rt self)) (Some i) None)
  = match FS_Info (pytsk3 rt) (img_info self) (part_start pt * bs) with
    | Ok fs =>
        match fs_type_name fs with
        | Ok _ => true
        | Raise _ => false
        end
    | Raise _ => false
    end.
Proof.
  intros Hv Hp Hb.
  destruct (get_volume_info_keeps_volume_system self vs Hv) as [H1 H2].
  destruct (snd (get_volume_info rt self)) as [ip im vi fi po cs].
  cbn in H1, H2. subst vi im.
  unfold open_filesystem. cbn. rewrite Hp, Hb. unfold open_at. cbn.
  destruct (FS_Info (pytsk3 rt) (img_info self) (part_start pt * bs)) as [fs|];
    [|reflexivity].
  cbn. destruct (fs_type_name fs); reflexivity.
Qed.

(** X6: an exception of the probe or of the iteration that is not an
    [IOError] gives the empty list. *)
Theorem get_volume_info_swallows_other_errors (self : DiskImageHandler)
  (e : exn) :
  is_IOError e = false ->
  Volume_Info (pytsk3 rt) (img_info self) = Raise e
  \/ (exists vs, Volume_Info (pytsk3 rt) (img_info self) = Ok vs
                 /\ snd (vs_iter vs) = Some e) ->
  fst (get_volume_info rt self) = Ok [].
Proof.
  intros He [H|(vs & H & Hit)]; unfold get_volume_info; cbn; rewrite H.
  - rewrite He. reflexivity.
  - destruct (vs_iter vs) as [parts o]. cbn in Hit. subst o.
    rewrite He. reflexivity.
Qed.

(** X7: an [IOError] in the middle of the iteration: the partitions read so
    far, followed by the synthetic whole-image volume. *)
Theorem get_volume_info_partial_then_synthetic (self : DiskImageHandler)
  (vs : volume_system) (parts : list part) (e : exn) (img : image)
  (sz bs : Z) :
  Volume_Info (pytsk3 rt) (img_info self) = Ok vs ->
  vs_iter vs = (parts, Some e) ->
  is_IOError e = true ->
  img_info self = Some img ->
  img_get_size img = Ok sz ->
  img_get_block_size img = Ok bs ->
  bs <> 0 ->
  fst (get_volume_info rt self)
  = Ok (map volume_of_part parts ++ [synthetic_volume (sz / bs)]).
Proof.
  intros Hv Hit He Himg Hsz Hbs Hnz.
  unfold get_volume_info. cbn. rewrite Hv, Hit, He.
  unfold no_volume_system, approx_sector_count. cbn.
  rewrite Himg. cbn. rewrite Hsz. cbn. rewrite Hbs. cbn.
  apply Z.eqb_neq in Hnz. rewrite Hnz. reflexivity.
Qed.

(** X8: the only exception that leaves [get_volume_info] is one of the sector
    count of the synthetic volume, after an [IOError] of the probe or of
    the iteration. *)
Theorem get_volume_info_raises_only_from_sector_count
  (self : DiskImageHandler) (e : exn) :
  fst (get_volume_info rt self) = Raise e ->
  (exists h, fst (approx_sector_count h) = Raise e /\ img_info h = img_info self)
  /\ exists cause,
       is_IOError cause = true /\
       (Volume_Info (pytsk3 rt) (img_info self) = Raise cause
        \/ exists vs, Volume_Info (pytsk3 rt) (img_info self) = Ok vs
                      /\ snd (vs_iter vs) = Some cause).
Proof.
  unfold get_volume_info. cbn.
  destruct (Volume_Info (pytsk3 rt) (img_info self)) as [vs|c] eqn:Hv.
  - destruct (vs_iter vs) as [parts [c|]] eqn:Hit; [|discriminate].
    destruct (is_IOError c) eqn:Hc; [|discriminate].
    unfold no_volume_system.
    match goal with
    | |- context [approx_sector_count ?h] =>
        destruct (approx_sector_count h) as [[n|e'] h'] eqn:Ha
    end; [discriminate|].
    cbn. intros H; inversion H; subst e'. split.
    + eexists. rewrite Ha. split; reflexivity.
    + exists c. split; [exact Hc|]. right. exists vs. rewrite Hit. auto.
  - destruct (is_IOError c) eqn:Hc; [|discriminate].
    unfold no_volume_system.
    match goal with
    | |- context [approx_sector_count ?h] =>
        destruct (approx_sector_count h) as [[n|e'] h'] eqn:Ha
    end; [discriminate|].
    cbn. intros H; inversion H; subst e'. split.
    + eexists. rewrite Ha. split; reflexivity.
    + exists c. split; [exact Hc|]. left. reflexivity.
Qed.

(** X9: [close] drops the image, the volume system and the file system, keeps
    the stored byte offset, and is idempotent; on a closed handler a
    listing is empty and makes no collaborator call, and an open by
    partition index fails. *)
Theorem close_releases (self : DiskImageHandler) :
  img_info self <> None ->
  img_info (close self) = None /\
  volume_info (close self) = None /\
  fs_info (close self) = None /\
  partition_offset (close self) = partition_offset self /\
  close (close self) = close self /\
  (forall path ino, list_directory rt (close self) path ino = ([], close self)) /\
  (forall i, fst (open_filesystem rt (close self) (Some i) None) = false).
Proof.
  intros H. unfold close. destruct (img_info self) as [img|] eqn:Hi; [|congruence].
  cbn. repeat split.
Qed.

End HandlerMore2.


(** ** More on DiskAnalysisWorker *)

Section WorkerMore.
Import DiskAnalysis Worker Outcome.
Variable rt : runtime.

Lemma quiet_step_kw (m : pystr) (w : worker) :
  quiet w (returned (emit (progress m) w))
  /\ kw (returned (emit (progress m) w)) = kw w.
Proof. split; [apply quiet_step | rewrite kw_returned; reflexivity]. Qed.

Lemma guarded_stopped (s : signal) (w : worker) :
  _is_running w = false -> guarded s w = w.
Proof. intros H. unfold guarded. rewrite H. reflexivity. Qed.

Lemma ends_with_guarded (t : signal) (w : worker) (fr : frame) :
  quiet w (self fr) -> kw (self fr) = kw w ->
  ends_with t w (if negb (_is_running (self fr)) then (Ok tt, fr)
                 else (Ok tt, on_self (emit t) fr)).
Proof.
  intros Hq Hk. exists (self fr). split; [exact Hq|]. split; [exact Hk|].
  unfold guarded. destruct (_is_running (self fr)); reflexivity.
Qed.

Lemma run_get_volumes_ends (h : DiskImageHandler) (fr : frame) :
  ends_with (outcome_get_volumes rt h) (self fr) (run_get_volumes rt h fr).
Proof.
  unfold run_get_volumes, outcome_get_volumes.
  destruct (get_volume_info rt h) as [[volumes|e] h']; cbn [fst].
  - apply ends_with_guarded; apply quiet_step_kw.
  - eexists. split; [apply quiet_step|].
    split; [rewrite kw_returned; reflexivity|].
    cbn. split; reflexivity.
Qed.

Lemma run_open_fs_ends (h : DiskImageHandler) (fr : frame) :
  ends_with (outcome_open_fs rt h (kw (self fr))) (self fr) (run_open_fs rt h fr).
Proof.
  unfold run_open_fs, outcome_open_fs.
  pose proof (open_filesystem_spec rt h (partition_index (kw (self fr)))
                (offset_sectors (kw (self fr)))) as Hspec.
  destruct (open_filesystem rt h _ _) as [success h']. cbn [fst snd] in *.
  match goal with
  | |- context [on_self returned ?f] => set (fr1 := on_self returned f)
  end.
  assert (Hq : quiet (self fr) (self fr1) /\ kw (self fr1) = kw (self fr))
    by apply quiet_step_kw.
  destruct Hq as [Hq Hk].
  destruct Hspec as [[-> Hfs]|(-> & Hfs & _)].
  - destruct (fs_info h') as [fs|]; [|congruence]. cbn [andb].
    exists (self fr1). split; [exact Hq|]. split; [exact Hk|].
    destruct (_is_running (self fr1)) eqn:Hr; cbn.
    + split; reflexivity.
    + rewrite guarded_stopped by exact Hr. reflexivity.
  - cbn [andb]. apply ends_with_guarded; assumption.
Qed.

Lemma run_list_dir_ends (h : DiskImageHandler) (fr : frame) :
  ends_with (outcome_list_dir rt h (kw (self fr))) (self fr) (run_list_dir rt h fr).
Proof.
  unfold run_list_dir, outcome_list_dir, path_of.
  destruct (open_filesystem rt h _ _) as [success h']. cbn [fst snd].
  match goal with
  | |- context [on_self returned ?f] => set (fr1 := on_self returned f)
  end.
  assert (Hq : quiet (self fr) (self fr1) /\ kw (self fr1) = kw (self fr))
    by apply quiet_step_kw.
  destruct Hq as [Hq Hk].
  destruct success; cbn [negb].
  - destruct (list_directory rt h' _ _) as [entries h'']. cbn [fst].
    match goal with
    | |- context [on_self returned ?f] => set (fr2 := on_self returned f)
    end.
    assert (Hq2 : quiet (self fr1) (self fr2) /\ kw (self fr2) = kw (self fr1))
      by apply quiet_step_kw.
    destruct Hq2 as [Hq2 Hk2].
    apply ends_with_guarded.
    + eapply quiet_trans; eassumption.
    + congruence.
  - apply ends_with_guarded; assumption.
Qed.

Lemma ends_with_lift (t : signal) (w w0 : worker) (res : result unit * frame) :
  quiet w w0 -> kw w0 = kw w -> ends_with t w0 res -> ends_with t w res.
Proof.
  intros Hq Hk (w1 & Hq1 & Hk1 & H). exists w1.
  split; [eapply quiet_trans; eassumption|]. split; [congruence | exact H].
Qed.

Lemma run_body_ends (fr : frame) :
  ends_with (outcome rt (kw (self fr))) (self fr) (run_body rt fr).
Proof.
  unfold run_body, outcome.
  match goal with
  | |- context [on_self returned ?f] => set (fr0 := on_self returned f)
  end.
  assert (Hq : quiet (self fr) (self fr0) /\ kw (self fr0) = kw (self fr))
    by apply quiet_step_kw.
  destruct Hq as [Hq Hk].
  destruct (init rt _) as [h|e].
  - destruct (task_is _ "get_volumes").
    { eapply ends_with_lift; [exact Hq | exact Hk |].
      apply (run_get_volumes_ends h (with_handler h fr0)). }
    destruct (task_is _ "open_fs").
    { eapply ends_with_lift; [exact Hq | exact Hk |].
      pose proof (run_open_fs_ends h (with_handler h fr0)) as H.
      cbn [self with_handler] in H. rewrite Hk in H. exact H. }
    destruct (task_is _ "list_dir").
    { eapply ends_with_lift; [exact Hq | exact Hk |].
      pose proof (run_list_dir_ends h (with_handler h fr0)) as H.
      cbn [self with_handler] in H. rewrite Hk in H. exact H. }
    exists (self fr0). split; [exact Hq|]. split; [exact Hk|].
    cbn. split; reflexivity.
  - exists (self fr0). split; [exact Hq|]. split; [exact Hk|].
    cbn. split; reflexivity.
Qed.

(** [run] in one line: progress messages, then the outcome of the task
    and [finished], each emitted if the worker is running. *)
Lemma run_outcome (w : worker) :
  exists w1, quiet w w1 /\
    after_run rt w = guarded finished (guarded (outcome rt (kw w)) w1).
Proof.
  destruct (run_unfold rt w) as [_ E]. rewrite E.
  destruct (run_body_ends {| self := w; disk_handler := None |})
    as (w1 & Hq & _ & H).
  exists w1. split; [exact Hq|]. cbn [self] in H.
  destruct (run_body rt _) as [[[]|e] fr]; cbn [fst snd] in H.
  - rewrite H. reflexivity.
  - destruct H as [-> ->]. reflexivity.
Qed.

Lemma outcome_is_payload (k : kwargs) :
  is_payload (outcome rt k) = true /\ is_finished (outcome rt k) = false.
Proof.
  unfold outcome, outcome_get_volumes, outcome_open_fs, outcome_list_dir, failure.
  destruct (init rt _) as [h|e]; [|split; reflexivity].
  destruct (task_is k "get_volumes").
  { destruct (fst (get_volume_info rt h)); split; reflexivity. }
  destruct (task_is k "open_fs").
  { destruct (fst (open_filesystem rt h _ _)); split; reflexivity. }
  destruct (task_is k "list_dir").
  { destruct (fst (open_filesystem rt h _ _)); split; reflexivity. }
  split; reflexivity.
Qed.

(** Every signal a run emits is a progress message, the outcome of the
    task or [finished]. *)
Lemma run_signals (w : worker) (sg : signal) :
  In sg (emitted (after_run rt w)) ->
  In sg (emitted w) \/ silent sg \/ sg = outcome rt (kw w) \/ sg = finished.
Proof.
  destruct (run_outcome w) as (w1 & ((pre & Epre & Fpre) & _ & _) & E).
  rewrite E. unfold guarded. rewrite Forall_forall in Fpre.
  destruct (_is_running w1) eqn:Hr.
  - cbn [emit _is_running]. rewrite Hr. cbn [emit emitted]. rewrite Epre.
    rewrite !in_app_iff. cbn. intuition auto.
  - cbn [_is_running]. rewrite Hr, Epre. rewrite in_app_iff. intuition auto.
Qed.

(** The outcome is a [filesystem_opened] signal only for a failed [open_fs]. *)
Lemma outcome_filesystem_opened (k : kwargs) (success : bool) (msg : pystr) :
  outcome rt k = filesystem_opened success msg ->
  success = false /\ task_is k "open_fs" = true.
Proof.
  unfold outcome, outcome_get_volumes, outcome_open_fs, outcome_list_dir,
    failure.
  destruct (init rt _) as [h|e]; [|discriminate].
  destruct (task_is k "get_volumes").
  { destruct (fst (get_volume_info rt h)); discriminate. }
  destruct (task_is k "open_fs").
  { destruct (fst (open_filesystem rt h _ _)); [discriminate|].
    intros H; inversion H. split; reflexivity. }
  destruct (task_is k "list_dir").
  { destruct (fst (open_filesystem rt h _ _)); discriminate. }
  discriminate.
Qed.

(** A run nobody stops adds progress messages, the outcome of the task and
    [finished]. *)
Lemma run_undisturbed_emits (w : worker) :
  undisturbed w ->
  exists pre,
    emitted (after_run rt w) = emitted w ++ pre ++ [outcome rt (kw w); finished] /\
    Forall silent pre.
Proof.
  intros Hu. destruct (run_outcome w) as (w1 & ((pre & Epre & Fpre) & _ & Hund) & E).
  destruct (Hund Hu) as [Hr _].
  exists pre.
  rewrite E. unfold guarded. rewrite Hr. cbn [emit _is_running]. rewrite Hr.
  cbn [emit emitted]. rewrite Epre, <- !app_assoc.
  split; [reflexivity | exact Fpre].
Qed.

(** X10: a run that nobody stops emits progress messages, then exactly one
    payload signal, then [finished], and nothing else. *)
Theorem undisturbed_run_one_outcome (w : worker) :
  undisturbed w ->
  exists pre s,
    emitted (after_run rt w) = emitted w ++ pre ++ [s; finished] /\
    Forall silent pre /\
    is_payload s = true /\
    s = outcome rt (kw w).
Proof.
  intros Hu. destruct (run_undisturbed_emits w Hu) as (pre & E & Fpre).
  exists pre, (outcome rt (kw w)).
  split; [exact E|]. split; [exact Fpre|].
  split; [apply outcome_is_payload | reflexivity].
Qed.

(** X11: whatever the schedule of stop requests, a run adds at most one payload
    signal to the emitted signals. *)
Theorem run_at_most_one_payload (w : worker) :
  exists out,
    emitted (after_run rt w) = emitted w ++ out /\
    (List.length (filter is_payload out) <= 1)%nat.
Proof.
  destruct (run_outcome w) as (w1 & ((pre & Epre & Fpre) & _ & _) & E).
  assert (Hpre : filter is_payload pre = []).
  { clear Epre. induction Fpre as [|s l [Hs _] _ IH]; [reflexivity|].
    cbn. rewrite Hs. exact IH. }
  rewrite E. unfold guarded.
  destruct (_is_running w1) eqn:Hr.
  - cbn [emit _is_running]. rewrite Hr. cbn [emit emitted].
    rewrite Epre, <- !app_assoc.
    eexists. split; [reflexivity|].
    rewrite filter_app, Hpre. cbn.
    destruct (is_payload (outcome rt (kw w))); cbn; lia.
  - cbn [_is_running]. rewrite Hr, Epre.
    exists pre. split; [reflexivity|]. rewrite Hpre. cbn. lia.
Qed.

(** X12: no run reports a successful open: [filesystem_opened] is emitted with
    [False] only, and by a task other than [open_fs] not at all. *)
Theorem run_never_reports_open_success (w : worker) (success : bool)
  (msg : pystr) :
  In (filesystem_opened success msg) (emitted (after_run rt w)) ->
  In (filesystem_opened success msg) (emitted w)
  \/ (success = false /\ task_is (kw w) "open_fs" = true).
Proof.
  intros Hin. destruct (run_signals _ _ Hin) as [H|[H|[H|H]]].
  - left. exact H.
  - destruct H as [Hp _]. discriminate Hp.
  - right. symmetry in H. exact (outcome_filesystem_opened _ _ _ H).
  - discriminate H.
Qed.

End WorkerMore.


Section WorkerMore2.
Import Pytsk3 DiskAnalysis Worker Outcome.
Variable rt : runtime.

Lemma init_handler (path : option pystr) (h : DiskImageHandler) :
  init rt path = Ok h ->
  holds_image h /\ volume_info h = None /\ fs_info h = None /\ calls h = [].
Proof.
  unfold init, bind, holds_image.
  destruct (Img_Info (pytsk3 rt) path); [|discriminate].
  intros H; inversion H; subst h. cbn. repeat split. discriminate.
Qed.

Lemma get_volume_info_img (h : DiskImageHandler) :
  img_info (snd (get_volume_info rt h)) = img_info h.
Proof.
  destruct h as [ip im vi fi po cs]. unfold get_volume_info.
  cbn [img_info called].
  assert (Hno : forall vols h0,
             img_info (snd (no_volume_system vols h0)) = img_info h0).
  { intros vols [ip0 im0 vi0 fi0 po0 cs0].
    unfold no_volume_system, approx_sector_count, called.
    cbn [img_info volume_info image_path fs_info partition_offset calls].
    destruct im0 as [img|]; [|reflexivity].
    destruct (img_get_size img); [|reflexivity].
    destruct (img_get_block_size img) as [bs|]; [|reflexivity].
    destruct (Z.eqb bs 0); reflexivity. }
  destruct (Volume_Info (pytsk3 rt) im) as [vs|e].
  - destruct (vs_iter vs) as [parts [e|]]; [|reflexivity].
    destruct (is_IOError e); [|reflexivity]. rewrite Hno. reflexivity.
  - destruct (is_IOError e); [|reflexivity]. rewrite Hno. reflexivity.
Qed.

Lemma open_filesystem_img (h : DiskImageHandler) (p o : option Z) :
  img_info (snd (open_filesystem rt h p o)) = img_info h.
Proof.
  destruct h as [ip im vi fi po cs]. unfold open_filesystem, open_at, open_failed.
  cbn [img_info volume_info set_fs_info set_partition_offset called
       image_path fs_info partition_offset calls].
  destruct p as [i|], o as [s|]; try reflexivity.
  - destruct vi as [vs|]; [|reflexivity].
    destruct (vs_get_part_by_addr vs i) as [[pt|]|e]; try reflexivity.
    destruct (vs_block_size vs) as [bs|]; [|reflexivity].
    destruct (FS_Info (pytsk3 rt) im (part_start pt * bs)) as [fs|]; [|reflexivity].
    cbn. destruct (fs_type_name fs); reflexivity.
  - match goal with
    | |- context [FS_Info (pytsk3 rt) im ?off] =>
        destruct (FS_Info (pytsk3 rt) im off) as [fs|]; [|reflexivity]
    end.
    cbn. destruct (fs_type_name fs); reflexivity.
Qed.

Lemma list_directory_img (h : DiskImageHandler) (p : option pystr)
  (i : option Z) :
  img_info (snd (list_directory rt h p i)) = img_info h.
Proof.
  destruct h as [ip im vi fi po cs]. unfold list_directory.
  cbn [fs_info]. destruct fi as [fs|]; [|reflexivity].
  destruct i as [n|]; cbn [fst snd].
  - destruct (fs_open_dir_inode fs n) as [d|]; [|reflexivity].
    destruct (dir_iter d) as [files [ex|]]; [reflexivity|].
    destruct (collect_entries rt fs d files); reflexivity.
  - destruct (fs_open_dir_path fs p) as [d|]; [|reflexivity].
    destruct (dir_iter d) as [files [ex|]]; [reflexivity|].
    destruct (collect_entries rt fs d files); reflexivity.
Qed.

(** The handler a branch of [run] leaves in [disk_handler] holds the image
    of the handler it was given. *)
Lemma run_get_volumes_handler (h : DiskImageHandler) (fr : frame) :
  exists h', disk_handler (snd (run_get_volumes rt h fr)) = Some h'
             /\ img_info h' = img_info h.
Proof.
  unfold run_get_volumes.
  pose proof (get_volume_info_img h) as Hi.
  destruct (get_volume_info rt h) as [[vols|e] h']; cbn [snd] in Hi.
  - destruct (negb _); exists h'; split; [reflexivity | exact Hi | reflexivity | exact Hi].
  - exists h'. split; [reflexivity | exact Hi].
Qed.

Lemma run_open_fs_handler (h : DiskImageHandler) (fr : frame) :
  exists h', disk_handler (snd (run_open_fs rt h fr)) = Some h'
             /\ img_info h' = img_info h.
Proof.
  unfold run_open_fs.
  pose proof (open_filesystem_img h (partition_index (kw (self fr)))
                (offset_sectors (kw (self fr)))) as Hi.
  destruct (open_filesystem rt h _ _) as [success h']; cbn [snd] in Hi.
  exists h'. split; [|exact Hi].
  destruct (negb _); [reflexivity|]. destruct (success && _); reflexivity.
Qed.

Lemma run_list_dir_handler (h : DiskImageHandler) (fr : frame) :
  exists h', disk_handler (snd (run_list_dir rt h fr)) = Some h'
             /\ img_info h' = img_info h.
Proof.
  unfold run_list_dir.
  pose proof (open_filesystem_img h (partition_index (kw (self fr)))
                (offset_sectors (kw (self fr)))) as Hi.
  destruct (open_filesystem rt h _ _) as [success h']; cbn [snd] in Hi.
  destruct success; cbn [negb].
  - match goal with
    | |- context [list_directory rt h' ?p ?i] =>
        pose proof (list_directory_img h' p i) as Hl;
        destruct (list_directory rt h' p i) as [entries h'']
    end.
    cbn [snd] in Hl. exists h''. split; [|congruence].
    destruct (negb _); reflexivity.
  - exists h'. split; [|exact Hi]. destruct (negb _); reflexivity.
Qed.

Lemma run_body_handler (w : worker) :
  match disk_handler (snd (run_body rt {| self := w; disk_handler := None |})) with
  | Some h => holds_image h
  | None => exists e, init rt (image_path (kw w)) = Raise e
  end.
Proof.
  unfold run_body. cbn [self kw on_self disk_handler].
  destruct (init rt (image_path (kw w))) as [h|e] eqn:Hinit.
  - destruct (init_handler _ _ Hinit) as [Himg _]. unfold holds_image in *.
    destruct (task_is (kw w) "get_volumes").
    { destruct (run_get_volumes_handler h
                  (with_handler h (on_self returned
                     (on_self (emit (progress
                        (lit "Starting disk task: " ++ str_opt_str (task (kw w))
                         ++ lit "...")))
                        {| self := w; disk_handler := None |}))))
        as (h' & -> & Hi). congruence. }
    destruct (task_is (kw w) "open_fs").
    { destruct (run_open_fs_handler h
                  (with_handler h (on_self returned
                     (on_self (emit (progress
                        (lit "Starting disk task: " ++ str_opt_str (task (kw w))
                         ++ lit "...")))
                        {| self := w; disk_handler := None |}))))
        as (h' & -> & Hi). congruence. }
    destruct (task_is (kw w) "list_dir").
    { destruct (run_list_dir_handler h
                  (with_handler h (on_self returned
                     (on_self (emit (progress
                        (lit "Starting disk task: " ++ str_opt_str (task (kw w))
                         ++ lit "...")))
                        {| self := w; disk_handler := None |}))))
        as (h' & -> & Hi). congruence. }
    cbn. exact Himg.
  - cbn. exists e. reflexivity.
Qed.

(** X13: however a run ends, the handler it created is closed: it holds no
    image, no volume system and no file system. *)
Theorem run_closes_handler (w : worker) :
  match disk_handler (snd (run rt w)) with
  | Some h => img_info h = None /\ volume_info h = None /\ fs_info h = None
  | None => exists e, init rt (image_path (kw w)) = Raise e
  end.
Proof.
  pose proof (run_body_handler w) as Hb.
  unfold run, try_except_finally.
  destruct (run_body rt _) as [[[]|e] fr]; cbn [fst snd] in *.
  - assert (H : disk_handler (snd (run_finally fr))
                = match disk_handler fr with Some h => Some (close h) | None => None end).
    { destruct fr as [wf [h|]]; unfold run_finally; cbn;
        destruct (_is_running wf); reflexivity. }
    destruct (run_finally fr) as [[[]|e'] f2]; cbn [fst snd] in *; rewrite H;
      (destruct (disk_handler fr) as [h|]; [|exact Hb]);
      unfold holds_image in Hb; unfold close;
      (destruct (img_info h); [|congruence]); repeat split.
  - assert (He : disk_handler (snd (run_except e fr)) = disk_handler fr).
    { unfold run_except. destruct (negb _); reflexivity. }
    destruct (run_except e fr) as [r1 f1]; cbn [fst snd] in *.
    assert (H : disk_handler (snd (run_finally f1))
                = match disk_handler f1 with Some h => Some (close h) | None => None end).
    { destruct f1 as [wf [h|]]; unfold run_finally; cbn;
        destruct (_is_running wf); reflexivity. }
    destruct (run_finally f1) as [[[]|e'] f2]; cbn [fst snd] in *; rewrite H, He;
      (destruct (disk_handler fr) as [h|]; [|exact Hb]);
      unfold holds_image in Hb; unfold close;
      (destruct (img_info h); [|congruence]); repeat split.
Qed.

(** X14: a listing task that names a partition never lists: the handler of the
    task has not read the volume system, so the open step fails before any
    collaborator call. No schedule of stop requests makes the run emit a
    listing, and a run nobody stops on an image that opens ends with the
    failed-open error. *)
Theorem list_dir_by_partition_never_lists (w : worker) (i : Z) :
  task_is (kw w) "list_dir" = true ->
  partition_index (kw w) = Some i ->
  (forall entries,
     In (directory_listing_ready entries) (emitted (after_run rt w)) ->
     In (directory_listing_ready entries) (emitted w)) /\
  (undisturbed w ->
   forall h, init rt (image_path (kw w)) = Ok h ->
     exists pre,
       emitted (after_run rt w)
       = emitted w ++ pre
         ++ [error (lit "Failed to open filesystem before listing directory.");
             finished] /\
       Forall silent pre).
Proof.
  intros Htask Hp.
  destruct (task_is_list_dir _ Htask) as [Hgv Hof].
  assert (Hout : forall h, init rt (image_path (kw w)) = Ok h ->
            outcome rt (kw w)
            = error (lit "Failed to open filesystem before listing directory.")).
  { intros h Hinit. unfold outcome. rewrite Hinit, Hgv, Hof, Htask.
    unfold outcome_list_dir. rewrite Hp.
    destruct (init_handler _ _ Hinit) as (_ & Hv & _).
    destruct (offset_sectors (kw w)) as [o|]; [reflexivity|].
    destruct (open_by_partition_without_volumes rt h i Hv) as [-> _].
    reflexivity. }
  split.
  - intros entries Hin.
    destruct (run_signals rt w _ Hin) as [H|[[H _]|[H|H]]]; try discriminate.
    + exact H.
    + exfalso. destruct (init rt (image_path (kw w))) as [h|e] eqn:Hinit.
      * rewrite (Hout h eq_refl) in H. discriminate H.
      * unfold outcome in H. rewrite Hinit in H. discriminate H.
  - intros Hu h Hinit.
    destruct (run_undisturbed_emits rt w Hu) as (pre & E & Fpre).
    exists pre. rewrite <- (Hout h Hinit). split; [exact E | exact Fpre].
Qed.

(** X15: an [open_fs] task that nobody stops and whose open succeeds does not
    report the success: building the message evaluates [pytsk3], which
    [worker.py] does not import, and the run ends with the error of that
    [NameError]. *)
Theorem open_fs_success_reported_as_error (w : worker) (h : DiskImageHandler) :
  undisturbed w ->
  task_is (kw w) "open_fs" = true ->
  init rt (image_path (kw w)) = Ok h ->
  fst (open_filesystem rt h (partition_index (kw w)) (offset_sectors (kw w)))
  = true ->
  exists pre,
    emitted (after_run rt w)
    = emitted w ++ pre
      ++ [error (lit "Disk analysis error: name 'pytsk3' is not defined");
          finished] /\
    Forall silent pre.
Proof.
  intros Hu Htask Hinit Hopen.
  destruct (run_undisturbed_emits rt w Hu) as (pre & E & Fpre).
  exists pre. split; [|exact Fpre]. rewrite E.
  unfold outcome. rewrite Hinit.
  assert (Hgv : task_is (kw w) "get_volumes" = false).
  { revert Htask. unfold task_is. destruct (task (kw w)) as [t|]; [|discriminate].
    intros Ht. apply pystr_eqb_eq in Ht. subst t. reflexivity. }
  rewrite Hgv, Htask. unfold outcome_open_fs. rewrite Hopen. reflexivity.
Qed.

End WorkerMore2.


(** ** More on DiskTab *)

Section TabMore.
Import DiskAnalysis DiskTab.

Ltac tab_eval :=
  lazy beta iota zeta delta
    [handle _browse_image stop_analysis _on_disk_analysis_finished
     _start_disk_analysis _volume_selected _file_double_clicked
     _on_filesystem_opened _display_volumes _display_directory_listing
     _show_error do_effect set_thread set_image set_selection
     set_volume_table set_file_listing_table set_label thread_running
     with_image_path request Session.deliver Session.from_outside
     _disk_worker _disk_thread _image_path _selected_partition_index
     _selected_offset _current_fs_open image_path_edit browse_button_enabled
     volume_table file_listing_table fs_status_label effects negb
     Worker.task Worker.image_path Worker.partition_index
     Worker.offset_sectors Worker.list_path Worker.inode].

Ltac break_inner x :=
  lazymatch x with
  | context [match ?y with _ => _ end] => break_inner y
  | _ => first [ is_var x; destruct x | destruct x eqn:? ]
  end.

Ltac tab_break :=
  match goal with
  | |- context [match ?x with _ => _ end] => break_inner x
  end;
  tab_eval.

Ltac started_cases H :=
  repeat (apply in_app_or in H; destruct H as [H|H]);
  cbn [In] in H;
  repeat match type of H with
         | _ \/ _ => destruct H as [H|H]
         | False => contradiction
         | _ = thread_started _ => first [discriminate H | inversion H; subst; clear H]
         end.


(** X17: a double click on a volume while a task is in flight is turned down
    with the "Busy" warning, and yet it has replaced the selection and
    cleared the listing. *)
Theorem volume_selected_while_busy (s : state) (row : nat) (vol : volume) :
  thread_running s = true ->
  truthy (_image_path s) = true ->
  nth_error (volume_table s) row = Some vol ->
  effects (_volume_selected (Some row) s)
  = effects s ++ [warning_box (lit "Busy")
                    (lit "Disk analysis is already in progress.")] /\
  _disk_thread (_volume_selected (Some row) s) = _disk_thread s /\
  file_listing_table (_volume_selected (Some row) s) = [] /\
  _current_fs_open (_volume_selected (Some row) s) = false /\
  _selected_offset (_volume_selected (Some row) s)
  = Some (if is_synthetic vol then 0 else start_sector vol) /\
  _selected_partition_index (_volume_selected (Some row) s)
  = (if is_synthetic vol then None else Some (slot vol)).
Proof.
  intros Hrun Himg Hrow.
  destruct s as [wk th img psel osel fso edit en vt ft lbl effs].
  unfold thread_running in Hrun. cbn in Hrun, Himg, Hrow.
  destruct th as [[|]|]; try discriminate.
  unfold is_synthetic. tab_eval. rewrite Hrow.
  destruct (contains (desc vol) (lit "Potential Filesystem"));
    tab_eval; rewrite ?Himg; tab_eval; repeat split.
Qed.

(** *** The tab between its tasks *)

Lemma handle_keeps_idle (ev : event) (s : state) :
  Session.idle_invariant s -> Session.idle_invariant (handle ev s).
Proof.
  unfold Session.idle_invariant.
  destruct s as [wk th img psel osel fso edit en vt ft lbl effs].
  cbn [_disk_thread browse_button_enabled _disk_worker].
  intros [[H1 H2] [H3 H4]].
  destruct ev; tab_eval; repeat tab_break;
    (split; split; intros; try congruence; try discriminate; auto);
    exfalso;
    first [ discriminate (H2 ltac:(assumption))
          | discriminate (H4 ltac:(assumption)) ].
Qed.

Lemma reachable_idle (s : state) :
  DiskTab.reachable s -> Session.idle_invariant s.
Proof.
  induction 1 as [|ev s Hs IH].
  - cbn. repeat split.
  - apply handle_keeps_idle. exact IH.
Qed.

(** X18: in every state the tab reaches, it holds a thread exactly when it
    holds a worker, and Browse is enabled exactly when it holds none. *)
Theorem browse_enabled_iff_idle (s : state) :
  DiskTab.reachable s ->
  (_disk_thread s = None <-> browse_button_enabled s = true) /\
  (_disk_thread s = None <-> _disk_worker s = None).
Proof.
  intros Hs. exact (reachable_idle s Hs).
Qed.

(** X19: in every state the tab reaches, [stop_analysis] leaves no running
    thread. If a thread was running, the worker is asked to stop, then the
    thread to quit, and it is terminated if it has not exited in time;
    the tab forgets both and enables Browse again. Otherwise nothing
    changes. Stopping twice is stopping once. *)
Theorem stop_analysis_stops (exited : bool) (s : state) :
  DiskTab.reachable s ->
  thread_running (stop_analysis exited s) = false /\
  (thread_running s = true ->
   _disk_thread (stop_analysis exited s) = None /\
   _disk_worker (stop_analysis exited s) = None /\
   browse_button_enabled (stop_analysis exited s) = true /\
   effects (stop_analysis exited s)
   = effects s
     ++ [worker_stop; status_message (lit "Stopping analysis...") 5000;
         thread_quit; thread_wait (Some 2000)]
     ++ (if exited then [] else [thread_terminate; thread_wait None])
     ++ [status_message (lit "Disk analysis task complete.") 3000]) /\
  (thread_running s = false -> stop_analysis exited s = s) /\
  (forall again, stop_analysis again (stop_analysis exited s)
                 = stop_analysis exited s).
Proof.
  intros Hs. destruct (reachable_idle s Hs) as [_ [_ Hw]].
  destruct s as [wk th img psel osel fso edit en vt ft lbl effs].
  cbn [_disk_thread _disk_worker] in Hw.
  destruct th as [[|]|], wk as [k|], exited; tab_eval;
    try (discriminate (Hw eq_refl));
    repeat split; try reflexivity; try discriminate; try congruence;
    rewrite <- ?app_assoc; reflexivity.
Qed.

(** *** In a session *)

Lemma deliver_is_handle (k : Worker.kwargs) (sg : Worker.signal) (s : state) :
  Session.deliver k sg s = s \/ exists ev, Session.deliver k sg s = handle ev s.
Proof.
  destruct sg; cbn [Session.deliver]; auto.
  - right. exists (got_error msg). reflexivity.
  - right. exists (got_progress msg). reflexivity.
  - destruct (Worker.task_is k "get_volumes"); auto.
    right. exists (got_volume_info volumes). reflexivity.
  - destruct (Worker.task_is k "get_volumes"); auto.
    destruct (Worker.task_is k "open_fs"); auto.
    destruct (Worker.task_is k "list_dir"); auto.
    right. exists (got_directory_listing entries). reflexivity.
  - destruct (Worker.task_is k "get_volumes"); auto.
    destruct (Worker.task_is k "open_fs").
    { right. exists (got_filesystem_opened success msg). reflexivity. }
    destruct (Worker.task_is k "list_dir"); auto.
    right. exists (got_filesystem_opened success msg). reflexivity.
Qed.

(** The tab starts enumerations and listings only, and a worker of these
    never emits [filesystem_opened]. *)
Lemma started_task_never_reports_open (rt : runtime) (k : Worker.kwargs)
  (schedule : option nat) (success : bool) (msg : pystr) :
  request_ok k ->
  ~ In (Worker.filesystem_opened success msg)
       (Worker.emitted (after_run rt (Worker.new k schedule))).
Proof.
  intros Hk Hin.
  destruct (run_signals rt _ _ Hin) as [H|[H|[H|H]]];
    [destruct H | destruct H as [Hp _]; discriminate Hp | | discriminate H].
  symmetry in H. apply outcome_filesystem_opened in H. destruct H as [_ H].
  cbn in H. unfold Worker.task_is in H.
  destruct Hk as [(Ht & _)|(Ht & _)]; rewrite Ht in H; discriminate H.
Qed.

Lemma outside_keeps_session (ev : event) (s : state) :
  Session.from_outside ev = true ->
  Session.invariant s -> Session.invariant (handle ev s).
Proof.
  unfold Session.invariant. intros Hev (Htab & Hopen & Hlist & Hino).
  split; [apply handle_preserves; exact Htab|].
  destruct s as [wk th img psel osel fso edit en vt ft lbl effs].
  cbn [_current_fs_open file_listing_table effects] in Hopen, Hlist, Hino.
  subst fso ft.
  destruct ev; try discriminate Hev; tab_eval; repeat tab_break;
    (split; [reflexivity|]); (split; [reflexivity|]);
    intros k' Hin; started_cases Hin;
    first [ apply Hino; assumption | reflexivity ].
Qed.

Lemma signal_keeps_session (k : Worker.kwargs) (sg : Worker.signal) (s : state) :
  (forall success msg, sg <> Worker.filesystem_opened success msg) ->
  Session.invariant s -> Session.invariant (Session.deliver k sg s).
Proof.
  unfold Session.invariant. intros Hsg (Htab & Hopen & Hlist & Hino).
  split.
  { destruct (deliver_is_handle k sg s) as [->|(ev & ->)];
      [exact Htab | apply handle_preserves; exact Htab]. }
  destruct s as [wk th img psel osel fso edit en vt ft lbl effs].
  cbn [_current_fs_open file_listing_table effects] in Hopen, Hlist, Hino.
  subst fso ft.
  destruct sg; try (exfalso; eapply Hsg; reflexivity);
    tab_eval; repeat tab_break;
    (split; [reflexivity|]); (split; [reflexivity|]);
    intros k' Hin; started_cases Hin;
    first [ apply Hino; assumption | reflexivity ].
Qed.

Lemma session_invariant (s : state) : Session.reachable s -> Session.invariant s.
Proof.
  induction 1 as [|ev s Hs IH Hev|k rt schedule sg s Hs IH Hk Hsg].
  - unfold Session.invariant, tab_invariant. cbn.
    repeat split; try discriminate; try congruence; intros k [].
  - apply outside_keeps_session; assumption.
  - apply signal_keeps_session; [|exact IH].
    intros success msg ->.
    destruct IH as ((_ & _ & Hreq) & _).
    exact (started_task_never_reports_open rt k schedule success msg
             (Hreq k Hk) Hsg).
Qed.

(** X20: with the signals of its own workers the tab never marks a file system
    open: no worker it starts emits [filesystem_opened]. So the listing
    table stays empty whatever the workers list, a double click in it does
    nothing, and no request ever carries an inode. *)
Theorem session_never_shows_listing (s : state) :
  Session.reachable s ->
  _current_fs_open s = false /\
  file_listing_table s = [] /\
  (forall index, _file_double_clicked index s = s) /\
  (forall k, In (thread_started k) (effects s) -> Worker.inode k = None) /\
  (forall k entries, _current_fs_open
                       (Session.deliver k (Worker.directory_listing_ready entries) s)
                     = false
                     /\ file_listing_table
                          (Session.deliver k (Worker.directory_listing_ready entries) s)
                        = []).
Proof.
  intros Hr. pose proof (session_invariant s Hr) as Hinv.
  destruct Hinv as (Htab & Hopen & Hlist & Hino).
  split; [exact Hopen|]. split; [exact Hlist|]. split; [|split; [exact Hino|]].
  - intros [row|]; [|reflexivity].
    unfold _file_double_clicked. rewrite Hopen. reflexivity.
  - intros k entries.
    assert (Hinv' : Session.invariant
                      (Session.deliver k (Worker.directory_listing_ready entries) s)).
    { apply signal_keeps_session; [discriminate|].
      split; [exact Htab|]. auto. }
    destruct Hinv' as (_ & H1 & H2 & _). auto.
Qed.

End TabMore.


(** ** calculate_hashes and HashWorker *)

Section HashClaims.
Import CalculateHash ToolProps.
Variable rt : CalculateHash.runtime.

Lemma read_loop_same (rs : list (result pybytes)) (a : pybytes) :
  match read_loop rs a a with
  | Ok (m, s) => m = s
  | Raise _ => True
  end.
Proof.
  revert a. induction rs as [|[data|e] rs IH]; intros a; cbn.
  - reflexivity.
  - destruct data as [|b data]; [reflexivity|]. apply IH.
  - exact I.
Qed.

Lemma read_loop_chunks (chunks : list pybytes) (rest : list (result pybytes))
  (a b : pybytes) :
  Forall nonempty chunks ->
  at_eof rest ->
  read_loop (map Ok chunks ++ rest) a b
  = Ok (a ++ List.concat chunks, b ++ List.concat chunks).
Proof.
  intros Hne Hrest. revert a b.
  induction Hne as [|c chunks Hc _ IH]; intros a b; cbn.
  - rewrite !app_nil_r. destruct Hrest as [->|[rs' ->]]; reflexivity.
  - destruct c as [|x c]; [elim Hc; reflexivity|].
    rewrite IH, <- !app_assoc. reflexivity.
Qed.

(** X21: the two digests are there together or not at all, and they are
    digests of the same bytes. *)
Theorem calculate_hashes_both_or_neither (file_path : pystr) :
  calculate_hashes rt file_path = (None, None)
  \/ exists data,
       calculate_hashes rt file_path
       = (Some (CalculateHash.md5 rt data), Some (CalculateHash.sha256 rt data)).
Proof.
  unfold calculate_hashes.
  destruct (isfile rt file_path); cbn; [|left; reflexivity].
  destruct (open_rb rt file_path) as [f|e]; cbn; [|left; reflexivity].
  pose proof (read_loop_same (reads f) []) as H.
  destruct (read_loop (reads f) [] []) as [[m s]|e]; [|left; reflexivity].
  subst s. right. exists m. reflexivity.
Qed.

(** X22: reading in chunks does not show: for a regular file that opens and is
    read to its end, the digests are those of the whole content. *)
Theorem calculate_hashes_whole_content (file_path : pystr) (f : file_object)
  (chunks : list pybytes) (rest : list (result pybytes)) :
  isfile rt file_path = true ->
  open_rb rt file_path = Ok f ->
  reads f = map Ok chunks ++ rest ->
  Forall nonempty chunks ->
  at_eof rest ->
  calculate_hashes rt file_path
  = (Some (CalculateHash.md5 rt (List.concat chunks)),
     Some (CalculateHash.sha256 rt (List.concat chunks))).
Proof.
  intros Hf Ho Hr Hne Hrest. unfold calculate_hashes.
  rewrite Hf, Ho. cbn. rewrite Hr, (read_loop_chunks _ _ _ _ Hne Hrest).
  reflexivity.
Qed.

(** X23: a file that is not a regular file, that does not open, or a read of
    which fails before the end, gives no digest at all. *)
Theorem calculate_hashes_failure (file_path : pystr) :
  isfile rt file_path = false
  \/ (exists e, open_rb rt file_path = Raise e)
  \/ (exists f chunks e rest,
        open_rb rt file_path = Ok f /\
        reads f = map Ok chunks ++ Raise e :: rest /\
        Forall nonempty chunks) ->
  calculate_hashes rt file_path = (None, None).
Proof.
  unfold calculate_hashes.
  intros [H|[[e H]|(f & chunks & e & rest & Ho & Hr & Hne)]].
  - rewrite H. reflexivity.
  - destruct (isfile rt file_path); [|reflexivity]. rewrite H. reflexivity.
  - destruct (isfile rt file_path); [|reflexivity]. rewrite Ho. cbn. rewrite Hr.
    assert (H : forall a b, read_loop (map Ok chunks ++ Raise e :: rest) a b
                            = Raise e).
    { clear Hr. induction Hne as [|c chunks Hc _ IH]; intros a b; cbn.
      - reflexivity.
      - destruct c as [|x c]; [elim Hc; reflexivity|]. apply IH. }
    rewrite H. reflexivity.
Qed.

Section HashWorkerClaims.
Import BaseWorker HashWorker.
Variable basename : pystr -> pystr.

(** X24: what a run of the hash worker emits, for every schedule of a stop
    request: the progress message; then, when [stop] is called during the
    hashing, its message and nothing more, not even [finished]; otherwise,
    if the worker is running, one result or error signal and [finished].
    A result carries both digests. The run never raises. *)
Theorem hash_run_emits (w : worker hashes) (file_path : pystr)
  (others : list pystr) :
  args w = file_path :: others ->
  fst (HashWorker.run rt basename w) = Ok tt /\
  emitted (snd (HashWorker.run rt basename w))
  = emitted w
    ++ [progress (lit "Calculating hashes for " ++ basename file_path
                  ++ lit "...")]
    ++ (if stopped_in_call w then [progress (lit "Stopping analysis...")]
        else if _is_running w then
          [match calculate_hashes rt file_path with
           | (Some m, Some s) =>
               results_ready {| HashWorker.md5 := m; HashWorker.sha256 := Some s |}
           | _ =>
               error (lit "Failed to calculate hashes for "
                      ++ basename file_path ++ lit ".")
           end;
           finished]
        else []).
Proof.
  intros Ha.
  unfold HashWorker.run, Worker.try_except_finally, HashWorker.run_body, args_0.
  rewrite Ha.
  assert (E : calculate_hashes rt file_path = (None, None)
              \/ exists m s, calculate_hashes rt file_path = (Some m, Some s)).
  { unfold calculate_hashes.
    destruct (isfile rt file_path); cbn; [|left; reflexivity].
    destruct (DiskAnalysis.bind (open_rb rt file_path)
                (fun f => read_loop (reads f) [] [])) as [[m s]|e];
      [right; eauto | left; reflexivity]. }
  destruct E as [E|(m & s & E)];
    rewrite E; clear E;
    destruct w as [a [|] em [[|n]|]];
    lazy beta iota zeta delta
      [stopped_in_call returned run_finally run_except stop emit
       args _is_running emitted pending_stop fst snd negb];
    rewrite <- ?app_assoc; split; reflexivity.
Qed.

End HashWorkerClaims.
End HashClaims.


(** ** analyze_pcap and NetworkAnalysisWorker *)

(** *** Keys and the dictionary of conversations *)

Lemma pystr_ltb_total (a b : pystr) :
  pystr_ltb a b = false -> pystr_ltb b a = false -> a = b.
Proof.
  revert b; induction a as [|x a IH]; intros [|y b]; simpl; try congruence.
  destruct (N.ltb_spec x y), (N.ltb_spec y x); try congruence; try lia.
  intros H1 H2. assert (x = y) by lia. subst y. f_equal. apply IH; assumption.
Qed.

Lemma pystr_eqb_refl (a : pystr) : pystr_eqb a a = true.
Proof. apply pystr_eqb_eq. reflexivity. Qed.

Lemma pystr_eqb_sym (a b : pystr) : pystr_eqb a b = pystr_eqb b a.
Proof.
  destruct (pystr_eqb a b) eqn:E.
  - apply pystr_eqb_eq in E. subst b. symmetry. apply pystr_eqb_refl.
  - destruct (pystr_eqb b a) eqn:E'; [|reflexivity].
    apply pystr_eqb_eq in E'. subst b. rewrite pystr_eqb_refl in E. discriminate E.
Qed.

Section NetKeys.
Import Scapy NetworkAnalysis ToolProps.

Lemma port_eqb_eq (a b : port) : port_eqb a b = true <-> a = b.
Proof.
  destruct a as [|x], b as [|y]; cbn; try (split; [discriminate|congruence]).
  - tauto.
  - rewrite Z.eqb_eq. split; [congruence | intros H; inversion H; reflexivity].
Qed.

Lemma conv_key_eqb_eq (a b : conv_key) : conv_key_eqb a b = true <-> a = b.
Proof.
  destruct a as [[[[p1 a1] b1] c1] d1], b as [[[[p2 a2] b2] c2] d2].
  unfold conv_key_eqb.
  rewrite !andb_true_iff, !pystr_eqb_eq, !port_eqb_eq.
  split.
  - intros [[[[-> ->] ->] ->] ->]. reflexivity.
  - intros H. inversion H. auto.
Qed.

Lemma conv_key_eqb_refl (k : conv_key) : conv_key_eqb k k = true.
Proof. apply conv_key_eqb_eq. reflexivity. Qed.

Lemma conv_key_eqb_neq (a b : conv_key) : a <> b -> conv_key_eqb a b = false.
Proof.
  intros H. destruct (conv_key_eqb a b) eqn:E; [|reflexivity].
  apply conv_key_eqb_eq in E. contradiction.
Qed.

Lemma tuple_gt_cases (a b : pystr * port) :
  same_shape (snd a) (snd b) ->
  (tuple_gt a b = Ok true /\ tuple_gt b a = Ok false)
  \/ (tuple_gt a b = Ok false /\ tuple_gt b a = Ok true)
  \/ (a = b /\ tuple_gt a b = Ok false).
Proof.
  destruct a as [s p], b as [t q]. unfold tuple_gt. cbn [fst snd].
  intros Hs. rewrite (pystr_eqb_sym t s).
  destruct (pystr_eqb s t) eqn:Est; cbn.
  - apply pystr_eqb_eq in Est. subst t.
    destruct p as [|x], q as [|y]; cbn in *; try contradiction.
    + right. right. split; reflexivity.
    + rewrite (Z.eqb_sym y x).
      destruct (Z.eqb_spec x y) as [->|Hne]; cbn.
      * right. right. split; reflexivity.
      * destruct (Z.ltb_spec y x), (Z.ltb_spec x y); try lia.
        -- left. split; reflexivity.
        -- right. left. split; reflexivity.
  - destruct (pystr_ltb t s) eqn:E1.
    + left. rewrite (pystr_ltb_asym _ _ E1). split; reflexivity.
    + destruct (pystr_ltb s t) eqn:E2.
      * right. left. split; reflexivity.
      * rewrite (pystr_ltb_total _ _ E2 E1), pystr_eqb_refl in Est.
        discriminate Est.
Qed.

Lemma key_of_layers_cases (ip : ip_layer) (tcp udp : option transport_layer) :
  exists k, key_of_layers ip tcp udp = Ok k
            /\ key_of_layers (swap_ip ip) (option_map swap_ports tcp)
                 (option_map swap_ports udp) = Ok k.
Proof.
  unfold key_of_layers.
  destruct tcp as [t|]; [|destruct udp as [u|]]; cbn [option_map swap_ip swap_ports src dst sport dport].
  - destruct (tuple_gt_cases (src ip, port_int (sport t)) (dst ip, port_int (dport t)) I)
      as [[E1 E2]|[[E1 E2]|[E E1]]]; rewrite ?E1, ?E2; cbn; eauto.
    inversion E. rewrite H0, H1 in E1. rewrite H0, H1, E1. cbn. eauto.
  - destruct (tuple_gt_cases (src ip, port_int (sport u)) (dst ip, port_int (dport u)) I)
      as [[E1 E2]|[[E1 E2]|[E E1]]]; rewrite ?E1, ?E2; cbn; eauto.
    inversion E. rewrite H0, H1 in E1. rewrite H0, H1, E1. cbn. eauto.
  - destruct (tuple_gt_cases (src ip, NA) (dst ip, NA) I)
      as [[E1 E2]|[[E1 E2]|[E E1]]]; rewrite ?E1, ?E2; cbn; eauto.
    inversion E. rewrite H0 in E1. rewrite H0, E1. cbn. eauto.
Qed.

Lemma dict_get_set_same (k : conv_key) (v dflt : Z) (d : list (conv_key * Z)) :
  dict_get k dflt (dict_set k v d) = v.
Proof.
  induction d as [|[k' v'] d IH]; cbn.
  - rewrite conv_key_eqb_refl. reflexivity.
  - destruct (conv_key_eqb k' k) eqn:E; cbn; rewrite E; [reflexivity | exact IH].
Qed.

Lemma dict_get_set_other (k k' : conv_key) (v dflt : Z) (d : list (conv_key * Z)) :
  k <> k' ->
  dict_get k' dflt (dict_set k v d) = dict_get k' dflt d.
Proof.
  intros Hne. induction d as [|[k0 v0] d IH]; cbn.
  - rewrite (conv_key_eqb_neq _ _ Hne). reflexivity.
  - destruct (conv_key_eqb k0 k) eqn:E; cbn.
    + apply conv_key_eqb_eq in E. subst k0.
      rewrite (conv_key_eqb_neq _ _ Hne). reflexivity.
    + destruct (conv_key_eqb k0 k'); [reflexivity | exact IH].
Qed.

Lemma dict_set_keys (k k' : conv_key) (v : Z) (d : list (conv_key * Z)) :
  In k' (map fst (dict_set k v d)) <-> k' = k \/ In k' (map fst d).
Proof.
  induction d as [|[k0 v0] d IH]; cbn.
  - intuition auto.
  - destruct (conv_key_eqb k0 k) eqn:E; cbn.
    + apply conv_key_eqb_eq in E. subst k0. intuition auto.
    + rewrite IH. intuition auto.
Qed.

Lemma dict_set_NoDup (k : conv_key) (v : Z) (d : list (conv_key * Z)) :
  NoDup (map fst d) -> NoDup (map fst (dict_set k v d)).
Proof.
  induction d as [|[k0 v0] d IH]; cbn; intros H.
  - constructor; [intros []|constructor].
  - inversion H as [|? ? Hnot Hd]; subst.
    destruct (conv_key_eqb k0 k) eqn:E; cbn.
    + constructor; assumption.
    + constructor; [|apply IH; exact Hd].
      rewrite dict_set_keys. intros [->|Hin]; [|contradiction].
      rewrite conv_key_eqb_refl in E. discriminate E.
Qed.

Lemma dict_get_absent (k : conv_key) (dflt : Z) (d : list (conv_key * Z)) :
  ~ In k (map fst d) -> dict_get k dflt d = dflt.
Proof.
  induction d as [|[k0 v0] d IH]; cbn; intros H; [reflexivity|].
  destruct (conv_key_eqb k0 k) eqn:E.
  - apply conv_key_eqb_eq in E. subst k0. elim H. left. reflexivity.
  - apply IH. intros Hin. apply H. right. exact Hin.
Qed.

Lemma dict_get_In (k : conv_key) (v dflt : Z) (d : list (conv_key * Z)) :
  NoDup (map fst d) -> In (k, v) d -> dict_get k dflt d = v.
Proof.
  induction d as [|[k0 v0] d IH]; cbn; intros Hnd Hin; [contradiction|].
  inversion Hnd as [|? ? Hnot Hd]; subst.
  destruct Hin as [E|Hin].
  - inversion E; subst. rewrite conv_key_eqb_refl. reflexivity.
  - destruct (conv_key_eqb k0 k) eqn:E.
    + apply conv_key_eqb_eq in E. subst k0. elim Hnot.
      apply (in_map fst) in Hin. exact Hin.
    + apply IH; assumption.
Qed.

End NetKeys.


(** *** The loop over the packets *)

Section NetLoop.
Import Scapy NetworkAnalysis ToolProps.
Context {float : Type}.
Variable rt : runtime float.

Lemma packets_of_snoc (k : conv_key) (pre : list (packet float))
  (p : packet float) :
  packets_of k (pre ++ [p])
  = packets_of k pre + (if in_conversation k p then 1 else 0).
Proof.
  unfold packets_of. rewrite filter_app, length_app. cbn.
  destruct (in_conversation k p); cbn; lia.
Qed.

Lemma packets_of_nonneg (k : conv_key) (pre : list (packet float)) :
  0 <= packets_of k pre.
Proof. unfold packets_of. lia. Qed.

Lemma key_of_total (p : packet float) (ip : ip_layer) :
  IP p = Some ip ->
  exists k, key_of_layers ip (TCP p) (UDP p) = Ok k /\ key_of p = Some k.
Proof.
  intros H. destruct (key_of_layers_cases ip (TCP p) (UDP p)) as (k & E & _).
  exists k. split; [exact E|]. unfold key_of. rewrite H, E. reflexivity.
Qed.

Ltac net_eval :=
  lazy beta iota zeta delta
    [is_None_or_lt is_None_or_gt with_summary set_start_time set_end_time
     l_summary l_conversations processed_count start_time end_time
     packet_count error].

(** One turn of the loop, while the times are [None] or [float]s. *)
Lemma loop_body_spec (p : packet float) (l : locals float) :
  (forall x, start_time (l_summary l) <> time_str x) ->
  (forall x, end_time (l_summary l) <> time_str x) ->
  exists st en,
    loop_body rt p l
    = Normal
        {| l_summary :=
             {| packet_count := packet_count (l_summary l);
                start_time := st; end_time := en;
                error := error (l_summary l) |};
           l_conversations :=
             match key_of p with
             | Some k =>
                 dict_set k (dict_get k 0 (l_conversations l) + 1)
                   (l_conversations l)
             | None => l_conversations l
             end;
           processed_count := processed_count l + 1 |} /\
    (st = time_float (time p)
     /\ (start_time (l_summary l) = time_None
         \/ exists t, start_time (l_summary l) = time_float t
                      /\ float_lt rt (time p) t = true)
     \/ exists t, st = time_float t /\ start_time (l_summary l) = time_float t
                  /\ float_lt rt (time p) t = false) /\
    (en = time_float (time p)
     /\ (end_time (l_summary l) = time_None
         \/ exists t, end_time (l_summary l) = time_float t
                      /\ float_lt rt t (time p) = true)
     \/ exists t, en = time_float t /\ end_time (l_summary l) = time_float t
                  /\ float_lt rt t (time p) = false).
Proof.
  destruct l as [[pc st en er] convs n]. cbn [l_summary start_time end_time].
  intros Hs He. unfold loop_body.
  cbn [l_summary l_conversations processed_count start_time end_time
       packet_count error time].
  assert (Hkey : forall (s0 : summary float) (c0 : list (conv_key * Z)) (n0 : Z),
            match IP p with
            | Some ip =>
                match key_of_layers ip (TCP p) (UDP p) with
                | Raise e =>
                    Raised (other e)
                      {| l_summary := s0; l_conversations := c0;
                         processed_count := n0 |}
                | Ok conv_key =>
                    Normal
                      {| l_summary := s0;
                         l_conversations :=
                           dict_set conv_key (dict_get conv_key 0 c0 + 1) c0;
                         processed_count := n0 |}
                end
            | None =>
                Normal {| l_summary := s0; l_conversations := c0;
                          processed_count := n0 |}
            end
            = Normal
                {| l_summary := s0;
                   l_conversations :=
                     match key_of p with
                     | Some k => dict_set k (dict_get k 0 c0 + 1) c0
                     | None => c0
                     end;
                   processed_count := n0 |}).
  { intros s0 c0 n0. destruct (IP p) as [ip|] eqn:Hip.
    - destruct (key_of_total p ip Hip) as (k & E & Ek). rewrite E, Ek. reflexivity.
    - unfold key_of. rewrite Hip. reflexivity. }
  destruct st as [|s|x]; [| |elim (Hs x); reflexivity];
    destruct en as [|e|y]; try (elim (He y); reflexivity); net_eval.
  - rewrite Hkey. eexists _, _. split; [reflexivity|].
    split; left; auto.
  - destruct (float_lt rt e (time p)) eqn:E2; net_eval; rewrite Hkey;
      eexists _, _; (split; [reflexivity|]); split;
      try (left; split; [reflexivity|]; eauto; fail);
      right; eauto.
  - destruct (float_lt rt (time p) s) eqn:E1; net_eval; rewrite Hkey;
      eexists _, _; (split; [reflexivity|]); split;
      try (left; split; [reflexivity|]; eauto; fail);
      right; eauto.
  - destruct (float_lt rt (time p) s) eqn:E1; net_eval;
      destruct (float_lt rt e (time p)) eqn:E2; net_eval;
      rewrite Hkey;
      eexists _, _; (split; [reflexivity|]); split;
      try (left; split; [reflexivity|]; eauto; fail);
      right; eauto.
Qed.

Lemma seen_not_str (pre : list (packet float)) (v : time_value float) :
  seen pre v -> forall x, v <> time_str x.
Proof. intros H x E. subst v. exact H. Qed.

Lemma scanned_step (pre : list (packet float)) (p : packet float)
  (l : locals float) :
  scanned pre l ->
  exists l', loop_body rt p l = Normal l' /\ scanned (pre ++ [p]) l'.
Proof.
  intros (Hn & Hpc & Her & Hnd & Hget & Hpos & Hst & Hen).
  destruct (loop_body_spec p l (seen_not_str _ _ Hst) (seen_not_str _ _ Hen))
    as (st & en & E & Hs' & He').
  eexists. split; [exact E|].
  unfold scanned.
  cbn [l_summary l_conversations processed_count packet_count error
       start_time end_time].
  assert (Hin : In p (pre ++ [p])) by (apply in_or_app; right; left; reflexivity).
  split; [rewrite length_app, Hn; cbn; lia|].
  split; [exact Hpc|]. split; [exact Her|].
  split; [|split; [|split; [|split]]].
  - destruct (key_of p); [apply dict_set_NoDup|]; exact Hnd.
  - intros k. rewrite packets_of_snoc. unfold in_conversation.
    destruct (key_of p) as [k0|].
    + destruct (conv_key_eqb k0 k) eqn:Ek.
      * apply conv_key_eqb_eq in Ek. subst k0.
        rewrite dict_get_set_same, Hget. reflexivity.
      * rewrite dict_get_set_other, Hget; [lia|].
        intros ->. rewrite conv_key_eqb_refl in Ek. discriminate Ek.
    + rewrite Hget. lia.
  - intros k. rewrite packets_of_snoc. unfold in_conversation.
    destruct (key_of p) as [k0|].
    + rewrite dict_set_keys. intros [->|Hk].
      * rewrite conv_key_eqb_refl. pose proof (packets_of_nonneg k0 pre). lia.
      * specialize (Hpos k Hk). destruct (conv_key_eqb k0 k); lia.
    + intros Hk. specialize (Hpos k Hk). lia.
  - destruct Hs' as [[-> _]|(t & -> & Et & _)]; cbn.
    + exists p. split; [exact Hin | reflexivity].
    + rewrite Et in Hst. destruct Hst as (q & Hq & Eq).
      exists q. split; [apply in_or_app; left; exact Hq | exact Eq].
  - destruct He' as [[-> _]|(t & -> & Et & _)]; cbn.
    + exists p. split; [exact Hin | reflexivity].
    + rewrite Et in Hen. destruct Hen as (q & Hq & Eq).
      exists q. split; [apply in_or_app; left; exact Hq | exact Eq].
Qed.

Lemma bounds_step (pre : list (packet float)) (p : packet float)
  (l l' : locals float) :
  strict_order rt ->
  scanned pre l -> bounds rt pre l ->
  loop_body rt p l = Normal l' ->
  bounds rt (pre ++ [p]) l'.
Proof.
  intros [Hirr Htr] (_ & _ & _ & _ & _ & _ & Hst & Hen) [Hlo Hhi] E.
  destruct (loop_body_spec p l (seen_not_str _ _ Hst) (seen_not_str _ _ Hen))
    as (st & en & E' & Hs' & He').
  rewrite E' in E. inversion E; subst l'; clear E E'.
  unfold bounds. cbn [l_summary start_time end_time].
  split.
  - intros t Et q Hq. apply in_app_or in Hq.
    destruct Hs' as [[-> Hold]|(t0 & -> & Et0 & Hlt)]; inversion Et; subst t.
    + destruct Hq as [Hq|[<-|[]]]; [|apply Hirr].
      destruct Hold as [Hnone|(t0 & Et0 & Hlt)].
      * rewrite Hnone in Hst. cbn in Hst. subst pre. destruct Hq.
      * specialize (Hlo t0 Et0 q Hq).
        destruct (float_lt rt (time q) (time p)) eqn:Eq; [|reflexivity].
        rewrite (Htr _ _ _ Eq Hlt) in Hlo. discriminate Hlo.
    + destruct Hq as [Hq|[<-|[]]]; [apply (Hlo _ Et0 q Hq) | exact Hlt].
  - intros t Et q Hq. apply in_app_or in Hq.
    destruct He' as [[-> Hold]|(t0 & -> & Et0 & Hlt)]; inversion Et; subst t.
    + destruct Hq as [Hq|[<-|[]]]; [|apply Hirr].
      destruct Hold as [Hnone|(t0 & Et0 & Hlt)].
      * rewrite Hnone in Hen. cbn in Hen. subst pre. destruct Hq.
      * specialize (Hhi t0 Et0 q Hq).
        destruct (float_lt rt (time p) (time q)) eqn:Eq; [|reflexivity].
        rewrite (Htr _ _ _ Hlt Eq) in Hhi. discriminate Hhi.
    + destruct Hq as [Hq|[<-|[]]]; [apply (Hhi _ Et0 q Hq) | exact Hlt].
Qed.

(** The loop ends normally, or with the exception of the reader; the local
    variables are then those after all the packets read. *)
Lemma for_packets_scanned (ps pre : list (packet float))
  (failure : option raised) (l : locals float) :
  scanned pre l ->
  exists l',
    for_packets rt ps failure l
    = match failure with
      | None => Normal l'
      | Some e => Raised e l'
      end /\
    scanned (pre ++ ps) l' /\
    (strict_order rt -> bounds rt pre l -> bounds rt (pre ++ ps) l').
Proof.
  revert pre l. induction ps as [|p ps IH]; intros pre l Hsc.
  - exists l. rewrite app_nil_r. cbn. split; [destruct failure; reflexivity|].
    split; [exact Hsc | auto].
  - destruct (scanned_step pre p l Hsc) as (l1 & E1 & Hsc1).
    destruct (IH (pre ++ [p]) l1 Hsc1) as (l' & E & Hsc' & Hb').
    exists l'. cbn. rewrite E1, E, <- app_assoc in *. cbn in *.
    split; [reflexivity|]. split; [exact Hsc'|].
    intros Ho Hb. apply Hb'; [exact Ho|].
    apply (bounds_step pre p l l1 Ho Hsc Hb E1).
Qed.

Lemma scanned_initial : scanned (float := float) [] initial_locals.
Proof.
  unfold scanned, initial_locals. cbn.
  repeat split; try reflexivity; try constructor; intros k [].
Qed.

Lemma bounds_initial : bounds rt [] initial_locals.
Proof. split; intros t E; discriminate E. Qed.

End NetLoop.


(** *** analyze_pcap *)

Section NetClaims.
Import Scapy NetworkAnalysis ToolProps.
Context {float : Type}.
Variable rt : runtime float.

Lemma conversation_key_of (item : conv_key * Z) :
  conversation_key (conversation_of item) = fst item
  /\ conv_packet_count (conversation_of item) = snd item.
Proof. destruct item as [[[[[p a1] b1] a2] b2] n]. split; reflexivity. Qed.

Lemma sort_conversations_perm (l : list conversation) :
  Permutation (sort_conversations l) l.
Proof. apply sort_by_perm. Qed.

Lemma sort_conversations_sorted (l : list conversation) :
  StronglySorted (fun a b => conv_packet_count b <= conv_packet_count a)
    (sort_conversations l).
Proof.
  assert (H : StronglySorted
                (key_le (fun a b => Z.ltb b a) conv_packet_count)
                (sort_conversations l)).
  { apply sort_by_sorted.
    - intros a b H. apply Z.ltb_lt in H. apply Z.ltb_ge. lia.
    - intros a b c H1 H2. apply Z.ltb_ge in H1, H2. apply Z.ltb_ge. lia. }
  induction H as [|x xs _ IH Hall]; constructor; [exact IH|].
  eapply Forall_impl; [|exact Hall].
  intros y Hy. unfold key_le in Hy. apply Z.ltb_ge in Hy. exact Hy.
Qed.

Lemma dict_get_pos (k : conv_key) (d : list (conv_key * Z)) :
  dict_get k 0 d <> 0 -> In k (map fst d).
Proof.
  induction d as [|[k0 v0] d IH]; cbn; intros H; [elim H; reflexivity|].
  destruct (conv_key_eqb k0 k) eqn:E.
  - left. apply conv_key_eqb_eq. exact E.
  - right. apply IH. exact H.
Qed.

Lemma packets_of_In (k : conv_key) (p : packet float) (ps : list (packet float)) :
  In p ps -> key_of p = Some k -> 1 <= packets_of k ps.
Proof.
  intros Hin Hk. unfold packets_of.
  assert (H : In p (filter (in_conversation k) ps)).
  { apply filter_In. split; [exact Hin|]. unfold in_conversation.
    rewrite Hk. apply conv_key_eqb_refl. }
  destruct (filter (in_conversation k) ps); [destruct H|]. cbn. lia.
Qed.

(** A formatting that fails fails again in the handler. *)
Lemma format_time_raises_again (dflt dflt' : pystr) (v : time_value float)
  (e : exn) (pre : list (packet float)) :
  seen pre v ->
  format_time rt dflt v = Raise e -> format_time rt dflt' v = Raise e.
Proof.
  destruct v as [|t|s]; cbn; intros H; [discriminate| |contradiction].
  destruct (float_bool rt t); [|discriminate].
  destruct (fromtimestamp_strftime rt t); cbn; [discriminate|auto].
Qed.

(** When the capture is read to its end, [analyze_pcap] returns exactly if
    both times format, and then it returns this. *)
Lemma analyze_pcap_read (pcap_path : pystr) (ps : list (packet float)) :
  PcapReader rt pcap_path = reader ps None ->
  exists l,
    for_packets rt ps None initial_locals = Normal l /\
    scanned ps l /\
    (strict_order rt -> bounds rt ps l) /\
    match format_time rt (lit "N/A") (start_time (l_summary l)),
          format_time rt (lit "N/A") (end_time (l_summary l)) with
    | Ok v1, Ok v2 =>
        analyze_pcap rt pcap_path
        = Ok {| results_summary :=
                  {| packet_count := processed_count l;
                     start_time := v1; end_time := v2;
                     error := error (l_summary l) |};
                conversations :=
                  sort_conversations (map conversation_of (l_conversations l)) |}
    | Raise e, _ => analyze_pcap rt pcap_path = Raise e
    | Ok _, Raise e => exists e', analyze_pcap rt pcap_path = Raise e'
    end.
Proof.
  intros Hr.
  destruct (for_packets_scanned rt ps [] None initial_locals scanned_initial)
    as (l & E & Hsc & Hb).
  cbn [app] in *.
  exists l. split; [exact E|]. split; [exact Hsc|].
  split; [intros Ho; apply Hb; [exact Ho | apply bounds_initial]|].
  destruct Hsc as (_ & _ & _ & _ & _ & _ & Hst & Hen).
  unfold analyze_pcap, try_body. rewrite Hr, E.
  destruct l as [[pc st en er] convs n].
  cbn [l_summary with_summary set_packet_count set_start_time set_end_time
       start_time end_time error packet_count processed_count l_conversations]
    in *.
  destruct (format_time rt (lit "N/A") st) as [v1|e1] eqn:F1.
  - cbn [l_summary with_summary set_packet_count set_start_time set_end_time
         start_time end_time error packet_count processed_count l_conversations].
    destruct (format_time rt (lit "N/A") en) as [v2|e2] eqn:F2.
    + reflexivity.
    + cbn [other is_FileNotFoundError exc].
      unfold except_Exception.
      cbn [l_summary with_summary set_packet_count set_start_time set_end_time
           set_error start_time end_time error packet_count processed_count].
      destruct (format_time rt (lit "Error") v1) as [v1'|e1'];
        cbn [DiskAnalysis.bind set_start_time set_end_time start_time end_time
             packet_count error].
      * rewrite (format_time_raises_again _ (lit "Error") _ _ _ Hen F2).
        eexists. reflexivity.
      * eexists. reflexivity.
  - cbn [other is_FileNotFoundError exc].
    unfold except_Exception.
    cbn [l_summary with_summary set_packet_count set_start_time set_end_time
         set_error start_time end_time error packet_count processed_count].
    rewrite (format_time_raises_again _ (lit "Error") _ _ _ Hst F1).
    reflexivity.
Qed.

(** X25: when the capture is read to its end and [analyze_pcap] returns, the
    result reports no error and counts every packet; the conversations are
    the distinct normalized keys of the packets with an IP layer, each with
    the number of its packets, larger counts first. *)
Theorem analyze_pcap_conversations (pcap_path : pystr)
  (ps : list (packet float)) (r : results float) :
  PcapReader rt pcap_path = reader ps None ->
  analyze_pcap rt pcap_path = Ok r ->
  error (results_summary r) = None /\
  packet_count (results_summary r) = Z.of_nat (List.length ps) /\
  NoDup (map conversation_key (conversations r)) /\
  (forall c, In c (conversations r) ->
             conv_packet_count c = packets_of (conversation_key c) ps
             /\ 1 <= conv_packet_count c) /\
  (forall p k, In p ps -> key_of p = Some k ->
               exists c, In c (conversations r) /\ conversation_key c = k) /\
  StronglySorted (fun a b => conv_packet_count b <= conv_packet_count a)
    (conversations r).
Proof.
  intros Hr Hok.
  destruct (analyze_pcap_read pcap_path ps Hr)
    as (l & _ & (Hn & _ & Her & Hnd & Hget & Hpos & _ & _) & _ & H).
  destruct (format_time rt (lit "N/A") (start_time (l_summary l))) as [v1|e1];
    [|rewrite H in Hok; discriminate Hok].
  destruct (format_time rt (lit "N/A") (end_time (l_summary l))) as [v2|e2];
    [|destruct H as [e' H]; rewrite H in Hok; discriminate Hok].
  rewrite H in Hok. inversion Hok; subst r; clear Hok H.
  cbn [results_summary conversations error packet_count].
  pose proof (sort_conversations_perm (map conversation_of (l_conversations l)))
    as Hperm.
  assert (Hkeys : map conversation_key (map conversation_of (l_conversations l))
                  = map fst (l_conversations l)).
  { rewrite map_map. apply map_ext. intros item.
    apply (proj1 (conversation_key_of item)). }
  split; [exact Her|]. split; [exact Hn|].
  split; [|split; [|split]].
  - eapply Permutation_NoDup.
    + apply Permutation_map. symmetry. exact Hperm.
    + rewrite Hkeys. exact Hnd.
  - intros c Hc.
    apply (Permutation_in _ Hperm) in Hc. apply in_map_iff in Hc.
    destruct Hc as ([k v] & <- & Hin).
    destruct (conversation_key_of (k, v)) as [-> ->]. cbn [fst snd].
    rewrite <- Hget, (dict_get_In k v 0 _ Hnd Hin).
    split; [reflexivity|].
    rewrite <- (dict_get_In k v 0 _ Hnd Hin), Hget. apply Hpos.
    apply (in_map fst) in Hin. exact Hin.
  - intros p k Hp Hk.
    pose proof (packets_of_In k p ps Hp Hk) as H1.
    rewrite <- Hget in H1.
    assert (Hin : In k (map fst (l_conversations l))).
    { apply dict_get_pos. lia. }
    apply in_map_iff in Hin. destruct Hin as ([k' v] & Ek & Hin).
    cbn in Ek. subst k'.
    exists (conversation_of (k, v)). split.
    + apply (Permutation_in _ (Permutation_sym Hperm)).
      apply in_map. exact Hin.
    + apply (proj1 (conversation_key_of (k, v))).
  - apply sort_conversations_sorted.
Qed.

(** X26: the two directions of a flow have the same key, so their packets
    are counted in one conversation; and a packet with an IP layer always
    has a key: the comparison of the two endpoints never fails. *)
Theorem both_directions_one_conversation (ip : ip_layer)
  (tcp udp : option transport_layer) :
  (exists k, key_of_layers ip tcp udp = Ok k) /\
  key_of_layers (swap_ip ip) (option_map swap_ports tcp)
    (option_map swap_ports udp)
  = key_of_layers ip tcp udp.
Proof.
  destruct (key_of_layers_cases ip tcp udp) as (k & E1 & E2).
  split; [exists k; exact E1|]. rewrite E1, E2. reflexivity.
Qed.

(** X27: when reading the capture fails, a result that is returned carries
    the error message and no conversation. For a missing file the result is
    always returned, with packet count 0; for another exception the packet
    count is the number of packets read before it. *)
Theorem analyze_pcap_reading_error (pcap_path : pystr) (e : raised) (n : nat) :
  reading_error rt pcap_path = Some (e, n) ->
  (forall r, analyze_pcap rt pcap_path = Ok r ->
     conversations r = [] /\
     error (results_summary r)
     = Some (if is_FileNotFoundError e
             then lit "PCAP file not found: " ++ pcap_path
             else lit "Error analyzing PCAP " ++ pcap_path ++ lit ": "
                  ++ exn_msg (exc e)) /\
     packet_count (results_summary r)
     = (if is_FileNotFoundError e then 0 else Z.of_nat n)) /\
  (is_FileNotFoundError e = true -> exists r, analyze_pcap rt pcap_path = Ok r).
Proof.
  unfold reading_error.
  destruct (PcapReader rt pcap_path) as [ps [e0|]|e0] eqn:Hr; try discriminate;
    intros H; inversion H; subst e0 n; clear H.
  - destruct (for_packets_scanned rt ps [] (Some e) initial_locals scanned_initial)
      as (l & E & (Hn & Hpc & _) & _).
    cbn [app] in *.
    unfold analyze_pcap, try_body. rewrite Hr, E.
    destruct (is_FileNotFoundError e).
    + split; [|eexists; reflexivity].
      intros r H. inversion H; subst r; clear H.
      cbn. rewrite Hpc. repeat split; reflexivity.
    + split; [|discriminate].
      intros r. unfold except_Exception.
      destruct l as [[pc st en er] convs n0].
      cbn [l_summary set_packet_count set_start_time set_end_time set_error
           start_time end_time error packet_count processed_count] in *.
      destruct (format_time rt (lit "Error") st) as [v1|e1];
        cbn [DiskAnalysis.bind set_start_time set_end_time start_time end_time
             packet_count error]; [|discriminate].
      destruct (format_time rt (lit "Error") en) as [v2|e2];
        cbn [DiskAnalysis.bind set_start_time set_end_time start_time end_time
             packet_count error]; [|discriminate].
      intros H. inversion H; subst r; clear H. cbn. rewrite Hn.
      repeat split; reflexivity.
  - unfold analyze_pcap, try_body. rewrite Hr.
    destruct (is_FileNotFoundError e).
    + split; [|eexists; reflexivity].
      intros r H. inversion H; subst r; clear H.
      cbn. repeat split; reflexivity.
    + split; [|discriminate].
      intros r H. cbn in H. inversion H; subst r; clear H.
      cbn. repeat split; reflexivity.
Qed.

(** X28: a capture whose timestamps do not format makes [analyze_pcap]
    raise: the handler formats them again, and no error summary is
    returned. *)
Theorem unformattable_times_raise (pcap_path : pystr)
  (ps : list (packet float)) (failure : option raised) :
  PcapReader rt pcap_path = reader ps failure ->
  ps <> [] ->
  (forall e, failure = Some e -> is_FileNotFoundError e = false) ->
  (forall p, In p ps ->
             float_bool rt (time p) = true
             /\ exists e, fromtimestamp_strftime rt (time p) = Raise e) ->
  exists e, analyze_pcap rt pcap_path = Raise e.
Proof.
  intros Hr Hne Hf Hbad.
  assert (Hfmt : forall dflt pre (l : locals float),
            scanned pre l -> pre = ps ->
            exists e, format_time rt dflt (start_time (l_summary l)) = Raise e).
  { intros dflt pre l (_ & _ & _ & _ & _ & _ & Hst & _) ->.
    destruct (start_time (l_summary l)) as [|t|s]; cbn in *.
    - contradiction.
    - destruct Hst as (p & Hp & <-).
      destruct (Hbad p Hp) as [-> [e ->]]. cbn. eauto.
    - contradiction. }
  destruct failure as [e|].
  - destruct (for_packets_scanned rt ps [] (Some e) initial_locals scanned_initial)
      as (l & E & Hsc & _).
    cbn [app] in *.
    unfold analyze_pcap, try_body. rewrite Hr, E, (Hf e eq_refl).
    unfold except_Exception.
    destruct (Hfmt (lit "Error") ps l Hsc eq_refl) as [e1 F1].
    destruct l as [[pc st en er] convs n0].
    cbn [l_summary set_packet_count set_start_time set_end_time set_error
         start_time end_time error packet_count processed_count] in *.
    rewrite F1. cbn. eauto.
  - destruct (analyze_pcap_read pcap_path ps Hr) as (l & _ & Hsc & _ & H).
    destruct (Hfmt (lit "N/A") ps l Hsc eq_refl) as [e1 F1].
    rewrite F1 in H. eauto.
Qed.

(** X29: for timestamps compared by a strict order, the times of a result
    are those of a first and of a last packet of the capture, formatted,
    or [N/A] for the timestamp 0.0 and for a capture without packets. *)
Theorem analyze_pcap_times (pcap_path : pystr) (ps : list (packet float))
  (r : results float) :
  strict_order rt ->
  PcapReader rt pcap_path = reader ps None ->
  analyze_pcap rt pcap_path = Ok r ->
  match ps with
  | [] =>
      start_time (results_summary r) = time_str (lit "N/A") /\
      end_time (results_summary r) = time_str (lit "N/A")
  | _ :: _ =>
      exists first last s1 s2,
        In first ps /\ In last ps /\
        (forall p, In p ps -> float_lt rt (time p) (time first) = false) /\
        (forall p, In p ps -> float_lt rt (time last) (time p) = false) /\
        start_time (results_summary r) = time_str s1 /\
        shown rt (time first) s1 /\
        end_time (results_summary r) = time_str s2 /\
        shown rt (time last) s2
  end.
Proof.
  intros Ho Hr Hok.
  destruct (analyze_pcap_read pcap_path ps Hr)
    as (l & _ & (_ & _ & _ & _ & _ & _ & Hst & Hen) & Hb & H).
  destruct (Hb Ho) as [Hlo Hhi].
  destruct (format_time rt (lit "N/A") (start_time (l_summary l)))
    as [v1|e1] eqn:F1; [|rewrite H in Hok; discriminate Hok].
  destruct (format_time rt (lit "N/A") (end_time (l_summary l)))
    as [v2|e2] eqn:F2; [|destruct H as [e' H]; rewrite H in Hok; discriminate Hok].
  rewrite H in Hok. inversion Hok; subst r; clear Hok H.
  cbn [results_summary start_time end_time].
  assert (Hshown : forall t v, format_time rt (lit "N/A") (time_float t) = Ok v ->
                     exists s, v = time_str s /\ shown rt t s).
  { intros t v. unfold shown. cbn.
    destruct (float_bool rt t).
    - destruct (fromtimestamp_strftime rt t) as [s|e]; cbn; [|discriminate].
      intros F; inversion F. eauto.
    - intros F; inversion F. eauto. }
  destruct ps as [|p0 ps0].
  - destruct (start_time (l_summary l)) as [|t1|x1]; cbn in Hst;
      [|destruct Hst as (p1 & [] & _)|contradiction].
    destruct (end_time (l_summary l)) as [|t2|x2]; cbn in Hen;
      [|destruct Hen as (p2 & [] & _)|contradiction].
    cbn in F1, F2. inversion F1. inversion F2. split; reflexivity.
  - destruct (start_time (l_summary l)) as [|t1|x1]; cbn [seen] in Hst;
      [discriminate Hst|destruct Hst as (p1 & Hp1 & Et1)|contradiction].
    destruct (end_time (l_summary l)) as [|t2|x2]; cbn [seen] in Hen;
      [discriminate Hen|destruct Hen as (p2 & Hp2 & Et2)|contradiction].
    subst t1 t2.
    destruct (Hshown _ _ F1) as (s1 & -> & Hs1).
    destruct (Hshown _ _ F2) as (s2 & -> & Hs2).
    exists p1, p2, s1, s2.
    split; [exact Hp1|]. split; [exact Hp2|].
    split; [intros p Hp; apply (Hlo _ eq_refl p Hp)|].
    split; [intros p Hp; apply (Hhi _ eq_refl p Hp)|].
    auto.
Qed.

End NetClaims.


(** *** NetworkAnalysisWorker *)

Section NetWorkerClaims.
Import BaseWorker ToolProps.
Context {float : Type}.
Variable rt : NetworkAnalysis.runtime float.
Variable basename : pystr -> pystr.

(** X30: what a run of the network worker emits, for every schedule of a
    stop request: the progress message; then, when [stop] is called during
    the analysis, its message and nothing more, not even [finished];
    otherwise, if the worker is running, [finished] after one signal: the
    result when it reports no error, the error of the result, or the
    exception [analyze_pcap] raised. The run never raises. *)
Theorem network_run_emits (w : worker (NetworkAnalysis.results float))
  (pcap_path : pystr) (others : list pystr) :
  args w = pcap_path :: others ->
  fst (NetworkAnalysisWorker.run rt basename w) = Ok tt /\
  emitted (snd (NetworkAnalysisWorker.run rt basename w))
  = emitted w
    ++ [progress (lit "Analyzing PCAP: " ++ basename pcap_path ++ lit "...")]
    ++ (if stopped_in_call w then [progress (lit "Stopping analysis...")]
        else if _is_running w then
          [match NetworkAnalysis.analyze_pcap rt pcap_path with
           | Ok r =>
               match NetworkAnalysisWorker.reported_error r with
               | Some m => error (lit "PCAP analysis error: " ++ m)
               | None => results_ready r
               end
           | Raise e => error (lit "Network analysis error: " ++ exn_msg e)
           end;
           finished]
        else []).
Proof.
  intros Ha.
  unfold NetworkAnalysisWorker.run, Worker.try_except_finally,
    NetworkAnalysisWorker.run_body, args_0.
  rewrite Ha.
  destruct (NetworkAnalysis.analyze_pcap rt pcap_path) as [r|e];
    [destruct (NetworkAnalysisWorker.reported_error r)|];
    destruct w as [a [|] em [[|n]|]];
    lazy beta iota zeta delta
      [stopped_in_call returned run_finally run_except stop emit
       args _is_running emitted pending_stop fst snd negb];
    rewrite <- ?app_assoc; split; reflexivity.
Qed.

End NetWorkerClaims.


(** ** The statements above on concrete inputs *)

(** X1 on the directory [etc] of the sample file system, inode 42. *)
Lemma list_directory_complete_witness :
  Permutation
    (map (fun e => (DiskAnalysis.inode e, DiskAnalysis.name e))
       (fst (DiskAnalysis.list_directory (Sample.runtime_of Sample.tsk_whole)
               Sample2.opened None (Some 42))))
    [(50, lit "Zeta"); (51, lit "alpha")].
Proof.
  apply (list_directory_complete (Sample.runtime_of Sample.tsk_whole)
           Sample2.opened None (Some 42) Sample.fs Sample.etc_dir
           (fst (Pytsk3.dir_iter Sample.etc_dir))).
  - reflexivity.
  - reflexivity.
  - repeat constructor; intros _; reflexivity.
Defined.

(** On a library whose lookup of a type name raises, the root of the
    sample file system lists nothing. *)
Example list_root_nameless :
  fst (DiskAnalysis.list_directory (Sample.runtime_of Sample2.tsk_nameless)
         Sample2.opened_nameless (Some (lit "/")) None) = [].
Proof. vm_compute. reflexivity. Qed.

(** X2 on a directory with a file that has no metadata: the readable file is not listed either. *)
Lemma list_directory_all_or_nothing_witness :
  fst (DiskAnalysis.list_directory (Sample.runtime_of Sample2.tsk_lost)
         Sample2.opened_lost None (Some 7)) = [].
Proof.
  apply (list_directory_all_or_nothing (Sample.runtime_of Sample2.tsk_lost)
           Sample2.opened_lost None (Some 7) Sample2.fs_lost Sample2.lost_dir).
  - reflexivity.
  - right. apply Exists_cons_tl. apply Exists_cons_hd. split; reflexivity.
Defined.

(** X3 on the entry [.] of the root of the sample file system. *)
Lemma list_directory_entries_describe_files_witness :
  exists fs d f m t,
    listed Sample2.opened (Some (lit "/")) None = Some (fs, d) /\
    In f (fst (Pytsk3.dir_iter d)) /\
    Pytsk3.file_meta f = Some m /\
    Pytsk3.TSK_FS_META_TYPE_ENUM_name Sample.tsk_whole (Pytsk3.meta_type m) = Ok t /\
    DiskAnalysis.inode (Sample.entry_named (lit ".")) = Pytsk3.meta_addr m /\
    DiskAnalysis.size (Sample.entry_named (lit ".")) = Pytsk3.meta_size m /\
    DiskAnalysis.type (Sample.entry_named (lit ".")) = t /\
    DiskAnalysis.name (Sample.entry_named (lit ".")) = Listing.raw_name f /\
    DiskAnalysis.is_deleted (Sample.entry_named (lit "."))
    = Z.testbit (Pytsk3.name_flags (Pytsk3.file_name f)) 1 /\
    DiskAnalysis.mode (Sample.entry_named (lit "."))
    = (if Z.eqb (Pytsk3.meta_mode m) 0 then lit "N/A"
       else oct (Pytsk3.meta_mode m)).
Proof.
  apply (list_directory_entries_describe_files
           (Sample.runtime_of Sample.tsk_whole) Sample2.opened
           (Some (lit "/")) None (Sample.entry_named (lit "."))).
  vm_compute. left. reflexivity.
Defined.

(** X4 on the open of the sample file system at sector 0. *)
Lemma open_filesystem_success_witness :
  exists fs off,
    DiskAnalysis.fs_info Sample2.opened = Some fs /\
    DiskAnalysis.partition_offset Sample2.opened = Some off /\
    Pytsk3.FS_Info Sample.tsk_whole (DiskAnalysis.img_info Sample.fresh) off
    = Ok fs /\
    (exists before,
       DiskAnalysis.calls Sample2.opened = before ++ [Pytsk3.Call_FS_Info off]) /\
    off = 0 * Listing.sector_size Sample.fresh.
Proof.
  apply (open_filesystem_success (Sample.runtime_of Sample.tsk_whole)
           Sample.fresh None (Some 0)).
  reflexivity.
Defined.

(** X5 on partition 2 of the partitioned sample image. *)
Lemma enumerate_then_open_partition_witness :
  fst (DiskAnalysis.open_filesystem (Sample.runtime_of Sample.tsk_parts)
         (snd (DiskAnalysis.get_volume_info (Sample.runtime_of Sample.tsk_parts)
                 Sample.fresh))
         (Some 2) None) = true.
Proof.
  apply (enumerate_then_open_partition (Sample.runtime_of Sample.tsk_parts)
           Sample.fresh Sample.vs 2 Sample.linux_part 512);
    reflexivity.
Defined.

(** X6 on a probe that raises [TypeError]. *)
Lemma get_volume_info_swallows_other_errors_witness :
  fst (DiskAnalysis.get_volume_info (Sample.runtime_of Sample2.tsk_type_error)
         Sample.fresh) = Ok [].
Proof.
  apply (get_volume_info_swallows_other_errors
           (Sample.runtime_of Sample2.tsk_type_error) Sample.fresh
           Sample2.bad_argument).
  - reflexivity.
  - left. reflexivity.
Defined.

(** X7 on a volume system whose iteration fails after one partition. *)
Lemma get_volume_info_partial_then_synthetic_witness :
  fst (DiskAnalysis.get_volume_info (Sample.runtime_of Sample2.tsk_cut)
         Sample.fresh)
  = Ok [Sample.linux_volume; Sample.whole_volume].
Proof.
  apply (get_volume_info_partial_then_synthetic
           (Sample.runtime_of Sample2.tsk_cut) Sample.fresh Sample2.vs_cut
           [Sample.linux_part] Sample2.read_error Sample.img 1048576 512);
    try reflexivity.
  discriminate.
Defined.

(** X8 on the image whose block size reads as 0. *)
Lemma get_volume_info_raises_only_from_sector_count_witness :
  exists cause,
    is_IOError cause = true /\
    (Pytsk3.Volume_Info Sample.tsk_block0
       (DiskAnalysis.img_info Sample2.fresh_block0) = Raise cause
     \/ exists vs,
          Pytsk3.Volume_Info Sample.tsk_block0
            (DiskAnalysis.img_info Sample2.fresh_block0) = Ok vs
          /\ snd (Pytsk3.vs_iter vs) = Some cause).
Proof.
  apply (get_volume_info_raises_only_from_sector_count
           (Sample.runtime_of Sample.tsk_block0) Sample2.fresh_block0
           (Exn ZeroDivisionError (lit "integer division or modulo by zero"))).
  reflexivity.
Defined.

(** X9 on the handler with the sample file system open. *)
Lemma close_releases_witness :
  DiskAnalysis.fs_info (DiskAnalysis.close Sample2.opened) = None.
Proof.
  apply (close_releases (Sample.runtime_of Sample.tsk_whole) Sample2.opened).
  discriminate.
Defined.

(** X10 on a listing of the root that nobody stops. *)
Lemma undisturbed_run_one_outcome_witness :
  exists pre s,
    Worker.emitted
      (after_run (Sample.runtime_of Sample.tsk_whole)
         (Worker.new Sample.list_root_kwargs None))
    = [] ++ pre ++ [s; Worker.finished] /\
    Forall silent pre /\
    Worker.is_payload s = true /\
    s = Outcome.outcome (Sample.runtime_of Sample.tsk_whole) Sample.list_root_kwargs.
Proof.
  apply (undisturbed_run_one_outcome (Sample.runtime_of Sample.tsk_whole)
           (Worker.new Sample.list_root_kwargs None)).
  split; reflexivity.
Defined.

(** X12 on an [open_fs] task on an image no file system opens on. *)
Lemma run_never_reports_open_success_witness :
  In (Worker.filesystem_opened false []) []
  \/ (false = false /\ Worker.task_is Sample.open_fs_kwargs "open_fs" = true).
Proof.
  apply (run_never_reports_open_success (Sample.runtime_of Sample2.tsk_unopenable)
           (Worker.new Sample.open_fs_kwargs None) false []).
  vm_compute. right. right. left. reflexivity.
Defined.

(** X14 on a listing task that names partition 2. *)
Lemma list_dir_by_partition_never_lists_witness :
  exists pre,
    Worker.emitted
      (after_run (Sample.runtime_of Sample.tsk_parts)
         (Worker.new Sample.list_partition_kwargs None))
    = [] ++ pre
      ++ [Worker.error (lit "Failed to open filesystem before listing directory.");
          Worker.finished] /\
    Forall silent pre.
Proof.
  apply (proj2 (list_dir_by_partition_never_lists
                  (Sample.runtime_of Sample.tsk_parts)
                  (Worker.new Sample.list_partition_kwargs None) 2
                  eq_refl eq_refl)
           (conj eq_refl eq_refl) Sample.fresh).
  reflexivity.
Defined.

(** X15 on an [open_fs] task at sector 0 of the sample image. *)
Lemma open_fs_success_reported_as_error_witness :
  exists pre,
    Worker.emitted
      (after_run (Sample.runtime_of Sample.tsk_whole)
         (Worker.new Sample.open_fs_kwargs None))
    = [] ++ pre
      ++ [Worker.error (lit "Disk analysis error: name 'pytsk3' is not defined");
          Worker.finished] /\
    Forall silent pre.
Proof.
  apply (open_fs_success_reported_as_error (Sample.runtime_of Sample.tsk_whole)
           (Worker.new Sample.open_fs_kwargs None) Sample.fresh).
  - split; reflexivity.
  - reflexivity.
  - reflexivity.
  - reflexivity.
Defined.


(** X17 on a double click on partition 2 while the enumeration is in flight. *)
Lemma volume_selected_while_busy_witness :
  DiskTab._selected_partition_index
    (DiskTab._volume_selected (Some 0%nat) Sample2.still_enumerating) = Some 2 /\
  DiskTab.effects (DiskTab._volume_selected (Some 0%nat) Sample2.still_enumerating)
  = DiskTab.effects Sample2.still_enumerating
    ++ [DiskTab.warning_box (lit "Busy")
          (lit "Disk analysis is already in progress.")].
Proof.
  destruct (volume_selected_while_busy Sample2.still_enumerating 0%nat
              Sample.linux_volume eq_refl eq_refl eq_refl)
    as (He & _ & _ & _ & _ & Hp).
  split; [exact Hp | exact He].
Defined.

(** X18 on the tab while the enumeration is in flight. *)
Lemma browse_enabled_iff_idle_witness :
  DiskTab._disk_thread Sample2.still_enumerating = None
  <-> DiskTab.browse_button_enabled Sample2.still_enumerating = true.
Proof.
  apply (browse_enabled_iff_idle Sample2.still_enumerating).
  unfold Sample2.still_enumerating. apply reachable_play. constructor.
Defined.

(** X20 on the tab after the volumes of the chosen image have arrived. *)
Lemma session_never_shows_listing_witness :
  DiskTab.file_listing_table
    (Session.deliver Sample2.enumeration_request
       (Worker.volume_info_ready [Sample.linux_volume]) Sample2.image_chosen)
  = [].
Proof.
  apply (session_never_shows_listing
           (Session.deliver Sample2.enumeration_request
              (Worker.volume_info_ready [Sample.linux_volume])
              Sample2.image_chosen)).
  apply (Session.reachable_signal Sample2.enumeration_request
           (Sample.runtime_of Sample.tsk_parts) None).
  - apply Session.reachable_outside; [constructor | reflexivity].
  - vm_compute. left. reflexivity.
  - vm_compute. right. right. left. reflexivity.
Defined.

(** X19 on the tab while the enumeration is in flight. *)
Lemma stop_analysis_stops_witness :
  DiskTab._disk_thread (DiskTab.stop_analysis true Sample2.still_enumerating)
  = None.
Proof.
  assert (Hr : DiskTab.reachable Sample2.still_enumerating).
  { unfold Sample2.still_enumerating. apply reachable_play. constructor. }
  destruct (stop_analysis_stops true Sample2.still_enumerating Hr)
    as (_ & H & _).
  destruct (H eq_refl) as (Ht & _). exact Ht.
Defined.


(** ** The utilities on concrete inputs *)

Example analyze_lan :
  NetworkAnalysis.analyze_pcap Sample3.net_runtime (lit "lan.pcap")
  = Ok Sample3.lan_results.
Proof. vm_compute. reflexivity. Qed.

Example analyze_cut :
  NetworkAnalysis.analyze_pcap Sample3.net_runtime (lit "cut.pcap")
  = Ok Sample3.cut_results.
Proof. vm_compute. reflexivity. Qed.

(** X22 on a file of three bytes read in two chunks. *)
Lemma calculate_hashes_whole_content_witness :
  CalculateHash.calculate_hashes Sample3.hash_runtime (lit "/cases/evidence.bin")
  = (Some (lit "3"), Some (lit "0o3")).
Proof.
  apply (calculate_hashes_whole_content Sample3.hash_runtime
           (lit "/cases/evidence.bin") Sample3.evidence
           [[Byte.x61; Byte.x62]; [Byte.x63]] [Ok []]).
  - reflexivity.
  - reflexivity.
  - reflexivity.
  - repeat constructor; discriminate.
  - right. exists []. reflexivity.
Defined.

(** X23 on a file whose second read fails. *)
Lemma calculate_hashes_failure_witness :
  CalculateHash.calculate_hashes Sample3.hash_runtime (lit "/cases/damaged.bin")
  = (None, None).
Proof.
  apply (calculate_hashes_failure Sample3.hash_runtime (lit "/cases/damaged.bin")).
  right. right.
  exists Sample3.damaged, [[Byte.x61; Byte.x62]], Sample3.disk_error, [].
  split; [reflexivity|]. split; [reflexivity|].
  repeat constructor; discriminate.
Defined.

(** X24 on a run that is stopped while the file is hashed. *)
Lemma hash_run_emits_witness :
  BaseWorker.emitted
    (snd (HashWorker.run Sample3.hash_runtime Sample3.basename
            (BaseWorker.new [lit "/cases/evidence.bin"] (Some 0%nat))))
  = [BaseWorker.progress (lit "Calculating hashes for evidence.bin...");
     BaseWorker.progress (lit "Stopping analysis...")].
Proof.
  apply (proj2 (hash_run_emits Sample3.hash_runtime Sample3.basename
                  (BaseWorker.new [lit "/cases/evidence.bin"] (Some 0%nat))
                  (lit "/cases/evidence.bin") [] eq_refl)).
Defined.

(** X25 on the sample capture of four packets. *)
Lemma analyze_pcap_conversations_witness :
  NetworkAnalysis.packet_count
    (NetworkAnalysis.results_summary Sample3.lan_results) = 4 /\
  NoDup (map ToolProps.conversation_key
           (NetworkAnalysis.conversations Sample3.lan_results)).
Proof.
  destruct (analyze_pcap_conversations Sample3.net_runtime (lit "lan.pcap")
              Sample3.capture Sample3.lan_results eq_refl eq_refl)
    as (_ & Hn & Hd & _).
  split; [exact Hn | exact Hd].
Defined.

(** X27 on a capture file that does not exist. *)
Lemma analyze_pcap_reading_error_witness :
  exists r,
    NetworkAnalysis.analyze_pcap Sample3.net_runtime (lit "gone.pcap") = Ok r.
Proof.
  apply (proj2 (analyze_pcap_reading_error Sample3.net_runtime (lit "gone.pcap")
                  Sample3.no_such_file 0 eq_refl)).
  reflexivity.
Defined.

(** X28 on the sample capture where no timestamp formats. *)
Lemma unformattable_times_raise_witness :
  exists e,
    NetworkAnalysis.analyze_pcap Sample3.net_runtime_overflow (lit "lan.pcap")
    = Raise e.
Proof.
  apply (unformattable_times_raise Sample3.net_runtime_overflow (lit "lan.pcap")
           Sample3.capture None).
  - reflexivity.
  - discriminate.
  - discriminate.
  - intros p Hp. split.
    + cbn in Hp. destruct Hp as [<-|[<-|[<-|[<-|[]]]]]; reflexivity.
    + eexists. reflexivity.
Defined.

(** X29 on the sample capture. *)
Lemma analyze_pcap_times_witness :
  exists first last s1 s2,
    In first Sample3.capture /\ In last Sample3.capture /\
    (forall p, In p Sample3.capture ->
               Z.ltb (Scapy.time p) (Scapy.time first) = false) /\
    (forall p, In p Sample3.capture ->
               Z.ltb (Scapy.time last) (Scapy.time p) = false) /\
    NetworkAnalysis.start_time (NetworkAnalysis.results_summary Sample3.lan_results)
    = NetworkAnalysis.time_str s1 /\
    ToolProps.shown Sample3.net_runtime (Scapy.time first) s1 /\
    NetworkAnalysis.end_time (NetworkAnalysis.results_summary Sample3.lan_results)
    = NetworkAnalysis.time_str s2 /\
    ToolProps.shown Sample3.net_runtime (Scapy.time last) s2.
Proof.
  apply (analyze_pcap_times Sample3.net_runtime (lit "lan.pcap") Sample3.capture
           Sample3.lan_results).
  - split.
    + intros a. apply Z.ltb_irrefl.
    + intros a b c H1 H2. apply Z.ltb_lt in H1, H2. apply Z.ltb_lt. lia.
  - reflexivity.
  - reflexivity.
Defined.

(** X30 on a capture file that does not exist. *)
Lemma network_run_emits_witness :
  BaseWorker.emitted
    (snd (NetworkAnalysisWorker.run Sample3.net_runtime Sample3.basename
            (BaseWorker.new [lit "/cases/cut.pcap"] None)))
  = [BaseWorker.progress (lit "Analyzing PCAP: cut.pcap...");
     BaseWorker.error
       (lit "PCAP analysis error: PCAP file not found: /cases/cut.pcap");
     BaseWorker.finished].
Proof.
  apply (proj2 (network_run_emits Sample3.net_runtime Sample3.basename
                  (BaseWorker.new [lit "/cases/cut.pcap"] None)
                  (lit "/cases/cut.pcap") [] eq_refl)).
Defined.
